(** * Swing-AI: the golf-swing analysis pipeline, embedded and verified

    The development follows the two analyzers of the repository:
    - [Analyzer] embeds [services/golf_analyzer.py] together with the
      records of [models/analysis.py];
    - [App] embeds [app/services/golf_analyzer.py], [app/main.py] and the
      records of [app/models/analysis.py].

    Python [float] values are modelled as rationals ([Q]), which leaves
    rounding out; where rounding decides what is returned (the mean of
    the confidence step) the computation is evaluated in binary64, in
    [F64].  Python [int] values are modelled as [Z], with [//] as floor
    division.  Exceptions are values of [Py.exn] threaded through the
    error monad [Py.result]. *)

From Stdlib Require Import ZArith QArith Qminmax Lqa Lia List String Sorted.
From Stdlib Require Import DecimalString.
From Stdlib Require Floats Uint63.
From stdpp Require Import gmap strings.
Import ListNotations.

Local Open Scope Z_scope.

(** ** Python primitives used by the sources *)

Module Py.

Inductive exn : Type :=
| ValueError (msg : string)
| RuntimeError (msg : string)
| IndexError
| ZeroDivisionError
| AttributeError (cls attr : string)
| UnboundLocalError (var : string)
| HTTPException (status_code : Z) (detail : string)
| ValidationError (model : string) (errors : list (string * Z))
| Raised (msg : string).

(** A computation either raises or returns. *)
Definition result (A : Type) : Type := (exn + A)%type.

Definition ret {A} (a : A) : result A := inr a.
Definition raise {A} (e : exn) : result A := inl e.
Definition bind {A B} (c : result A) (k : A -> result B) : result B :=
  match c with
  | inl e => inl e
  | inr a => k a
  end.

(** [try: c except Exception as e: h e] *)
Definition try_except {A} (c : result A) (h : exn -> result A) : result A :=
  match c with
  | inl e => h e
  | inr a => inr a
  end.

(** Comparisons on numbers. *)
Definition le (a b : Q) : bool := Qle_bool a b.
Definition lt (a b : Q) : bool := negb (Qle_bool b a).
Definition gt (a b : Q) : bool := lt b a.

(** [min(a, b)] keeps [a] unless [b < a]; [max(a, b)] keeps [a] unless
    [b > a]. *)
Definition min (a b : Q) : Q := if lt b a then b else a.
Definition max (a b : Q) : Q := if gt b a then b else a.

(** [min(a, b, c, d)]: the first minimal argument. *)
Definition min4 (a b c d : Q) : Q := min (min (min a b) c) d.

(** [range(start, stop)] with the default step. *)
Record range : Type := mk_range { start : Z; stop : Z }.

Definition len_range (r : range) : Z := Z.max 0 (stop r - start r).

(** [l[i]]: negative indices count from the end, anything else out of
    bounds raises [IndexError]. *)
Definition index {A} (l : list A) (i : Z) : result A :=
  let n := Z.of_nat (length l) in
  let j := if i <? 0 then i + n else i in
  if (0 <=? j) && (j <? n) then
    match nth_error l (Z.to_nat j) with
    | Some a => ret a
    | None => raise IndexError
    end
  else raise IndexError.

(** [int(x)] on a float truncates towards zero. *)
Definition int (x : Q) : Z := Z.quot (Qnum x) (Z.pos (Qden x)).

Definition float (n : Z) : Q := inject_Z n.

(** [sum(l)] and [np.mean(l)] on a non-empty list of numbers, as
    rationals; [F64.np_mean] is the mean as NumPy computes it. *)
Definition sum (l : list Q) : Q := fold_left Qplus l 0%Q.
Definition mean (l : list Q) : Q := (sum l / float (Z.of_nat (length l)))%Q.

End Py.

Notation "x <- c ;; k" := (Py.bind c (fun x => k))
  (at level 100, c at next level, right associativity).

(** ** [services/golf_analyzer.py] and [models/analysis.py] *)

Module Analyzer.

(** One MediaPipe landmark, the dictionary built in
    [_extract_pose_data]. *)
Record Landmark : Type := mk_landmark {
  lm_x : Q;
  lm_y : Q;
  lm_z : Q;
  visibility : Q
}.

(** The [pose_data] dictionary: its three keys always exist. *)
Record PoseData : Type := mk_pose_data {
  landmarks : list (list Landmark);
  frame_timestamps : list Q;
  confidence_scores : list Q
}.

(** The [phases] dictionary: five fixed keys. *)
Record SwingPhases : Type := mk_phases {
  address : Py.range;
  backswing : Py.range;
  downswing : Py.range;
  impact : Py.range;
  follow_through_phase : Py.range
}.

Record SwingMetrics : Type := mk_metrics {
  backswing_angle : Q;
  downswing_speed : Q;
  follow_through : Q;
  hip_rotation : Q;
  shoulder_alignment : Q;
  weight_transfer : Q;
  tempo_ratio : Q
}.

Record SwingScores : Type := mk_scores {
  form_score : Q;
  tempo_score : Q;
  power_score : Q;
  accuracy_score : Q;
  overall_score : Q
}.

Record SwingRecommendations : Type := mk_recommendations {
  strengths : list string;
  areas_for_improvement : list string;
  specific_recommendations : list string;
  practice_drills : list string;
  priority_level : string
}.

(** What OpenCV and MediaPipe deliver for one video: the two capture
    properties and, per frame read, the landmarks found (if any). *)
Record Video : Type := mk_video {
  CAP_PROP_FRAME_COUNT : Q;
  CAP_PROP_FPS : Q;
  stream : list (option (list Landmark))
}.

Record VideoInfo : Type := mk_video_info {
  vi_frame_count : Z;
  vi_fps : Q;
  vi_duration : Q
}.

Definition _get_video_info (v : Video) : VideoInfo :=
  let frame_count := Py.int (CAP_PROP_FRAME_COUNT v) in
  let fps := CAP_PROP_FPS v in
  let duration :=
    if Py.gt fps 0 then (Py.float frame_count / fps)%Q else 0%Q in
  mk_video_info frame_count fps duration.

(** The [while cap.isOpened()] loop of [_extract_pose_data]; the frame
    counter advances on every frame, the three lists only on frames
    with landmarks. *)
Fixpoint extract_loop (fps : Q) (frames : list (option (list Landmark)))
    (frame_count : Z) (pose_data : PoseData) : Py.result PoseData :=
  match frames with
  | [] => Py.ret pose_data
  | results :: rest =>
      pose_data' <-
        match results with
        | Some lms =>
            let ls := landmarks pose_data ++ [lms] in
            ts <- (if Qeq_bool fps 0 then Py.raise Py.ZeroDivisionError
                   else Py.ret (frame_timestamps pose_data
                                  ++ [(Py.float frame_count / fps)%Q])) ;;
            lm0 <- Py.index lms 0 ;;
            Py.ret (mk_pose_data ls ts
                      (confidence_scores pose_data ++ [visibility lm0]))
        | None => Py.ret pose_data
        end ;;
      extract_loop fps rest (frame_count + 1) pose_data'
  end.

Definition _extract_pose_data (v : Video) : Py.result PoseData :=
  extract_loop (CAP_PROP_FPS v) (stream v) 0 (mk_pose_data [] [] []).

Definition _analyze_swing_phases (pose_data : PoseData)
    : Py.result SwingPhases :=
  let n := Z.of_nat (length (landmarks pose_data)) in
  if n <? 10 then
    Py.raise (Py.ValueError "Insufficient frames for swing analysis")
  else
    Py.ret {|
      address := Py.mk_range 0 (n / 4);
      backswing := Py.mk_range (n / 4) (n / 2);
      downswing := Py.mk_range (n / 2) (3 * n / 4);
      impact := Py.mk_range (3 * n / 4) (4 * n / 5);
      follow_through_phase := Py.mk_range (4 * n / 5) n
    |}.

(** Every metric ends in [return max(lo, min(hi, value))]. *)
Definition clamp (lo hi value : Q) : Q := Py.max lo (Py.min hi value).

Local Open Scope Q_scope.

Definition _calculate_backswing_angle (landmarks : list (list Landmark))
    (backswing_range : Py.range) : Py.result Q :=
  if (Py.len_range backswing_range <? 2)%Z then Py.ret 0
  else
    start_frame <- Py.index landmarks (Py.start backswing_range) ;;
    end_frame <- Py.index landmarks (Py.stop backswing_range - 1)%Z ;;
    let angle := 45 in
    Py.ret (clamp 0 180 angle).

Definition _calculate_downswing_speed (landmarks : list (list Landmark))
    (downswing_range : Py.range) : Q :=
  if (Py.len_range downswing_range <? 2)%Z then 0
  else
    let speed := 15 in
    Py.max 0 speed.

Definition _calculate_follow_through (landmarks : list (list Landmark))
    (follow_through_range : Py.range) : Q :=
  if (Py.len_range follow_through_range <? 2)%Z then 0
  else
    let angle := 60 in
    clamp 0 180 angle.

Definition _calculate_hip_rotation (landmarks : list (list Landmark))
    (downswing_range : Py.range) : Q :=
  if (Py.len_range downswing_range <? 2)%Z then 0
  else
    let angle := 75 in
    clamp 0 180 angle.

Definition _calculate_shoulder_alignment (landmarks : list (list Landmark))
    (address_range : Py.range) : Q :=
  if (Py.len_range address_range <? 1)%Z then 0
  else
    let alignment := 68 in
    clamp 0 100 alignment.

Definition _calculate_weight_transfer (landmarks : list (list Landmark))
    (swing_phases : SwingPhases) : Q :=
  let efficiency := 75 in
  clamp 0 100 efficiency.

Definition _calculate_tempo_ratio (timestamps : list Q)
    (swing_phases : SwingPhases) : Q :=
  if (Z.of_nat (length timestamps) <? 2)%Z then 1
  else
    let ratio := 2.8 in
    clamp 0.5 5 ratio.

Definition _calculate_swing_metrics (pose_data : PoseData)
    (swing_phases : SwingPhases) : Py.result SwingMetrics :=
  let landmarks := landmarks pose_data in
  backswing_angle <-
    _calculate_backswing_angle landmarks (backswing swing_phases) ;;
  let downswing_speed :=
    _calculate_downswing_speed landmarks (downswing swing_phases) in
  let follow_through :=
    _calculate_follow_through landmarks (follow_through_phase swing_phases) in
  let hip_rotation :=
    _calculate_hip_rotation landmarks (downswing swing_phases) in
  let shoulder_alignment :=
    _calculate_shoulder_alignment landmarks (address swing_phases) in
  let weight_transfer := _calculate_weight_transfer landmarks swing_phases in
  let tempo_ratio :=
    _calculate_tempo_ratio (frame_timestamps pose_data) swing_phases in
  Py.ret (mk_metrics backswing_angle downswing_speed follow_through
            hip_rotation shoulder_alignment weight_transfer tempo_ratio).

(** *** Scoring *)

Definition _rule_based_form_score (metrics : SwingMetrics) : Q :=
  let score := 70 in
  let score :=
    if Py.gt (shoulder_alignment metrics) 80 then score + 10 else score in
  let score :=
    if Py.gt (hip_rotation metrics) 70 then score + 10 else score in
  let score :=
    if Py.gt (weight_transfer metrics) 80 then score + 10 else score in
  Py.min 100 score.

Definition _rule_based_tempo_score (metrics : SwingMetrics) : Q :=
  let score := 70 in
  let score :=
    if Py.le 2.5 (tempo_ratio metrics) && Py.le (tempo_ratio metrics) 3.5
    then score + 20
    else if Py.le 2 (tempo_ratio metrics) && Py.le (tempo_ratio metrics) 4
    then score + 10
    else score in
  Py.min 100 score.

Definition _rule_based_power_score (metrics : SwingMetrics) : Q :=
  let score := 70 in
  let score :=
    if Py.gt (downswing_speed metrics) 20 then score + 15 else score in
  let score :=
    if Py.gt (hip_rotation metrics) 80 then score + 15 else score in
  Py.min 100 score.

Definition _rule_based_accuracy_score (metrics : SwingMetrics) : Q :=
  let score := 70 in
  let score :=
    if Py.gt (shoulder_alignment metrics) 85 then score + 15 else score in
  let score :=
    if Py.gt (weight_transfer metrics) 85 then score + 15 else score in
  Py.min 100 score.

Definition _predict_form_score (pose_data : PoseData)
    (metrics : SwingMetrics) : Q := _rule_based_form_score metrics.
Definition _predict_tempo_score (pose_data : PoseData)
    (metrics : SwingMetrics) : Q := _rule_based_tempo_score metrics.
Definition _predict_power_score (pose_data : PoseData)
    (metrics : SwingMetrics) : Q := _rule_based_power_score metrics.
Definition _predict_accuracy_score (pose_data : PoseData)
    (metrics : SwingMetrics) : Q := _rule_based_accuracy_score metrics.

(** A model loaded by [joblib]; the pipeline never calls it. *)
Inductive Model : Type := Pickle (file : string).

(** The attributes of [GolfSwingAnalyzer] that the pipeline reads. *)
Record GolfSwingAnalyzer : Type := mk_analyzer {
  form_model : option Model;
  tempo_model : option Model;
  power_model : option Model;
  accuracy_model : option Model
}.

(** [self.form_model is not None].  The tests [if self.form_model:] of
    [_generate_scores] are written with it as well: a model that is set
    selects the prediction, which returns the rule-based score, so that
    the truth value of a loaded object makes no difference there. *)
Definition loaded (m : option Model) : bool :=
  match m with
  | Some _ => true
  | None => false
  end.

Definition _generate_scores (self : GolfSwingAnalyzer)
    (pose_data : PoseData) (metrics : SwingMetrics) : SwingScores :=
  let form_score :=
    if loaded (form_model self) then _predict_form_score pose_data metrics
    else _rule_based_form_score metrics in
  let tempo_score :=
    if loaded (tempo_model self) then _predict_tempo_score pose_data metrics
    else _rule_based_tempo_score metrics in
  let power_score :=
    if loaded (power_model self) then _predict_power_score pose_data metrics
    else _rule_based_power_score metrics in
  let accuracy_score :=
    if loaded (accuracy_model self) then _predict_accuracy_score pose_data metrics
    else _rule_based_accuracy_score metrics in
  let overall_score :=
    (form_score + tempo_score + power_score + accuracy_score) / 4 in
  mk_scores form_score tempo_score power_score accuracy_score overall_score.

(** *** Recommendations *)

Definition _generate_recommendations (scores : SwingScores)
    (metrics : SwingMetrics) : SwingRecommendations :=
  let strengths : list string := [] in
  let areas_for_improvement : list string := [] in
  let specific_recommendations : list string := [] in
  let practice_drills : list string := [] in
  let strengths :=
    if Py.gt (form_score scores) 85
    then strengths ++ ["Excellent form fundamentals"%string]
    else strengths in
  let strengths :=
    if Py.gt (tempo_score scores) 85
    then strengths ++ ["Good tempo control"%string]
    else strengths in
  let strengths :=
    if Py.gt (power_score scores) 85
    then strengths ++ ["Strong power generation"%string]
    else strengths in
  let strengths :=
    if Py.gt (accuracy_score scores) 85
    then strengths ++ ["Consistent accuracy"%string]
    else strengths in
  let '(areas_for_improvement, specific_recommendations, practice_drills) :=
    if Py.lt (form_score scores) 80
    then (areas_for_improvement ++ ["Form consistency"%string],
          specific_recommendations ++
            ["Focus on maintaining proper posture throughout swing"%string],
          practice_drills ++ ["Mirror work for posture awareness"%string])
    else (areas_for_improvement, specific_recommendations, practice_drills) in
  let '(areas_for_improvement, specific_recommendations, practice_drills) :=
    if Py.lt (tempo_score scores) 80
    then (areas_for_improvement ++ ["Tempo control"%string],
          specific_recommendations ++
            ["Work on 3:1 backswing to downswing ratio"%string],
          practice_drills ++
            ["Metronome practice with slow motion swings"%string])
    else (areas_for_improvement, specific_recommendations, practice_drills) in
  let '(areas_for_improvement, specific_recommendations, practice_drills) :=
    if Py.lt (power_score scores) 80
    then (areas_for_improvement ++ ["Power generation"%string],
          specific_recommendations ++
            ["Improve hip rotation and weight transfer"%string],
          practice_drills ++
            ["Medicine ball throws for power development"%string])
    else (areas_for_improvement, specific_recommendations, practice_drills) in
  let '(areas_for_improvement, specific_recommendations, practice_drills) :=
    if Py.lt (accuracy_score scores) 80
    then (areas_for_improvement ++ ["Accuracy and consistency"%string],
          specific_recommendations ++
            ["Focus on shoulder alignment and target awareness"%string],
          practice_drills ++ ["Alignment stick drills"%string])
    else (areas_for_improvement, specific_recommendations, practice_drills) in
  let lowest_score :=
    Py.min4 (form_score scores) (tempo_score scores)
            (power_score scores) (accuracy_score scores) in
  let priority_level :=
    if Py.lt lowest_score 70 then "high"%string
    else if Py.lt lowest_score 80 then "medium"%string
    else "low"%string in
  mk_recommendations
    (match strengths with
     | [] => ["Good overall technique"%string]
     | _ :: _ => strengths
     end)
    areas_for_improvement specific_recommendations practice_drills
    priority_level.

(** *** Confidence *)

Definition _calculate_confidence (pose_data : PoseData) : Q :=
  match confidence_scores pose_data with
  | [] => 0
  | _ :: _ =>
      let avg_confidence := Py.mean (confidence_scores pose_data) in
      let confidence_score := avg_confidence * 100 in
      clamp 0 100 confidence_score
  end.

(** *** The whole pipeline *)

Record SwingAnalysisData : Type := mk_analysis_data {
  video_filename : string;
  analysis_timestamp : Q;
  processing_time : Q;
  scores : SwingScores;
  metrics : SwingMetrics;
  recommendations : SwingRecommendations;
  confidence_score : Q;
  frame_count : Z;
  video_duration : Q;
  pose_landmarks : list (list Landmark);
  model_version : string;
  analysis_parameters : gmap string Q
}.

(** The three readings of [time.time()] taken by [analyze_swing]. *)
Record Clock : Type := mk_clock { t_start : Q; t_done : Q; t_stamp : Q }.

(** Validation of the field [pose_landmarks: Optional[List[Dict[str,
    Any]]]] by the constructor of [SwingAnalysisData].  Every item of
    the list has to be a dictionary; the items passed are frames, each a
    list of landmark dictionaries, and such a list is no dictionary (only
    an empty list could be taken for an empty one, and extraction keeps
    no empty frame since it reads landmark 0).  The error names the
    field and the index of every rejected item. *)
Definition is_dict (frame : list Landmark) : bool :=
  match frame with
  | [] => true
  | _ :: _ => false
  end.

Fixpoint item_errors (i : Z) (frames : list (list Landmark))
    : list (string * Z) :=
  match frames with
  | [] => []
  | frame :: rest =>
      (if is_dict frame then [] else [("pose_landmarks"%string, i)])
        ++ item_errors (i + 1)%Z rest
  end.

Definition validate_pose_landmarks (frames : list (list Landmark))
    : Py.result (list (list Landmark)) :=
  match item_errors 0 frames with
  | [] => Py.ret frames
  | errors => Py.raise (Py.ValidationError "SwingAnalysisData" errors)
  end.

(** [analyze_swing]: its handler logs and re-raises, so an exception of
    any step is the exception of the call.  The arguments of the
    [SwingAnalysisData] constructor are evaluated first, then the
    constructor validates them; the other fields receive values of
    their declared types. *)
Definition analyze_swing (self : GolfSwingAnalyzer) (clock : Clock)
    (filename : string) (video : Video) : Py.result SwingAnalysisData :=
  let start_time := t_start clock in
  let video_info := _get_video_info video in
  pose_data <- _extract_pose_data video ;;
  swing_phases <- _analyze_swing_phases pose_data ;;
  metrics <- _calculate_swing_metrics pose_data swing_phases ;;
  let scores := _generate_scores self pose_data metrics in
  let recommendations := _generate_recommendations scores metrics in
  let processing_time := t_done clock - start_time in
  let confidence := _calculate_confidence pose_data in
  pose_landmarks <- validate_pose_landmarks (landmarks pose_data) ;;
  Py.ret {|
    video_filename := filename;
    analysis_timestamp := t_stamp clock;
    processing_time := processing_time;
    scores := scores;
    metrics := metrics;
    recommendations := recommendations;
    confidence_score := confidence;
    frame_count := vi_frame_count video_info;
    video_duration := vi_duration video_info;
    pose_landmarks := pose_landmarks;
    model_version := "1.0.0";
    analysis_parameters :=
      <["mediapipe_complexity"%string := 2]>
        (<["min_detection_confidence"%string := 0.5]>
           (<["min_tracking_confidence"%string := 0.5]> ∅))
  |}.

(** *** Model loading and model information *)

(** One [if (models_dir / file).exists(): self.attr = joblib.load(...)] of
    [_load_models].  The flag tells whether [joblib.load] raised, which
    ends the [try] block. *)
Definition load_step (file_exists : string -> bool)
    (joblib_load : string -> Py.result Model) (file : string)
    (assign : Model -> GolfSwingAnalyzer -> GolfSwingAnalyzer)
    (self : GolfSwingAnalyzer) : GolfSwingAnalyzer * bool :=
  if file_exists file then
    match joblib_load file with
    | inr m => (assign m self, false)
    | inl _ => (self, true)
    end
  else (self, false).

(** [_load_models]: the file system and [joblib.load] are parameters.  The
    handler only logs, so the attributes assigned before a failing load
    stay and the later ones are never tried. *)
Definition _load_models (file_exists : string -> bool)
    (joblib_load : string -> Py.result Model) (self : GolfSwingAnalyzer)
    : GolfSwingAnalyzer :=
  let '(self, raised) :=
    load_step file_exists joblib_load "models/form_scorer.pkl"
      (fun m s => mk_analyzer (Some m) (tempo_model s) (power_model s)
                    (accuracy_model s)) self in
  if raised then self else
  let '(self, raised) :=
    load_step file_exists joblib_load "models/tempo_analyzer.pkl"
      (fun m s => mk_analyzer (form_model s) (Some m) (power_model s)
                    (accuracy_model s)) self in
  if raised then self else
  let '(self, raised) :=
    load_step file_exists joblib_load "models/power_assessor.pkl"
      (fun m s => mk_analyzer (form_model s) (tempo_model s) (Some m)
                    (accuracy_model s)) self in
  if raised then self else
  let '(self, raised) :=
    load_step file_exists joblib_load "models/accuracy_evaluator.pkl"
      (fun m s => mk_analyzer (form_model s) (tempo_model s) (power_model s)
                    (Some m)) self in
  self.

(** [__init__]: the four models start as [None], then [_load_models]. *)
Definition __init__ (file_exists : string -> bool)
    (joblib_load : string -> Py.result Model) : GolfSwingAnalyzer :=
  _load_models file_exists joblib_load (mk_analyzer None None None None).

(** [is_model_loaded]: [any([...])] asks every attribute for its truth
    value.  [None] is false; the truth value of an unpickled object is
    decided by its class ([__bool__], [__len__]) and is the parameter
    [truthy]. *)
Definition truth_value (truthy : Model -> bool) (m : option Model) : bool :=
  match m with
  | Some model => truthy model
  | None => false
  end.

Definition is_model_loaded (truthy : Model -> bool)
    (self : GolfSwingAnalyzer) : bool :=
  existsb (truth_value truthy)
    [form_model self; tempo_model self; power_model self;
     accuracy_model self].

(** [get_model_info]: every model entry is [self.attr is not None]. *)
Definition get_model_info (self : GolfSwingAnalyzer) : gmap string bool :=
  <["form_model"%string := loaded (form_model self)]>
    (<["tempo_model"%string := loaded (tempo_model self)]>
       (<["power_model"%string := loaded (power_model self)]>
          (<["accuracy_model"%string := loaded (accuracy_model self)]>
             (<["mediapipe_pose"%string := true]> ∅)))).

(** [analyze_swing_from_url]: fetching the video (download and decoding)
    is a parameter; the handler logs and re-raises. *)
Definition analyze_swing_from_url (fetch : string -> Py.result Video)
    (self : GolfSwingAnalyzer) (clock : Clock) (temp_name : string)
    (video_url : string) : Py.result SwingAnalysisData :=
  video <- fetch video_url ;;
  analyze_swing self clock temp_name video.

End Analyzer.

(** ** The confidence step in binary64

    [_calculate_confidence] once more, on binary64 values.  [np.mean]
    converts the list to a [float64] array, adds its values with
    [np.add.reduce] and divides by their number.  The reduction starts
    from 0 and adds NumPy's pairwise sum of the array: fewer than 8
    values are added in order; up to 128 values are added in 8 running
    sums, one per position modulo 8, which are combined as
    [((r0 + r1) + (r2 + r3)) + ((r4 + r5) + (r6 + r7))] before the values
    left over are added in order; a longer array is cut in two (the
    first part a multiple of 8 long) and the sums of the parts are
    added. *)

Module F64.

Import PrimFloat.

Local Open Scope float_scope.

Definition of_nat (n : nat) : float := of_uint63 (Uint63.of_Z (Z.of_nat n)).

(** [min(a, b)] and [max(a, b)] as in [Py]. *)
Definition min (a b : float) : float := if ltb b a then b else a.
Definition max (a b : float) : float := if ltb a b then b else a.

(** The unrolled loop over blocks of 8 values, then the combination of
    the 8 running sums and the loop over the remaining values. *)
Fixpoint lanes (r0 r1 r2 r3 r4 r5 r6 r7 : float) (a : list float) : float :=
  match a with
  | a0 :: a1 :: a2 :: a3 :: a4 :: a5 :: a6 :: a7 :: rest =>
      lanes (r0 + a0) (r1 + a1) (r2 + a2) (r3 + a3)
            (r4 + a4) (r5 + a5) (r6 + a6) (r7 + a7) rest
  | _ =>
      fold_left add a
        (((r0 + r1) + (r2 + r3)) + ((r4 + r5) + (r6 + r7)))
  end.

(** The pairwise sum of at most 128 values. *)
Definition block_sum (a : list float) : float :=
  match a with
  | r0 :: r1 :: r2 :: r3 :: r4 :: r5 :: r6 :: r7 :: rest =>
      lanes r0 r1 r2 r3 r4 r5 r6 r7 rest
  | _ => fold_left add a 0
  end.

(** The recursion on longer arrays; every call halves the array, so a
    [fuel] of the length of the array is never used up. *)
Fixpoint pairwise_sum (fuel : nat) (a : list float) : float :=
  let n := length a in
  match fuel with
  | S fuel' =>
      if (128 <? n)%nat then
        let n2 := (n / 2 - (n / 2) mod 8)%nat in
        pairwise_sum fuel' (firstn n2 a) + pairwise_sum fuel' (skipn n2 a)
      else block_sum a
  | O => block_sum a
  end.

Definition np_sum (a : list float) : float :=
  0 + pairwise_sum (length a) a.

Definition np_mean (a : list float) : float :=
  np_sum a / of_nat (length a).

Definition _calculate_confidence (confidence_scores : list float) : float :=
  match confidence_scores with
  | [] => 0
  | _ :: _ =>
      let avg_confidence := np_mean confidence_scores in
      let confidence_score := avg_confidence * 100 in
      max 0 (min 100 confidence_score)
  end.

End F64.

(** ** [main.py]: the endpoints of the analysis service *)

Module Main.

Import Analyzer.

(** The fields of an upload that the endpoint reads, with the video the
    file decodes to. *)
Record UploadFile : Type := mk_upload {
  content_type : option string;
  size : option Z;
  filename : string;
  file : Video
}.

Record SwingAnalysisResponse : Type := mk_swing_response {
  success : bool;
  message : string;
  data : option SwingAnalysisData;
  error : option string;
  request_id : option string
}.

Section Endpoints.

(** [str()] on exception objects. *)
Variable str : Py.exn -> string.

(** [video_file.content_type.startswith('video/')] *)
Definition is_video (upload : UploadFile) : Py.result bool :=
  match content_type upload with
  | Some ct => Py.ret (String.prefix "video/" ct)
  | None => Py.raise (Py.AttributeError "NoneType" "startswith")
  end.

(** [video_file.size and video_file.size > 100 * 1024 * 1024] *)
Definition too_large (upload : UploadFile) : bool :=
  match size upload with
  | Some n => negb (n =? 0) && (100 * 1024 * 1024 <? n)
  | None => false
  end.

(** [POST /analyze-swing].  Writing and removing the temporary file is
    not modelled. *)
Definition analyze_swing (analyzer : GolfSwingAnalyzer) (clock : Clock)
    (video_file : UploadFile) : Py.result SwingAnalysisResponse :=
  Py.try_except
    (video <- is_video video_file ;;
     if negb video then
       Py.raise (Py.HTTPException 400
                   "File must be a video (MP4, MOV, AVI, etc.)")
     else if too_large video_file then
       Py.raise (Py.HTTPException 400 "File size must be less than 100MB")
     else
       analysis_result <-
         Analyzer.analyze_swing analyzer clock (filename video_file)
           (file video_file) ;;
       Py.ret {|
         success := true;
         message := "Swing analysis completed successfully";
         data := Some analysis_result;
         error := None;
         request_id := None
       |})
    (fun e =>
       Py.raise (Py.HTTPException 500
                   ("Error processing video: " ++ str e)%string)).

(** [POST /analyze-swing-url] *)
Definition analyze_swing_from_url (fetch : string -> Py.result Video)
    (analyzer : GolfSwingAnalyzer) (clock : Clock) (temp_name : string)
    (video_url : string) : Py.result SwingAnalysisResponse :=
  Py.try_except
    (analysis_result <-
       Analyzer.analyze_swing_from_url fetch analyzer clock temp_name
         video_url ;;
     Py.ret {|
       success := true;
       message := "Swing analysis completed successfully";
       data := Some analysis_result;
       error := None;
       request_id := None
     |})
    (fun e =>
       Py.raise (Py.HTTPException 500
                   ("Error processing video URL: " ++ str e)%string)).

End Endpoints.

End Main.

(** ** [app/services/golf_analyzer.py], [app/main.py] and
       [app/models/analysis.py] *)

Module App.

Local Open Scope Q_scope.

Record AnalysisRequest : Type := mk_request {
  videoUrl : string;
  userId : string;
  analysisType : string;
  priority : string
}.

Record TempoBreakdown : Type := mk_tempo_breakdown {
  tb_backswing : Q;
  tb_downswing : Q;
  tb_followThrough : Q
}.

Record FormBreakdown : Type := mk_form_breakdown {
  fb_stance : Q;
  fb_grip : Q;
  fb_alignment : Q;
  fb_posture : Q;
  fb_ballPosition : Q;
  fb_weightDistribution : Q
}.

(** The generated [id] of a recommendation is not modelled. *)
Record Recommendation : Type := mk_recommendation {
  category : string;
  rec_priority : string;
  title : string;
  description : string;
  actionable : bool;
  practiceDrills : option (list string)
}.

Record TempoAnalysis : Type := mk_tempo_analysis {
  ta_score : Q;
  ta_breakdown : TempoBreakdown;
  ta_recommendations : list Recommendation
}.

Record FormAnalysis : Type := mk_form_analysis {
  fa_score : Q;
  fa_breakdown : FormBreakdown;
  fa_recommendations : list Recommendation
}.

(** The generated [analysisId] is not modelled. *)
Record AnalysisResponse : Type := mk_response {
  success : bool;
  tempo : TempoAnalysis;
  form : FormAnalysis;
  overall : Q;
  confidence : Q;
  processingTime : Q;
  modelVersion : string;
  keyInsights : list string;
  recommendations : list Recommendation;
  thumbnailUrl : option string;
  error : option string
}.

Definition _calculate_overall_score (tempo_analysis : option TempoAnalysis)
    (form_analysis : option FormAnalysis) : Q :=
  match tempo_analysis, form_analysis with
  | Some t, Some f => (ta_score t * 0.4) + (fa_score f * 0.6)
  | Some t, None => ta_score t
  | None, Some f => fa_score f
  | None, None => 0
  end.

Definition _calculate_confidence (tempo_analysis : option TempoAnalysis)
    (form_analysis : option FormAnalysis) : Q :=
  let confidence_scores : list Q := [] in
  let confidence_scores :=
    match tempo_analysis with
    | Some t => confidence_scores ++ [Py.min 95 (70 + ta_score t * 0.25)]
    | None => confidence_scores
    end in
  let confidence_scores :=
    match form_analysis with
    | Some f => confidence_scores ++ [Py.min 95 (70 + fa_score f * 0.25)]
    | None => confidence_scores
    end in
  match confidence_scores with
  | [] => 50
  | _ :: _ =>
      Py.sum confidence_scores
      / Py.float (Z.of_nat (length confidence_scores))
  end.

Definition ge (a b : Q) : bool := Py.le b a.

Definition _generate_key_insights (tempo_analysis : option TempoAnalysis)
    (form_analysis : option FormAnalysis) : list string :=
  let insights : list string := [] in
  let insights :=
    match tempo_analysis with
    | Some t =>
        let insights :=
          insights ++
          [if ge (ta_score t) 90
           then "Excellent tempo consistency throughout the swing"%string
           else if ge (ta_score t) 80
           then "Good tempo with room for improvement"%string
           else if ge (ta_score t) 70
           then "Tempo needs work - focus on rhythm and timing"%string
           else "Significant tempo issues - consider professional coaching"%string] in
        let breakdown := ta_breakdown t in
        let insights :=
          if Py.lt (tb_backswing breakdown) (tb_downswing breakdown)
          then insights ++
               ["Backswing is faster than downswing - aim for 3:1 ratio"%string]
          else insights in
        if Py.lt (tb_followThrough breakdown) 80
        then insights ++ ["Follow-through could be more complete"%string]
        else insights
    | None => insights
    end in
  let insights :=
    match form_analysis with
    | Some f =>
        let insights :=
          insights ++
          [if ge (fa_score f) 90
           then "Outstanding form fundamentals"%string
           else if ge (fa_score f) 80
           then "Solid form with minor adjustments needed"%string
           else if ge (fa_score f) 70
           then "Form needs attention - focus on basics"%string
           else "Form requires significant improvement"%string] in
        let breakdown := fa_breakdown f in
        let insights :=
          if Py.lt (fb_posture breakdown) 80
          then insights ++
               ["Posture needs improvement - maintain spine angle"%string]
          else insights in
        if Py.lt (fb_alignment breakdown) 80
        then insights ++ ["Alignment could be more precise"%string]
        else insights
    | None => insights
    end in
  let insights :=
    match insights with
    | [] => ["Analysis completed successfully"%string]
    | _ :: _ => insights
    end in
  firstn 5 insights.

Definition _generate_recommendations (tempo_analysis : option TempoAnalysis)
    (form_analysis : option FormAnalysis) : list Recommendation :=
  let recommendations : list Recommendation := [] in
  let recommendations :=
    match tempo_analysis with
    | Some t =>
        if Py.lt (ta_score t) 80
        then recommendations ++
             [mk_recommendation "tempo" "high" "Improve Tempo Consistency"
                "Work on maintaining consistent rhythm throughout your swing"
                true
                (Some ["Practice with a metronome"%string;
                       "Count your swing phases"%string;
                       "Use tempo training aids"%string])]
        else recommendations
    | None => recommendations
    end in
  let recommendations :=
    match form_analysis with
    | Some f =>
        if Py.lt (fa_score f) 80
        then recommendations ++
             [mk_recommendation "form" "high" "Focus on Fundamentals"
                "Strengthen your basic swing mechanics"
                true
                (Some ["Mirror work for posture"%string;
                       "Alignment stick drills"%string;
                       "Slow motion practice swings"%string])]
        else recommendations
    | None => recommendations
    end in
  recommendations ++
  [mk_recommendation "general" "medium" "Regular Practice"
     "Consistent practice is key to improvement"
     true
     (Some ["Practice 3-4 times per week"%string;
            "Focus on quality over quantity"%string;
            "Record and review your swings"%string])].

Definition _create_default_tempo_analysis : TempoAnalysis :=
  mk_tempo_analysis 0 (mk_tempo_breakdown 0 0 0) [].

Definition _create_default_form_analysis : FormAnalysis :=
  mk_form_analysis 0 (mk_form_breakdown 0 0 0 0 0 0) [].

(** *** Derived values and validators of [app/models/analysis.py] *)

(** [TempoBreakdown.average] *)
Definition tempo_average (b : TempoBreakdown) : Q :=
  (tb_backswing b + tb_downswing b + tb_followThrough b) / 3.

(** [FormBreakdown.average]: [sum([...]) / 6] *)
Definition form_average (b : FormBreakdown) : Q :=
  Py.sum [fb_stance b; fb_grip b; fb_alignment b; fb_posture b;
          fb_ballPosition b; fb_weightDistribution b] / 6.

(** [AnalysisRequest.validate_video_url] *)
Definition validate_video_url (v : string) : Py.result string :=
  if negb (String.prefix "http://" v || String.prefix "https://" v) then
    Py.raise (Py.ValueError "Video URL must be a valid HTTP/HTTPS URL")
  else Py.ret v.

(** [AnalysisResponse.validate_overall_score] *)
Definition validate_overall_score (v : Q) : Py.result Q :=
  if Py.lt v 0 || Py.gt v 100 then
    Py.raise (Py.ValueError "Overall score must be between 0 and 100")
  else Py.ret v.

(** [AnalysisResponse.grade] *)
Definition grade (self : AnalysisResponse) : string :=
  if ge (overall self) 90 then "A+"
  else if ge (overall self) 85 then "A"
  else if ge (overall self) 80 then "A-"
  else if ge (overall self) 75 then "B+"
  else if ge (overall self) 70 then "B"
  else if ge (overall self) 65 then "B-"
  else if ge (overall self) 60 then "C+"
  else if ge (overall self) 55 then "C"
  else if ge (overall self) 50 then "C-"
  else "F".

(** The collaborators of the analyzer ([VideoProcessor], [PoseEstimator],
    [TempoAnalyzer], [FormAnalyzer]), the key check of [utils/auth.py] and
    the interpreter's [str()] on exception objects are not part of the
    sources: they are taken as parameters.  [Pose] and [Info] are the
    values the estimator and the video probe hand back. *)
Section Service.

Variable Pose : Type.
Variable Info : Type.

Record VideoProcessor : Type := mk_video_processor {
  download_video : string -> Py.result (option string);
  get_video_info : string -> Py.result Info;
  generate_thumbnail : string -> Py.result (option string)
}.

Record PoseEstimator : Type := mk_pose_estimator {
  estimate_pose : string -> Py.result (option Pose)
}.

Record TempoAnalyzer : Type := mk_tempo_analyzer {
  analyze_tempo : string -> Pose -> Py.result (option TempoAnalysis)
}.

Record FormAnalyzer : Type := mk_form_analyzer {
  analyze_form : string -> Pose -> Py.result (option FormAnalysis)
}.

Record GolfSwingAnalyzer : Type := mk_analyzer {
  tempo_analyzer : TempoAnalyzer;
  form_analyzer : FormAnalyzer;
  pose_estimator : PoseEstimator;
  video_processor : VideoProcessor;
  model_version : string;
  initialized : bool
}.

Variable str : Py.exn -> string.
Variable verify_api_key : string -> bool.

(** [time.time()] at entry and at the point where [processing_time] is
    taken. *)
Record Clock : Type := mk_clock { t_start : Q; t_end : Q }.

(** [not video_path]: [None] and the empty string are falsy. *)
Definition falsy (path : option string) : bool :=
  match path with
  | None => true
  | Some p => if decide (p = ""%string) then true else false
  end.

Definition path_of (path : option string) : string :=
  match path with
  | Some p => p
  | None => ""%string
  end.

(** [analysis_type in [a, b]] *)
Definition is_in (x : string) (l : list string) : bool :=
  existsb (String.eqb x) l.

(** The [except Exception as e] block of [analyze_swing].  It reads the
    locals [video_path] and [thumbnail_path] (in this order); a local that
    the [try] block has not bound yet makes the read raise.  The outer
    option tells whether the local is bound. *)
Definition on_exception (self : GolfSwingAnalyzer) (clock : Clock)
    (e : Py.exn) (video_path thumbnail_path : option (option string))
    : Py.result AnalysisResponse :=
  let processing_time := t_end clock - t_start clock in
  match video_path with
  | None => Py.raise (Py.UnboundLocalError "video_path")
  | Some _ =>
      match thumbnail_path with
      | None => Py.raise (Py.UnboundLocalError "thumbnail_path")
      | Some _ =>
          Py.ret {|
            success := false;
            tempo := _create_default_tempo_analysis;
            form := _create_default_form_analysis;
            overall := 0;
            confidence := 0;
            processingTime := processing_time;
            modelVersion := model_version self;
            keyInsights := [];
            recommendations := [];
            thumbnailUrl := None;
            error := Some (str e)
          |}
      end
  end.

(** The [try] block of [analyze_swing] from pose estimation on, where
    both locals are bound. *)
Definition analyze_with_video (self : GolfSwingAnalyzer) (clock : Clock)
    (analysis_type : string) (video_path : string)
    (thumbnail_path : option string) : Py.result AnalysisResponse :=
  pose_data <- estimate_pose (pose_estimator self) video_path ;;
  match pose_data with
  | None => Py.raise (Py.ValueError "Failed to estimate pose from video")
  | Some pose_data =>
      tempo_analysis <-
        (if is_in analysis_type ["full"%string; "tempo"%string]
         then analyze_tempo (tempo_analyzer self) video_path pose_data
         else Py.ret None) ;;
      form_analysis <-
        (if is_in analysis_type ["full"%string; "form"%string]
         then analyze_form (form_analyzer self) video_path pose_data
         else Py.ret None) ;;
      let overall_score :=
        _calculate_overall_score tempo_analysis form_analysis in
      let key_insights := _generate_key_insights tempo_analysis form_analysis in
      let recommendations :=
        _generate_recommendations tempo_analysis form_analysis in
      let confidence := _calculate_confidence tempo_analysis form_analysis in
      let processing_time := t_end clock - t_start clock in
      Py.ret {|
        success := true;
        tempo := match tempo_analysis with
                 | Some t => t
                 | None => _create_default_tempo_analysis
                 end;
        form := match form_analysis with
                | Some f => f
                | None => _create_default_form_analysis
                end;
        overall := overall_score;
        confidence := confidence;
        processingTime := processing_time;
        modelVersion := model_version self;
        keyInsights := key_insights;
        recommendations := recommendations;
        thumbnailUrl := if falsy thumbnail_path then None else thumbnail_path;
        error := None
      |}
  end.

Definition analyze_swing (self : GolfSwingAnalyzer) (clock : Clock)
    (video_url user_id analysis_type priority : string)
    : Py.result AnalysisResponse :=
  if negb (initialized self) then
    Py.raise (Py.RuntimeError "Analyzer not initialized")
  else
    match download_video (video_processor self) video_url with
    | inl e => on_exception self clock e None None
    | inr video_path =>
        if falsy video_path then
          on_exception self clock (Py.ValueError "Failed to download video")
            (Some video_path) None
        else
          match get_video_info (video_processor self) (path_of video_path) with
          | inl e => on_exception self clock e (Some video_path) None
          | inr video_info =>
              match generate_thumbnail (video_processor self)
                      (path_of video_path) with
              | inl e => on_exception self clock e (Some video_path) None
              | inr thumbnail_path =>
                  Py.try_except
                    (analyze_with_video self clock analysis_type
                       (path_of video_path) thumbnail_path)
                    (fun e => on_exception self clock e
                                (Some video_path) (Some thumbnail_path))
              end
          end
    end.

(** *** [app/main.py]: the batch endpoint *)

(** The values stored in the dictionary of a failed batch item. *)
Inductive pyval : Type :=
| VBool (b : bool)
| VStr (s : string).

Definition truthy (v : pyval) : bool :=
  match v with
  | VBool b => b
  | VStr s => if decide (s = ""%string) then false else true
  end.

(** An entry of [results]: the response object of [analyze_swing], or the
    dictionary appended by the handler of the loop. *)
Inductive batch_item : Type :=
| ItemResponse (r : AnalysisResponse)
| ItemDict (d : gmap string pyval).

(** [r.get("success", False)]: a dictionary has [get]; [AnalysisResponse]
    declares no such attribute, so the lookup raises. *)
Definition get_success (r : batch_item) : Py.result pyval :=
  match r with
  | ItemDict d => Py.ret (default (VBool false) (d !! "success"%string))
  | ItemResponse _ => Py.raise (Py.AttributeError "AnalysisResponse" "get")
  end.

Fixpoint batch_loop (analyzer : GolfSwingAnalyzer) (clock : Clock)
    (requests : list AnalysisRequest) (results : list batch_item)
    : list batch_item :=
  match requests with
  | [] => results
  | request :: rest =>
      let results :=
        match analyze_swing analyzer clock (videoUrl request) (userId request)
                (analysisType request) (priority request) with
        | inr result => results ++ [ItemResponse result]
        | inl e =>
            results ++
            [ItemDict (<["success"%string := VBool false]>
                         (<["error"%string := VStr (str e)]>
                            (<["userId"%string := VStr (userId request)]> ∅)))]
        end in
      batch_loop analyzer clock rest results
  end.

(** [[r for r in results if r.get("success", False)]] *)
Fixpoint successful_items (results : list batch_item)
    : Py.result (list batch_item) :=
  match results with
  | [] => Py.ret []
  | r :: rest =>
      v <- get_success r ;;
      kept <- successful_items rest ;;
      Py.ret (if truthy v then r :: kept else kept)
  end.

(** The dictionary returned by [analyze_batch]. *)
Record BatchReturn : Type := mk_batch_return {
  batch_success : bool;
  results : list batch_item;
  totalProcessed : Z;
  successful : Z
}.

Definition analyze_batch (analyzer : GolfSwingAnalyzer) (clock : Clock)
    (requests : list AnalysisRequest) (credentials : string)
    : Py.result BatchReturn :=
  Py.try_except
    (if negb (verify_api_key credentials) then
       Py.raise (Py.HTTPException 401 "Invalid API key")
     else
       let results := batch_loop analyzer clock requests [] in
       kept <- successful_items results ;;
       Py.ret {|
         batch_success := true;
         results := results;
         totalProcessed := Z.of_nat (length requests);
         successful := Z.of_nat (length kept)
       |})
    (fun e =>
       Py.raise (Py.HTTPException 500
                   ("Batch analysis failed: " ++ str e)%string)).

(** *** [get_model_status]

    The [get_status] methods of the three collaborators are parameters:
    each raises or hands back a dictionary.  The [lastUpdated] entry, a
    clock reading, is not modelled. *)

Record ModelStatusReturn : Type := mk_model_status {
  tempoModel : option (gmap string pyval);
  formModel : option (gmap string pyval);
  poseModel : option (gmap string pyval);
  overallHealth : string;
  status_error : option string;
  version : string
}.

(** [status.get("health", "unknown")] *)
Definition health_of (status : gmap string pyval) : pyval :=
  default (VStr "unknown") (status !! "health"%string).

(** [h == "healthy"] and the like. *)
Definition is_str (h : pyval) (s : string) : bool :=
  match h with
  | VStr t => String.eqb t s
  | VBool _ => false
  end.

Definition get_model_status (self : GolfSwingAnalyzer)
    (tempo_get_status form_get_status pose_get_status
       : Py.result (gmap string pyval)) : ModelStatusReturn :=
  match
    (tempo_status <- tempo_get_status ;;
     form_status <- form_get_status ;;
     pose_status <- pose_get_status ;;
     let health_scores :=
       [health_of tempo_status; health_of form_status;
        health_of pose_status] in
     let overall_health :=
       if forallb (fun h => is_str h "healthy") health_scores
       then "healthy"%string
       else if existsb (fun h => is_str h "unhealthy") health_scores
       then "unhealthy"%string
       else "degraded"%string in
     Py.ret {|
       tempoModel := Some tempo_status;
       formModel := Some form_status;
       poseModel := Some pose_status;
       overallHealth := overall_health;
       status_error := None;
       version := model_version self
     |})
  with
  | inr status => status
  | inl e =>
      {| tempoModel := None;
         formModel := None;
         poseModel := None;
         overallHealth := "unhealthy";
         status_error := Some (str e);
         version := model_version self |}
  end.

(** *** [app/main.py]: [POST /analyze] and [GET /models/status] *)

Definition analyze_endpoint (analyzer : GolfSwingAnalyzer) (clock : Clock)
    (request : AnalysisRequest) (credentials : string)
    : Py.result AnalysisResponse :=
  Py.try_except
    (if negb (verify_api_key credentials) then
       Py.raise (Py.HTTPException 401 "Invalid API key")
     else
       analyze_swing analyzer clock (videoUrl request) (userId request)
         (analysisType request) (priority request))
    (fun e =>
       Py.raise (Py.HTTPException 500 ("Analysis failed: " ++ str e)%string)).

Definition status_endpoint (analyzer : GolfSwingAnalyzer)
    (tempo_get_status form_get_status pose_get_status
       : Py.result (gmap string pyval)) (credentials : string)
    : Py.result ModelStatusReturn :=
  Py.try_except
    (if negb (verify_api_key credentials) then
       Py.raise (Py.HTTPException 401 "Invalid API key")
     else
       Py.ret (get_model_status analyzer tempo_get_status form_get_status
                 pose_get_status))
    (fun e =>
       Py.raise (Py.HTTPException 500
                   ("Failed to get model status: " ++ str e)%string)).

End Service.

Arguments get_model_status {Pose Info}.
Arguments analyze_endpoint {Pose Info}.
Arguments status_endpoint {Pose Info}.
Arguments mk_video_processor {Info}.
Arguments download_video {Info}.
Arguments get_video_info {Info}.
Arguments generate_thumbnail {Info}.
Arguments mk_pose_estimator {Pose}.
Arguments estimate_pose {Pose}.
Arguments mk_tempo_analyzer {Pose}.
Arguments analyze_tempo {Pose}.
Arguments mk_form_analyzer {Pose}.
Arguments analyze_form {Pose}.
Arguments mk_analyzer {Pose Info}.
Arguments tempo_analyzer {Pose Info}.
Arguments form_analyzer {Pose Info}.
Arguments pose_estimator {Pose Info}.
Arguments video_processor {Pose Info}.
Arguments model_version {Pose Info}.
Arguments initialized {Pose Info}.
Arguments on_exception {Pose Info}.
Arguments analyze_with_video {Pose Info}.
Arguments analyze_swing {Pose Info}.
Arguments batch_loop {Pose Info}.
Arguments analyze_batch {Pose Info}.

End App.

(** ** The properties the documentation states, as definitions

    These follow the wording of the documentation, not the code; the
    theorems below compare them with the code. *)

Module Spec.

Import Analyzer.

(** *** Phase ranges *)

Definition in_range (i : Z) (r : Py.range) : bool :=
  (Py.start r <=? i) && (i <? Py.stop r).

Definition non_empty (r : Py.range) : Prop := Py.start r < Py.stop r.

Definition ranges (p : SwingPhases) : list Py.range :=
  [address p; backswing p; downswing p; impact p; follow_through_phase p].

(** Each range ends where the next one starts, from [0] up to [n]. *)
Definition contiguous (p : SwingPhases) (n : Z) : Prop :=
  Py.start (address p) = 0 /\
  Py.stop (address p) = Py.start (backswing p) /\
  Py.stop (backswing p) = Py.start (downswing p) /\
  Py.stop (downswing p) = Py.start (impact p) /\
  Py.stop (impact p) = Py.start (follow_through_phase p) /\
  Py.stop (follow_through_phase p) = n.

Definition ordered (p : SwingPhases) : Prop :=
  Forall (fun r => Py.start r <= Py.stop r) (ranges p).

(** In how many of the five ranges the index [i] lies. *)
Definition cover_count (p : SwingPhases) (i : Z) : nat :=
  length (List.filter (in_range i) (ranges p)).

(** No gap and no overlap: the indices of [[0, n)] lie in exactly one
    range, all others in none. *)
Definition partitions (p : SwingPhases) (n : Z) : Prop :=
  forall i : Z,
    cover_count p i = (if (0 <=? i) && (i <? n) then 1%nat else 0%nat).

Definition all_non_empty (p : SwingPhases) : Prop :=
  Forall non_empty (ranges p).

(** *** Impact detection

    The displacement speed of the wrist between consecutive frames, the
    frame where it peaks inside the middle 60% of the sequence (earliest
    frame on ties), and the degenerate case where no difference exceeds
    [eps].  Speeds are compared through their squares, which keeps the
    order of the magnitudes. *)

Local Open Scope Q_scope.

Definition position (wrist : nat) (frame : list Landmark) : Q * Q * Q :=
  match nth_error frame wrist with
  | Some lm => (lm_x lm, lm_y lm, lm_z lm)
  | None => (0, 0, 0)
  end.

Definition sq_speed (wrist : nat) (pose_data : PoseData) (i : nat) : Q :=
  match i with
  | O => 0
  | S j =>
      match nth_error (landmarks pose_data) j,
            nth_error (landmarks pose_data) i,
            nth_error (frame_timestamps pose_data) j,
            nth_error (frame_timestamps pose_data) i with
      | Some f0, Some f1, Some t0, Some t1 =>
          let '(x0, y0, z0) := position wrist f0 in
          let '(x1, y1, z1) := position wrist f1 in
          ((x1 - x0) * (x1 - x0) + (y1 - y0) * (y1 - y0)
           + (z1 - z0) * (z1 - z0))
          / ((t1 - t0) * (t1 - t0))
      | _, _, _, _ => 0
      end
  end.

(** The frames from 20% to 80% of the sequence. *)
Definition middle (n : nat) : list nat :=
  List.filter (fun i => (n <=? 5 * i)%nat && (5 * i <? 4 * n)%nat) (seq 0 n).

Definition impact_candidate (wrist : nat) (pose_data : PoseData)
    : option nat :=
  fold_left
    (fun best i =>
       match best with
       | None => Some i
       | Some b =>
           if Py.lt (sq_speed wrist pose_data b) (sq_speed wrist pose_data i)
           then Some i else Some b
       end)
    (middle (length (landmarks pose_data))) None.

Definition degenerate (eps : Q) (wrist : nat) (pose_data : PoseData) : bool :=
  forallb (fun i => Py.le (sq_speed wrist pose_data i) (eps * eps))
          (seq 0 (length (landmarks pose_data))).

(** Unless the signal is degenerate, the impact range holds the peak
    frame (it is meant to start there). *)
Definition impact_at_peak (eps : Q) (wrist : nat) (pose_data : PoseData)
    (p : SwingPhases) : Prop :=
  degenerate eps wrist pose_data = false ->
  exists i : nat,
    impact_candidate wrist pose_data = Some i /\
    in_range (Z.of_nat i) (impact p) = true.

(** *** Metric ranges *)

Definition metrics_in_bounds (m : SwingMetrics) : Prop :=
  (0 <= backswing_angle m <= 180) /\
  (0 <= follow_through m <= 180) /\
  (0 <= hip_rotation m <= 180) /\
  (0 <= shoulder_alignment m <= 100) /\
  (0 <= weight_transfer m <= 100) /\
  (0.5 <= tempo_ratio m <= 5).

(** *** The tempo ratio read from the timestamps

    The time the backswing takes over the time the downswing takes,
    clamped to [[0.5, 5]].  A phase lasts from its first frame to the
    first frame of the next phase ([phase_span]), or to its own last
    frame ([phase_extent]). *)

Definition timestamp_at (timestamps : list Q) (i : Z) : Q :=
  nth (Z.to_nat i) timestamps 0.

Definition phase_span (timestamps : list Q) (r : Py.range) : Q :=
  timestamp_at timestamps (Py.stop r) - timestamp_at timestamps (Py.start r).

Definition phase_extent (timestamps : list Q) (r : Py.range) : Q :=
  timestamp_at timestamps (Py.stop r - 1)
  - timestamp_at timestamps (Py.start r).

Definition raw_tempo_ratio (duration : list Q -> Py.range -> Q)
    (timestamps : list Q) (p : SwingPhases) : Q :=
  duration timestamps (backswing p) / duration timestamps (downswing p).

Definition tempo_ratio_from_timestamps (duration : list Q -> Py.range -> Q)
    (timestamps : list Q) (p : SwingPhases) : Q :=
  clamp 0.5 5 (raw_tempo_ratio duration timestamps p).

(** *** The rule table of the scoring step

    Base 70, additive bonuses, capped at 100.  The table is a parameter
    of the tempo +10 interval, which the documentation gives as
    [[2.0, 4.0)]. *)

Inductive Category : Type := Form | Tempo | Power | Accuracy.

Definition category_eqb (c d : Category) : bool :=
  match c, d with
  | Form, Form | Tempo, Tempo | Power, Power | Accuracy, Accuracy => true
  | _, _ => false
  end.

Definition categories : list Category := [Form; Tempo; Power; Accuracy].

Record Rule : Type := mk_rule {
  rule_category : Category;
  rule_holds : SwingMetrics -> bool;
  rule_bonus : Q
}.

Definition between (lo hi x : Q) : bool := Py.le lo x && Py.le x hi.

Definition half_open (lo hi x : Q) : bool := Py.le lo x && Py.lt x hi.

Definition rule_table (tempo_plus10 : Q -> bool) : list Rule :=
  [ mk_rule Form (fun m => Py.gt (shoulder_alignment m) 80) 10;
    mk_rule Form (fun m => Py.gt (hip_rotation m) 70) 10;
    mk_rule Form (fun m => Py.gt (weight_transfer m) 80) 10;
    mk_rule Tempo (fun m => between 2.5 3.5 (tempo_ratio m)) 20;
    mk_rule Tempo
      (fun m => negb (between 2.5 3.5 (tempo_ratio m))
                && tempo_plus10 (tempo_ratio m)) 10;
    mk_rule Power (fun m => Py.gt (downswing_speed m) 20) 15;
    mk_rule Power (fun m => Py.gt (hip_rotation m) 80) 15;
    mk_rule Accuracy (fun m => Py.gt (shoulder_alignment m) 85) 15;
    mk_rule Accuracy (fun m => Py.gt (weight_transfer m) 85) 15 ].

Definition bonuses (table : list Rule) (c : Category) (m : SwingMetrics)
    : list Q :=
  map rule_bonus
    (List.filter (fun r => category_eqb (rule_category r) c && rule_holds r m)
                 table).

Definition table_score (table : list Rule) (c : Category) (m : SwingMetrics)
    : Q :=
  Py.min 100 (70 + Py.sum (bonuses table c m)).

(** The table as documented, and the table with the closed interval
    [[2.0, 4.0]]. *)
Definition stated_table : list Rule := rule_table (half_open 2 4).
Definition closed_table : list Rule := rule_table (between 2 4).

Definition score_of (s : SwingScores) (c : Category) : Q :=
  match c with
  | Form => form_score s
  | Tempo => tempo_score s
  | Power => power_score s
  | Accuracy => accuracy_score s
  end.

(** The two-category blend of the other analyzer. *)
Definition weighted_blend (tempo form : Q) : Q := tempo * 0.4 + form * 0.6.

(** *** Recommendation templates, one per category *)

Definition strength_text (c : Category) : string :=
  match c with
  | Form => "Excellent form fundamentals"
  | Tempo => "Good tempo control"
  | Power => "Strong power generation"
  | Accuracy => "Consistent accuracy"
  end.

Definition area_text (c : Category) : string :=
  match c with
  | Form => "Form consistency"
  | Tempo => "Tempo control"
  | Power => "Power generation"
  | Accuracy => "Accuracy and consistency"
  end.

Definition tip_text (c : Category) : string :=
  match c with
  | Form => "Focus on maintaining proper posture throughout swing"
  | Tempo => "Work on 3:1 backswing to downswing ratio"
  | Power => "Improve hip rotation and weight transfer"
  | Accuracy => "Focus on shoulder alignment and target awareness"
  end.

Definition drill_text (c : Category) : string :=
  match c with
  | Form => "Mirror work for posture awareness"
  | Tempo => "Metronome practice with slow motion swings"
  | Power => "Medicine ball throws for power development"
  | Accuracy => "Alignment stick drills"
  end.

(** The categories whose score passes the test, in the fixed order. *)
Definition selected (test : Q -> bool) (s : SwingScores) : list Category :=
  List.filter (fun c => test (score_of s c)) categories.

Definition strong (s : SwingScores) : list Category :=
  selected (fun x => Py.gt x 85) s.

Definition weak (s : SwingScores) : list Category :=
  selected (fun x => Py.lt x 80) s.

(** Some category scores below [x]. *)
Definition some_below (s : SwingScores) (x : Q) : Prop :=
  exists c : Category, In c categories /\ score_of s c < x.

(** *** Confidence

    The mean visibility over all landmarks of all frames, times 100,
    clamped to [[0, 100]]; 0 without visibility data. *)

Definition all_visibilities (pose_data : PoseData) : list Q :=
  concat (map (map visibility) (landmarks pose_data)).

Definition confidence (pose_data : PoseData) : Q :=
  match all_visibilities pose_data with
  | [] => 0
  | _ :: _ => clamp 0 100 (Py.mean (all_visibilities pose_data) * 100)
  end.

End Spec.

(** ** Auxiliary definitions for the statements *)

Module Aux.

Import Analyzer.

Definition frame_total (pose_data : PoseData) : Z :=
  Z.of_nat (length (landmarks pose_data)).

(** The five boundaries computed by [_analyze_swing_phases]. *)
Definition fixed_split (n : Z) : SwingPhases :=
  {| address := Py.mk_range 0 (n / 4);
     backswing := Py.mk_range (n / 4) (n / 2);
     downswing := Py.mk_range (n / 2) (3 * n / 4);
     impact := Py.mk_range (3 * n / 4) (4 * n / 5);
     follow_through_phase := Py.mk_range (4 * n / 5) n |}.

(** The pose data of a video, when extraction returns. *)
Definition extracted (v : Video) : PoseData :=
  match _extract_pose_data v with
  | inr pose_data => pose_data
  | inl _ => mk_pose_data [] [] []
  end.

(** Steps two and three of [analyze_swing]: segmentation, then the
    metrics of the segmented sequence. *)
Definition extract_metrics (pose_data : PoseData) : Py.result SwingMetrics :=
  swing_phases <- _analyze_swing_phases pose_data ;;
  _calculate_swing_metrics pose_data swing_phases.

(** The values written into the metric functions. *)
Definition placeholder_metrics : SwingMetrics :=
  mk_metrics 45%Q 15%Q 60%Q 75%Q 68%Q 75%Q 2.8%Q.

(** The three lists of [pose_data] grow together in [_extract_pose_data]. *)
Definition aligned (pose_data : PoseData) : Prop :=
  length (frame_timestamps pose_data) = length (landmarks pose_data) /\
  length (confidence_scores pose_data) = length (landmarks pose_data).

(** The visibility of landmark 0 of a frame. *)
Definition first_visibility (frame : list Landmark) : Q :=
  match frame with
  | lm0 :: _ => visibility lm0
  | [] => 0%Q
  end.

(** The entry the loop of [analyze_batch] appends for one request. *)
Definition item_of {Pose Info : Type} (str : Py.exn -> string)
    (analyzer : App.GolfSwingAnalyzer Pose Info) (clock : App.Clock)
    (request : App.AnalysisRequest) : App.batch_item :=
  match App.analyze_swing str analyzer clock (App.videoUrl request)
          (App.userId request) (App.analysisType request)
          (App.priority request) with
  | inr result => App.ItemResponse result
  | inl e =>
      App.ItemDict
        (<["success"%string := App.VBool false]>
           (<["error"%string := App.VStr (str e)]>
              (<["userId"%string := App.VStr (App.userId request)]> ∅)))
  end.

(** The frames of a stream that carry landmarks, in order. *)
Definition detected (frames : list (option (list Landmark)))
    : list (list Landmark) :=
  omap id frames.

(** The positions, counted from [k], of the frames that carry landmarks. *)
Fixpoint detected_at (frames : list (option (list Landmark))) (k : Z)
    : list Z :=
  match frames with
  | [] => []
  | Some _ :: rest => k :: detected_at rest (k + 1)
  | None :: rest => detected_at rest (k + 1)
  end.

(** One validation error per item, for [n] items counted from [i]. *)
Fixpoint rejected_from (i : Z) (n : nat) : list (string * Z) :=
  match n with
  | O => []
  | S k => ("pose_landmarks"%string, i) :: rejected_from (i + 1) k
  end.

(** The scores [_generate_scores] returns on the placeholder metrics. *)
Definition placeholder_scores : SwingScores :=
  mk_scores 80%Q 90%Q 70%Q 70%Q ((80 + 90 + 70 + 70) / 4)%Q.

(** The recommendations that go with them. *)
Definition placeholder_recommendations : SwingRecommendations :=
  mk_recommendations
    ["Good tempo control"%string]
    ["Power generation"%string; "Accuracy and consistency"%string]
    ["Improve hip rotation and weight transfer"%string;
     "Focus on shoulder alignment and target awareness"%string]
    ["Medicine ball throws for power development"%string;
     "Alignment stick drills"%string]
    "medium".

(** The order of the letter grades, best last. *)
Definition grade_rank (g : string) : nat :=
  if String.eqb g "A+" then 9
  else if String.eqb g "A" then 8
  else if String.eqb g "A-" then 7
  else if String.eqb g "B+" then 6
  else if String.eqb g "B" then 5
  else if String.eqb g "B-" then 4
  else if String.eqb g "C+" then 3
  else if String.eqb g "C" then 2
  else if String.eqb g "C-" then 1
  else 0.

(** A frame with at least one landmark. *)
Definition has_landmark (frame : list Landmark) : bool :=
  match frame with
  | [] => false
  | _ :: _ => true
  end.

(** The model files of [_load_models] with the attribute each one
    fills, in loading order. *)
Definition model_files
    : list (string * (GolfSwingAnalyzer -> option Model)) :=
  [("models/form_scorer.pkl"%string, form_model);
   ("models/tempo_analyzer.pkl"%string, tempo_model);
   ("models/power_assessor.pkl"%string, power_model);
   ("models/accuracy_evaluator.pkl"%string, accuracy_model)].

(** The model entries of [get_model_info] with the attribute each one
    reports. *)
Definition model_entries
    : list (string * (GolfSwingAnalyzer -> option Model)) :=
  [("form_model"%string, form_model);
   ("tempo_model"%string, tempo_model);
   ("power_model"%string, power_model);
   ("accuracy_model"%string, accuracy_model)].

(** The bounds declared on the score of an analysis ([ge=0, le=100]),
    for an analysis that may be absent. *)
Definition tempo_in_range (t : option App.TempoAnalysis) : Prop :=
  forall a, t = Some a -> (0 <= App.ta_score a <= 100)%Q.

Definition form_in_range (f : option App.FormAnalysis) : Prop :=
  forall a, f = Some a -> (0 <= App.fa_score a <= 100)%Q.

(** The recommendation [_generate_recommendations] of the second
    analyzer always ends with. *)
Definition general_recommendation : App.Recommendation :=
  App.mk_recommendation "general" "medium" "Regular Practice"
    "Consistent practice is key to improvement" true
    (Some ["Practice 3-4 times per week"%string;
           "Focus on quality over quantity"%string;
           "Record and review your swings"%string]).

End Aux.

(** ** Sample inputs *)

Module Sample.

Import Analyzer.

Local Open Scope Q_scope.

(** A frame whose 33 landmarks share one position and one visibility. *)
Definition frame_at (x vis : Q) : list Landmark :=
  repeat (mk_landmark x 0.5 0 vis) 33.

(** A 30 fps video of [n] frames, all detected, standing still. *)
Definition still_video (n : nat) (vis : Q) : Video :=
  mk_video (Py.float (Z.of_nat n)) 30 (repeat (Some (frame_at 0.5 vis)) n).

Definition pose9 : PoseData := Aux.extracted (still_video 9 1).
Definition pose10 : PoseData := Aux.extracted (still_video 10 1).
Definition pose11 : PoseData := Aux.extracted (still_video 11 1).
Definition pose40 : PoseData := Aux.extracted (still_video 40 1).

(** The same 40 frames as [pose40], elsewhere and barely visible. *)
Definition pose40_dim : PoseData :=
  Aux.extracted
    (mk_video 40 30 (repeat (Some (frame_at 0.1 0.2)) 40)).

(** Ten frames; the body jumps from [x = 0.2] to [x = 0.7] between frames
    3 and 4 and stands still otherwise. *)
Definition jump_video : Video :=
  mk_video 10 30
    (repeat (Some (frame_at 0.2 1)) 4 ++ repeat (Some (frame_at 0.7 1)) 6).

Definition pose_jump : PoseData := Aux.extracted jump_video.

(** The metrics of the documented form scenario, and a metric set with
    [tempo_ratio = 4.0]. *)
Definition metrics_form_scenario : SwingMetrics :=
  mk_metrics 45 15 60 75 90 85 2.8.

Definition metrics_tempo_4 : SwingMetrics :=
  mk_metrics 45 15 60 75 68 75 4.

Definition no_models : GolfSwingAnalyzer := mk_analyzer None None None None.




(** *** A batch of three requests

    The pose estimator hands back the number of frames it found: 5 for
    the second video, 40 for the others; the tempo analyzer refuses
    fewer than 10 frames.  Everything else succeeds. *)

(** [str(n)] on an integer. *)
Definition str_int (n : Z) : string := NilZero.string_of_int (Z.to_int n).

(** [str(e)].  An [HTTPException] prints as its status code and its
    detail; of a [ValidationError] the headline is given, which counts
    the errors and names the model. *)
Definition str (e : Py.exn) : string :=
  match e with
  | Py.ValueError msg | Py.RuntimeError msg | Py.Raised msg => msg
  | Py.IndexError => "list index out of range"
  | Py.ZeroDivisionError => "float division by zero"
  | Py.AttributeError cls attr =>
      "'" ++ cls ++ "' object has no attribute '" ++ attr ++ "'"
  | Py.UnboundLocalError var =>
      "local variable '" ++ var ++ "' referenced before assignment"
  | Py.HTTPException status_code detail =>
      str_int status_code ++ ": " ++ detail
  | Py.ValidationError model errors =>
      str_int (Z.of_nat (length errors))
        ++ (if (length errors =? 1)%nat then " validation error for "
            else " validation errors for ")
        ++ model
  end%string.

Definition verify_api_key (key : string) : bool := String.eqb key "secret".

Definition good_tempo : App.TempoAnalysis :=
  App.mk_tempo_analysis 85 (App.mk_tempo_breakdown 85 80 90) [].

Definition good_form : App.FormAnalysis :=
  App.mk_form_analysis 90 (App.mk_form_breakdown 90 90 90 90 90 90) [].

Definition batch_analyzer : App.GolfSwingAnalyzer Z unit :=
  App.mk_analyzer
    (App.mk_tempo_analyzer
       (fun _ frames =>
          if (frames <? 10)%Z
          then Py.raise (Py.Raised "Insufficient frames for swing analysis")
          else Py.ret (Some good_tempo)))
    (App.mk_form_analyzer (fun _ _ => Py.ret (Some good_form)))
    (App.mk_pose_estimator
       (fun path =>
          if String.eqb path "https://videos/2.mp4"
          then Py.ret (Some 5%Z) else Py.ret (Some 40%Z)))
    (App.mk_video_processor
       (fun url => Py.ret (Some url))
       (fun _ => Py.ret tt)
       (fun _ => Py.ret (Some "thumbnail.jpg"%string)))
    "1.0.0" true.

Definition batch_clock : App.Clock := App.mk_clock 0 1.

Definition request_of (n : string) : App.AnalysisRequest :=
  App.mk_request ("https://videos/" ++ n ++ ".mp4") ("user-" ++ n)
    "full" "normal".

Definition batch_of_three : list App.AnalysisRequest :=
  [request_of "1"; request_of "2"; request_of "3"].

Definition analyze_item (request : App.AnalysisRequest)
    : Py.result App.AnalysisResponse :=
  App.analyze_swing str batch_analyzer batch_clock
    (App.videoUrl request) (App.userId request)
    (App.analysisType request) (App.priority request).

(** Four frames at 30 fps; the pose is lost in the first and the third. *)
Definition stream_gaps : list (option (list Landmark)) :=
  [None; Some (frame_at 0.5 1); None; Some (frame_at 0.7 1)].

Definition video_gaps : Video := mk_video 4 30 stream_gaps.

Definition pose_gaps : PoseData := Aux.extracted video_gaps.

(** A 32 fps video of 19 frames in which the player is lost during the
    backswing: landmarks are found in frames 0 to 3, 8 and 14 to 18.  Of
    the 10 frames kept, the backswing (kept frames 2 to 4) then takes 6
    times as long as the downswing (kept frames 5 and 6). *)
Definition slow_backswing_video : Video :=
  mk_video 19 32
    (repeat (Some (frame_at 0.5 1)) 4 ++ repeat None 4
     ++ [Some (frame_at 0.5 1)] ++ repeat None 5
     ++ repeat (Some (frame_at 0.5 1)) 5).

Definition pose_slow_backswing : PoseData :=
  Aux.extracted slow_backswing_video.

(** A model directory in which only the tempo and power files exist and
    the tempo file cannot be loaded. *)
Definition some_files (file : string) : bool :=
  String.eqb file "models/tempo_analyzer.pkl"
  || String.eqb file "models/power_assessor.pkl".

Definition broken_tempo (file : string) : Py.result Model :=
  if String.eqb file "models/tempo_analyzer.pkl"
  then Py.raise (Py.Raised "invalid load key")
  else Py.ret (Pickle file).

Definition load_any (file : string) : Py.result Model :=
  Py.ret (Pickle file).

(** An upload that is not a video, and a short video upload. *)
Definition text_upload : Main.UploadFile :=
  Main.mk_upload (Some "text/plain"%string) (Some 12%Z) "notes.txt"
    (still_video 0 1).

Definition short_upload : Main.UploadFile :=
  Main.mk_upload (Some "video/mp4"%string) (Some 2048%Z) "swing.mp4"
    (still_video 9 1).

(** A tempo and a form analysis that trigger every insight. *)
Definition weak_tempo : App.TempoAnalysis :=
  App.mk_tempo_analysis 60 (App.mk_tempo_breakdown 40 70 50) [].

Definition weak_form : App.FormAnalysis :=
  App.mk_form_analysis 65 (App.mk_form_breakdown 70 70 60 60 70 70) [].

(** The batch analyzer before [initialize], and one whose downloads
    fail. *)
Definition idle_analyzer : App.GolfSwingAnalyzer Z unit :=
  App.mk_analyzer (App.tempo_analyzer batch_analyzer)
    (App.form_analyzer batch_analyzer) (App.pose_estimator batch_analyzer)
    (App.video_processor batch_analyzer) "1.0.0" false.

Definition offline_analyzer : App.GolfSwingAnalyzer Z unit :=
  App.mk_analyzer (App.tempo_analyzer batch_analyzer)
    (App.form_analyzer batch_analyzer) (App.pose_estimator batch_analyzer)
    (App.mk_video_processor
       (fun _ => Py.raise (Py.Raised "connection refused"))
       (fun _ => Py.ret tt)
       (fun _ => Py.ret (Some "thumbnail.jpg"%string)))
    "1.0.0" true.

(** Status dictionaries of the collaborators. *)
Definition status_of (health : string) : gmap string App.pyval :=
  <["health"%string := App.VStr health]> ∅.

(** A successful response with the given overall score. *)
Definition response_with (overall : Q) : App.AnalysisResponse :=
  App.mk_response true good_tempo good_form overall 90 1 "1.0.0" [] []
    None None.

End Sample.

(** An inequality between closed rationals is settled by evaluation. *)
Ltac constant_bounds := vm_compute; discriminate.

(** ** Facts about the Python primitives *)

Section PyFacts.

Local Open Scope Q_scope.

Lemma lt_spec (a b : Q) : Py.lt a b = true <-> a < b.
Proof.
  unfold Py.lt. rewrite negb_true_iff.
  destruct (Qle_bool b a) eqn:E.
  - apply Qle_bool_iff in E. split; [discriminate | intros H; lra].
  - split; [intros _ | reflexivity].
    destruct (Qlt_le_dec a b) as [H | H]; [exact H |].
    apply Qle_bool_iff in H. congruence.
Qed.

Lemma lt_false (a b : Q) : Py.lt a b = false <-> b <= a.
Proof.
  unfold Py.lt. rewrite negb_false_iff. apply Qle_bool_iff.
Qed.

Lemma le_spec (a b : Q) : Py.le a b = true <-> a <= b.
Proof. apply Qle_bool_iff. Qed.

Lemma le_false (a b : Q) : Py.le a b = false <-> b < a.
Proof.
  unfold Py.le. destruct (Qle_bool a b) eqn:E.
  - apply Qle_bool_iff in E. split; [discriminate | intros H; lra].
  - split; [intros _ | reflexivity].
    destruct (Qlt_le_dec b a) as [H | H]; [exact H |].
    apply Qle_bool_iff in H. congruence.
Qed.

Lemma gt_spec (a b : Q) : Py.gt a b = true <-> b < a.
Proof. apply lt_spec. Qed.

Lemma gt_false (a b : Q) : Py.gt a b = false <-> a <= b.
Proof. apply lt_false. Qed.

Lemma min_le_l (a b : Q) : Py.min a b <= a.
Proof.
  unfold Py.min. destruct (Py.lt b a) eqn:E.
  - apply lt_spec in E. lra.
  - lra.
Qed.

Lemma min_le_r (a b : Q) : Py.min a b <= b.
Proof.
  unfold Py.min. destruct (Py.lt b a) eqn:E.
  - lra.
  - apply lt_false in E. exact E.
Qed.

Lemma min_glb (a b c : Q) : c <= a -> c <= b -> c <= Py.min a b.
Proof. intros Ha Hb. unfold Py.min. destruct (Py.lt b a); assumption. Qed.




End PyFacts.

(** Linear arithmetic over rationals with divisions by 1, 2 and 4. *)
Ltac lra_consts :=
  unfold Qdiv in *;
  change (/ 1)%Q with 1%Q in *;
  change (/ 2)%Q with (1 # 2)%Q in *;
  change (/ 4)%Q with (1 # 4)%Q in *;
  lra.

(** Turn the outcomes of the comparisons in the context into
    inequalities. *)
Ltac reflect_tests :=
  repeat match goal with
         | H : Py.gt _ _ = true |- _ => apply gt_spec in H
         | H : Py.gt _ _ = false |- _ => apply gt_false in H
         | H : Py.lt _ _ = true |- _ => apply lt_spec in H
         | H : Py.lt _ _ = false |- _ => apply lt_false in H
         | H : Py.le _ _ = true |- _ => apply le_spec in H
         | H : Py.le _ _ = false |- _ => apply le_false in H
         end.

(** ** Phase segmentation *)

Section Phases.

Import Analyzer Aux.

Lemma phases_enough_frames (pose_data : PoseData) :
  10 <= frame_total pose_data ->
  _analyze_swing_phases pose_data = inr (fixed_split (frame_total pose_data)).
Proof.
  intros H. unfold _analyze_swing_phases, frame_total in *.
  destruct (Z.ltb_spec (Z.of_nat (length (landmarks pose_data))) 10); [lia |].
  reflexivity.
Qed.

Lemma phases_too_few_frames (pose_data : PoseData) :
  frame_total pose_data < 10 ->
  _analyze_swing_phases pose_data =
  inl (Py.ValueError "Insufficient frames for swing analysis").
Proof.
  intros H. unfold _analyze_swing_phases, frame_total in *.
  destruct (Z.ltb_spec (Z.of_nat (length (landmarks pose_data))) 10); [| lia].
  reflexivity.
Qed.

(** The boundaries increase (weakly) from [0] to [n]. *)
Lemma split_monotone (n : Z) :
  10 <= n ->
  0 < n / 4 /\ n / 4 < n / 2 /\ n / 2 < 3 * n / 4 /\
  3 * n / 4 <= 4 * n / 5 /\ 4 * n / 5 < n.
Proof. intros H. Z.to_euclidean_division_equations. lia. Qed.

(** The impact range [[3n//4, 4n//5)] is empty for three frame counts
    only. *)
Lemma impact_non_empty_iff (n : Z) :
  10 <= n ->
  (3 * n / 4 < 4 * n / 5 <-> n <> 11 /\ n <> 12 /\ n <> 16).
Proof. intros H. Z.to_euclidean_division_equations. lia. Qed.

Lemma split_partitions (n : Z) :
  10 <= n -> Spec.partitions (fixed_split n) n.
Proof.
  intros H i. pose proof (split_monotone n H) as M.
  unfold Spec.cover_count, Spec.ranges, Spec.in_range, fixed_split.
  cbn [List.filter address backswing downswing impact follow_through_phase
       Py.start Py.stop].
  repeat match goal with
         | |- context [?a <=? ?b] => destruct (Z.leb_spec a b)
         | |- context [?a <? ?b] => destruct (Z.ltb_spec a b)
         end; cbn; lia.
Qed.

End Phases.

Section PhaseClaims.

Import Analyzer Aux.

Example pose11_frames : frame_total Sample.pose11 = 11.
Proof. reflexivity. Qed.

Example pose_jump_peak :
  Spec.impact_candidate 16 Sample.pose_jump = Some 4%nat /\
  Spec.degenerate (1 # 100) 16 Sample.pose_jump = false.
Proof. split; vm_compute; reflexivity. Qed.

(** C1, as stated, fails: with 11 frames (at least 10) the impact range
    returned by [_analyze_swing_phases] is [range(8, 8)], which is empty,
    so not every one of the five ranges is non-empty. *)
Lemma phases_impact_empty_at_11 :
  10 <= frame_total Sample.pose11 /\
  exists p : SwingPhases,
    _analyze_swing_phases Sample.pose11 = inr p /\
    impact p = Py.mk_range 8 8 /\
    ~ Spec.all_non_empty p.
Proof.
  split; [vm_compute; discriminate |].
  exists (fixed_split 11). split; [vm_compute; reflexivity |].
  split; [reflexivity |].
  intros H. unfold Spec.all_non_empty, Spec.ranges in H.
  rewrite !Forall_cons_iff in H.
  destruct H as (_ & _ & _ & Himpact & _).
  vm_compute in Himpact. discriminate Himpact.
Qed.

(** C1, amended: for every pose data with [N >= 10] frames the five ranges
    returned by [_analyze_swing_phases] are contiguous, ordered and
    non-overlapping and exactly partition [[0, N)]; address, backswing,
    downswing and follow_through are non-empty, and impact is non-empty
    exactly when [N] is none of 11, 12 and 16. *)
Theorem phases_partition (pose_data : PoseData) :
  10 <= frame_total pose_data ->
  exists p : SwingPhases,
    _analyze_swing_phases pose_data = inr p /\
    Spec.contiguous p (frame_total pose_data) /\
    Spec.ordered p /\
    Spec.partitions p (frame_total pose_data) /\
    Spec.non_empty (address p) /\
    Spec.non_empty (backswing p) /\
    Spec.non_empty (downswing p) /\
    Spec.non_empty (follow_through_phase p) /\
    (Spec.non_empty (impact p) <->
     frame_total pose_data <> 11 /\
     frame_total pose_data <> 12 /\
     frame_total pose_data <> 16).
Proof.
  intros H. exists (fixed_split (frame_total pose_data)).
  pose proof (split_monotone _ H) as (M1 & M2 & M3 & M4 & M5).
  split; [apply phases_enough_frames; exact H |].
  split; [unfold Spec.contiguous; cbn; tauto |].
  split.
  { unfold Spec.ordered, Spec.ranges.
    repeat (constructor; [cbn; lia |]). constructor. }
  split; [apply split_partitions; exact H |].
  unfold Spec.non_empty; cbn.
  repeat (split; [lia |]).
  apply impact_non_empty_iff. exact H.
Qed.

Lemma phases_partition_witness :
  10 <= frame_total Sample.pose10 /\
  exists p : SwingPhases,
    _analyze_swing_phases Sample.pose10 = inr p /\
    Spec.contiguous p (frame_total Sample.pose10) /\
    Spec.ordered p /\
    Spec.partitions p (frame_total Sample.pose10) /\
    Spec.non_empty (address p) /\
    Spec.non_empty (backswing p) /\
    Spec.non_empty (downswing p) /\
    Spec.non_empty (follow_through_phase p) /\
    (Spec.non_empty (impact p) <->
     frame_total Sample.pose10 <> 11 /\
     frame_total Sample.pose10 <> 12 /\
     frame_total Sample.pose10 <> 16).
Proof.
  split; [vm_compute; discriminate |].
  apply (phases_partition Sample.pose10). vm_compute. discriminate.
Defined.

(** C8, as stated, fails: in [Sample.pose_jump] (10 frames) the wrist
    speed peaks at frame 4, inside the middle 60%, and the signal is not
    degenerate, yet [_analyze_swing_phases] returns the fixed split, whose
    impact range is [range(7, 8)] and does not hold frame 4. *)
Lemma impact_not_at_peak :
  10 <= frame_total Sample.pose_jump /\
  Spec.degenerate (1 # 100) 16 Sample.pose_jump = false /\
  Spec.impact_candidate 16 Sample.pose_jump = Some 4%nat /\
  exists p : SwingPhases,
    _analyze_swing_phases Sample.pose_jump = inr p /\
    p = fixed_split 10 /\
    impact p = Py.mk_range 7 8 /\
    ~ Spec.impact_at_peak (1 # 100) 16 Sample.pose_jump p.
Proof.
  split; [vm_compute; discriminate |].
  split; [vm_compute; reflexivity |].
  split; [vm_compute; reflexivity |].
  exists (fixed_split 10). split; [vm_compute; reflexivity |].
  split; [reflexivity |]. split; [reflexivity |].
  intros H. destruct H as (i & Hi & Hin); [vm_compute; reflexivity |].
  assert (E : Spec.impact_candidate 16 Sample.pose_jump = Some 4%nat)
    by (vm_compute; reflexivity).
  rewrite E in Hi. injection Hi as <-.
  vm_compute in Hin. discriminate Hin.
Qed.

(** C8, amended: for every pose data with [N >= 10] frames, whatever the
    wrist-speed signal, [_analyze_swing_phases] returns the fixed
    proportional split: address, backswing, downswing, impact and
    follow_through end at the floors of 25%, 50%, 75%, 80% and 100% of
    [N]; the result depends on the number of frames only. *)
Theorem phases_fixed_split (pose_data other : PoseData) :
  10 <= frame_total pose_data ->
  frame_total other = frame_total pose_data ->
  exists p : SwingPhases,
    _analyze_swing_phases pose_data = inr p /\
    _analyze_swing_phases other = inr p /\
    Spec.contiguous p (frame_total pose_data) /\
    (let n := frame_total pose_data in
     4 * Py.stop (address p) <= n < 4 * Py.stop (address p) + 4 /\
     2 * Py.stop (backswing p) <= n < 2 * Py.stop (backswing p) + 2 /\
     4 * Py.stop (downswing p) <= 3 * n < 4 * Py.stop (downswing p) + 4 /\
     5 * Py.stop (impact p) <= 4 * n < 5 * Py.stop (impact p) + 5 /\
     Py.stop (follow_through_phase p) = n).
Proof.
  intros H E. exists (fixed_split (frame_total pose_data)).
  split; [apply phases_enough_frames; exact H |].
  split; [rewrite <- E; apply phases_enough_frames; lia |].
  split; [unfold Spec.contiguous; cbn; tauto |].
  cbn. Z.to_euclidean_division_equations. lia.
Qed.

Lemma phases_fixed_split_witness :
  exists p : SwingPhases,
    _analyze_swing_phases Sample.pose_jump = inr p /\
    _analyze_swing_phases Sample.pose10 = inr p /\
    Spec.contiguous p (frame_total Sample.pose_jump) /\
    (let n := frame_total Sample.pose_jump in
     4 * Py.stop (address p) <= n < 4 * Py.stop (address p) + 4 /\
     2 * Py.stop (backswing p) <= n < 2 * Py.stop (backswing p) + 2 /\
     4 * Py.stop (downswing p) <= 3 * n < 4 * Py.stop (downswing p) + 4 /\
     5 * Py.stop (impact p) <= 4 * n < 5 * Py.stop (impact p) + 5 /\
     Py.stop (follow_through_phase p) = n).
Proof.
  apply (phases_fixed_split Sample.pose_jump Sample.pose10).
  - vm_compute. discriminate.
  - vm_compute. reflexivity.
Defined.

End PhaseClaims.

(** ** Metric extraction *)

Section Metrics.

Import Analyzer Aux.

Lemma index_in_bounds {A} (l : list A) (i : Z) :
  0 <= i < Z.of_nat (length l) -> exists a : A, Py.index l i = inr a.
Proof.
  intros [H0 H1]. unfold Py.index.
  destruct (Z.ltb_spec i 0); [lia |].
  destruct (Z.leb_spec 0 i); [| lia].
  destruct (Z.ltb_spec i (Z.of_nat (length l))); [| lia].
  cbn [andb].
  destruct (nth_error l (Z.to_nat i)) as [a |] eqn:E.
  - exists a. reflexivity.
  - apply nth_error_None in E. lia.
Qed.

(** On a range inside the sequence the two frame reads succeed, and the
    value is the constant of the function. *)
Lemma backswing_angle_value (lms : list (list Landmark)) (r : Py.range) :
  0 <= Py.start r -> Py.stop r <= Z.of_nat (length lms) ->
  _calculate_backswing_angle lms r =
  inr (if Py.len_range r <? 2 then 0%Q else clamp 0 180 45).
Proof.
  intros H0 H1. unfold _calculate_backswing_angle.
  destruct (Z.ltb_spec (Py.len_range r) 2) as [L | L]; [reflexivity |].
  unfold Py.len_range in L.
  destruct (index_in_bounds lms (Py.start r)) as [a ->]; [lia |].
  destruct (index_in_bounds lms (Py.stop r - 1)) as [b ->]; [lia |].
  reflexivity.
Qed.

(** Whatever the frames hold, the angle is one of two constants. *)
Lemma backswing_angle_cases (lms : list (list Landmark)) (r : Py.range)
    (v : Q) :
  _calculate_backswing_angle lms r = inr v -> v = 0%Q \/ v = clamp 0 180 45.
Proof.
  unfold _calculate_backswing_angle.
  destruct (Py.len_range r <? 2).
  - intros [= <-]. left. reflexivity.
  - destruct (Py.index lms (Py.start r)); cbn; [discriminate |].
    destruct (Py.index lms (Py.stop r - 1)); cbn; [discriminate |].
    intros [= <-]. right. reflexivity.
Qed.

(** The metrics of a segmentation into ranges inside the sequence: they
    are read off the lengths alone. *)
Lemma swing_metrics_value (pose_data : PoseData) (p : SwingPhases) :
  0 <= Py.start (backswing p) ->
  Py.stop (backswing p) <= frame_total pose_data ->
  _calculate_swing_metrics pose_data p =
  inr {|
    backswing_angle :=
      if Py.len_range (backswing p) <? 2 then 0%Q else clamp 0 180 45;
    downswing_speed :=
      if Py.len_range (downswing p) <? 2 then 0%Q else Py.max 0 15;
    follow_through :=
      if Py.len_range (follow_through_phase p) <? 2 then 0%Q
      else clamp 0 180 60;
    hip_rotation :=
      if Py.len_range (downswing p) <? 2 then 0%Q else clamp 0 180 75;
    shoulder_alignment :=
      if Py.len_range (address p) <? 1 then 0%Q else clamp 0 100 68;
    weight_transfer := clamp 0 100 75;
    tempo_ratio :=
      if Z.of_nat (length (frame_timestamps pose_data)) <? 2 then 1%Q
      else clamp 0.5 5 2.8
  |}.
Proof.
  intros H0 H1. unfold _calculate_swing_metrics.
  rewrite backswing_angle_value by assumption. reflexivity.
Qed.

Lemma extract_loop_aligned (fps : Q) (frames : list (option (list Landmark)))
    (k : Z) (acc pose_data : PoseData) :
  aligned acc ->
  extract_loop fps frames k acc = inr pose_data ->
  aligned pose_data.
Proof.
  revert k acc. induction frames as [| results rest IH]; intros k acc Hacc.
  - cbn. intros [= <-]. exact Hacc.
  - cbn [extract_loop]. destruct results as [lms |]; cbn.
    + destruct (Qeq_bool fps 0); cbn; [discriminate |].
      destruct (Py.index lms 0) as [e | lm0]; cbn; [discriminate |].
      apply IH. destruct Hacc as [Ht Hc].
      split; cbn; rewrite !length_app; cbn; lia.
    + apply IH. exact Hacc.
Qed.

(** [_extract_pose_data] only returns aligned pose data. *)
Lemma extract_pose_data_aligned (v : Video) (pose_data : PoseData) :
  _extract_pose_data v = inr pose_data -> aligned pose_data.
Proof.
  apply extract_loop_aligned. split; reflexivity.
Qed.

End Metrics.

Section MetricClaims.

Import Analyzer Aux.

Local Open Scope Q_scope.

(** C7, as stated, fails.  The 10 frames kept of
    [Sample.slow_backswing_video] have the timestamps 0, 1/32, 2/32,
    3/32, 8/32, 14/32, ..., 18/32; the backswing is [range(2, 5)] and the
    downswing [range(5, 7)], so the ratio read from the timestamps is 6
    (12/32 over 2/32 from phase start to phase start, 6/32 over 1/32
    within the phases) and its clamped value is 5.  The metric set
    reports 2.8. *)
Lemma tempo_ratio_ignores_timestamps :
  let pose_data := Sample.pose_slow_backswing in
  let timestamps := frame_timestamps pose_data in
  _extract_pose_data Sample.slow_backswing_video = inr pose_data /\
  _analyze_swing_phases pose_data = inr (fixed_split 10) /\
  Spec.raw_tempo_ratio Spec.phase_span timestamps (fixed_split 10) == 6 /\
  Spec.raw_tempo_ratio Spec.phase_extent timestamps (fixed_split 10) == 6 /\
  Spec.tempo_ratio_from_timestamps Spec.phase_span timestamps
    (fixed_split 10) == 5 /\
  exists m : SwingMetrics,
    _calculate_swing_metrics pose_data (fixed_split 10) = inr m /\
    tempo_ratio m == 2.8 /\ ~ tempo_ratio m == 5.
Proof.
  cbn zeta.
  split; [vm_compute; reflexivity |].
  split; [vm_compute; reflexivity |].
  split; [vm_compute; reflexivity |].
  split; [vm_compute; reflexivity |].
  split; [vm_compute; reflexivity |].
  eexists. split; [vm_compute; reflexivity |].
  split; [reflexivity |]. intros H. vm_compute in H. discriminate H.
Qed.

(** C7, amended: whenever [_calculate_swing_metrics] returns, every field
    of the metric set lies in its documented range (angles in [[0,180]],
    shoulder_alignment and weight_transfer in [[0,100]], tempo_ratio in
    [[0.5,5]]); the tempo ratio is not read from the timestamps: it is 1
    when there are fewer than 2 timestamps and 2.8 otherwise. *)
Theorem metrics_within_ranges (pose_data : PoseData) (p : SwingPhases)
    (m : SwingMetrics) :
  _calculate_swing_metrics pose_data p = inr m ->
  Spec.metrics_in_bounds m /\
  tempo_ratio m =
    (if (Z.of_nat (length (frame_timestamps pose_data)) <? 2)%Z then 1
     else 2.8).
Proof.
  unfold _calculate_swing_metrics.
  destruct (_calculate_backswing_angle (landmarks pose_data) (backswing p))
    as [e | angle] eqn:E; cbn; [discriminate |].
  intros [= <-]. apply backswing_angle_cases in E.
  split; [| reflexivity].
  unfold Spec.metrics_in_bounds; cbn.
  unfold _calculate_follow_through, _calculate_hip_rotation,
    _calculate_shoulder_alignment, _calculate_weight_transfer,
    _calculate_tempo_ratio.
  repeat split;
    repeat match goal with
           | |- context [if ?c then _ else _] => destruct c
           end;
    try (destruct E as [-> | ->]); constant_bounds.
Qed.

Lemma metrics_within_ranges_witness :
  exists m : SwingMetrics,
    _calculate_swing_metrics Sample.pose_slow_backswing (fixed_split 10)
    = inr m /\
    Spec.metrics_in_bounds m /\
    tempo_ratio m = 2.8.
Proof.
  eexists. split; [vm_compute; reflexivity |].
  eapply (metrics_within_ranges Sample.pose_slow_backswing (fixed_split 10)).
  vm_compute. reflexivity.
Defined.

(** C10: two pose-data inputs with the same number of frames (at least
    10) and the same timestamps get the same metric set, whatever their
    landmarks hold; and when every phase range holds at least 2 frames
    (the timestamps being aligned with the frames, as extraction leaves
    them) that metric set is the constant one: backswing_angle 45,
    downswing_speed 15, follow_through 60, hip_rotation 75,
    shoulder_alignment 68, weight_transfer 75, tempo_ratio 2.8. *)
Theorem metrics_ignore_landmarks (pose_data other : PoseData) :
  (10 <= frame_total pose_data)%Z ->
  frame_total other = frame_total pose_data ->
  frame_timestamps other = frame_timestamps pose_data ->
  exists m : SwingMetrics,
    extract_metrics pose_data = inr m /\
    extract_metrics other = inr m /\
    (aligned pose_data ->
     Forall (fun r => (2 <= Py.len_range r)%Z)
            (Spec.ranges (fixed_split (frame_total pose_data))) ->
     m = placeholder_metrics).
Proof.
  intros H EN ET.
  pose proof (split_monotone _ H) as (M1 & M2 & M3 & M4 & M5).
  unfold extract_metrics.
  rewrite (phases_enough_frames pose_data) by exact H.
  rewrite (phases_enough_frames other) by lia.
  rewrite EN. cbn [Py.bind].
  rewrite (swing_metrics_value pose_data) by (cbn; lia).
  rewrite (swing_metrics_value other) by (cbn; lia).
  rewrite ET. eexists. split; [reflexivity |]. split; [reflexivity |].
  intros [Ht _] Hlen. unfold Spec.ranges in Hlen.
  rewrite !Forall_cons_iff in Hlen.
  destruct Hlen as (La & Lb & Ld & Li & Lf & _).
  assert (Hts : (2 <= Z.of_nat (length (frame_timestamps pose_data)))%Z)
    by (rewrite Ht; unfold frame_total in H; lia).
  cbn [address backswing downswing impact follow_through_phase fixed_split]
    in *.
  repeat match goal with
         | |- context [(?a <? ?b)%Z] => destruct (Z.ltb_spec a b); [lia |]
         end.
  reflexivity.
Qed.

Lemma metrics_ignore_landmarks_witness :
  exists m : SwingMetrics,
    extract_metrics Sample.pose40 = inr m /\
    extract_metrics Sample.pose40_dim = inr m /\
    m = placeholder_metrics.
Proof.
  destruct (metrics_ignore_landmarks Sample.pose40 Sample.pose40_dim)
    as (m & H1 & H2 & H3).
  - vm_compute. discriminate.
  - vm_compute. reflexivity.
  - vm_compute. reflexivity.
  - exists m. split; [exact H1 |]. split; [exact H2 |]. apply H3.
    + split; vm_compute; reflexivity.
    + repeat (constructor; [vm_compute; discriminate |]). constructor.
Defined.

End MetricClaims.

(** ** The pipeline on short inputs *)

Section Pipeline.

Import Analyzer Aux.

(** C5: when the pose data of a video has fewer than 10 frames, the
    segmentation step raises [ValueError("Insufficient frames for swing
    analysis")] and [analyze_swing] ends with that same exception: no
    analysis record, hence no phases, metrics, scores or recommendations,
    is returned. *)
Theorem insufficient_frames_abort (self : GolfSwingAnalyzer) (clock : Clock)
    (filename : string) (video : Video) (pose_data : PoseData) :
  _extract_pose_data video = inr pose_data ->
  frame_total pose_data < 10 ->
  _analyze_swing_phases pose_data =
    inl (Py.ValueError "Insufficient frames for swing analysis") /\
  analyze_swing self clock filename video =
    inl (Py.ValueError "Insufficient frames for swing analysis").
Proof.
  intros Hx Hn.
  pose proof (phases_too_few_frames pose_data Hn) as Hp.
  split; [exact Hp |].
  unfold analyze_swing. rewrite Hx. cbn [Py.bind]. rewrite Hp. reflexivity.
Qed.

Lemma insufficient_frames_abort_witness :
  frame_total Sample.pose9 = 9 /\
  _analyze_swing_phases Sample.pose9 =
    inl (Py.ValueError "Insufficient frames for swing analysis") /\
  analyze_swing Sample.no_models (mk_clock 0 1 1)
    "swing.mp4" (Sample.still_video 9 1) =
    inl (Py.ValueError "Insufficient frames for swing analysis").
Proof.
  split; [reflexivity |].
  apply (insufficient_frames_abort _ _ _ (Sample.still_video 9 1)
           Sample.pose9).
  - vm_compute. reflexivity.
  - vm_compute. reflexivity.
Defined.

End Pipeline.

(** ** Scoring *)

Section Scoring.

Import Analyzer.

Local Open Scope Q_scope.

(** A loaded model changes nothing: every [_predict_*] function returns
    the rule-based score. *)
Lemma generate_scores_rule_based (self : GolfSwingAnalyzer)
    (pose_data : PoseData) (m : SwingMetrics) :
  let s := _generate_scores self pose_data m in
  form_score s = _rule_based_form_score m /\
  tempo_score s = _rule_based_tempo_score m /\
  power_score s = _rule_based_power_score m /\
  accuracy_score s = _rule_based_accuracy_score m.
Proof.
  unfold _generate_scores.
  destruct (form_model self), (tempo_model self), (power_model self),
    (accuracy_model self); cbn; repeat split; reflexivity.
Qed.

Lemma form_score_table (m : SwingMetrics) :
  _rule_based_form_score m = Spec.table_score Spec.closed_table Spec.Form m.
Proof.
  unfold _rule_based_form_score, Spec.table_score, Spec.bonuses,
    Spec.closed_table, Spec.rule_table.
  cbn [List.filter Spec.category_eqb Spec.rule_category Spec.rule_holds andb].
  destruct (Py.gt (shoulder_alignment m) 80), (Py.gt (hip_rotation m) 70),
    (Py.gt (weight_transfer m) 80); reflexivity.
Qed.

Lemma tempo_score_table (m : SwingMetrics) :
  _rule_based_tempo_score m = Spec.table_score Spec.closed_table Spec.Tempo m.
Proof.
  unfold _rule_based_tempo_score, Spec.table_score, Spec.bonuses,
    Spec.closed_table, Spec.rule_table, Spec.between.
  cbn [List.filter Spec.category_eqb Spec.rule_category Spec.rule_holds andb].
  destruct (Py.le 2.5 (tempo_ratio m)), (Py.le (tempo_ratio m) 3.5),
    (Py.le 2 (tempo_ratio m)), (Py.le (tempo_ratio m) 4); reflexivity.
Qed.

Lemma power_score_table (m : SwingMetrics) :
  _rule_based_power_score m = Spec.table_score Spec.closed_table Spec.Power m.
Proof.
  unfold _rule_based_power_score, Spec.table_score, Spec.bonuses,
    Spec.closed_table, Spec.rule_table.
  cbn [List.filter Spec.category_eqb Spec.rule_category Spec.rule_holds andb].
  destruct (Py.gt (downswing_speed m) 20), (Py.gt (hip_rotation m) 80);
    reflexivity.
Qed.

Lemma accuracy_score_table (m : SwingMetrics) :
  _rule_based_accuracy_score m =
  Spec.table_score Spec.closed_table Spec.Accuracy m.
Proof.
  unfold _rule_based_accuracy_score, Spec.table_score, Spec.bonuses,
    Spec.closed_table, Spec.rule_table.
  cbn [List.filter Spec.category_eqb Spec.rule_category Spec.rule_holds andb].
  destruct (Py.gt (shoulder_alignment m) 85), (Py.gt (weight_transfer m) 85);
    reflexivity.
Qed.

(** The tempo score is 80, base plus 10, exactly on [[2, 4]] minus
    [[2.5, 3.5]]. *)
Lemma tempo_plus10_iff (m : SwingMetrics) :
  _rule_based_tempo_score m = 80 <->
  (2 <= tempo_ratio m <= 4) /\ ~ (2.5 <= tempo_ratio m <= 3.5).
Proof.
  unfold _rule_based_tempo_score.
  destruct (Py.le 2.5 (tempo_ratio m)) eqn:A;
    destruct (Py.le (tempo_ratio m) 3.5) eqn:B;
    destruct (Py.le 2 (tempo_ratio m)) eqn:C;
    destruct (Py.le (tempo_ratio m) 4) eqn:D;
    cbn [andb];
    repeat match goal with
           | H : Py.le _ _ = true |- _ => apply le_spec in H
           | H : Py.le _ _ = false |- _ => apply le_false in H
           end;
    (split; [intros E; first [discriminate E | split; [lra | intros [? ?]; lra]]
            | intros [[? ?] N]; first [reflexivity | exfalso; lra
                                      | exfalso; apply N; lra]]).
Qed.

End Scoring.

Section ScoringClaims.

Import Analyzer.

Local Open Scope Q_scope.

(** The other analyzer blends two scores, 40% tempo and 60% form. *)
Remark app_overall_is_blend (t : App.TempoAnalysis) (f : App.FormAnalysis) :
  App._calculate_overall_score (Some t) (Some f) =
  Spec.weighted_blend (App.ta_score t) (App.fa_score f).
Proof. reflexivity. Qed.

(** C2: for every analyzer, pose data and metric set, the overall score
    returned by [_generate_scores] is the arithmetic mean of the four
    category scores it returns with it; it is not a blend of the tempo
    and form scores: on the placeholder metrics the mean is 77.5 while
    the 40/60 blend would be 84. *)
Theorem overall_is_mean (self : GolfSwingAnalyzer) (pose_data : PoseData)
    (m : SwingMetrics) :
  let s := _generate_scores self pose_data m in
  overall_score s ==
    Py.mean [form_score s; tempo_score s; power_score s; accuracy_score s] /\
  overall_score s ==
    (form_score s + tempo_score s + power_score s + accuracy_score s) / 4 /\
  (let s0 := _generate_scores self pose_data Aux.placeholder_metrics in
   overall_score s0 == 77.5 /\
   Spec.weighted_blend (tempo_score s0) (form_score s0) == 84 /\
   ~ overall_score s0 ==
       Spec.weighted_blend (tempo_score s0) (form_score s0)).
Proof.
  cbn zeta. split; [| split].
  - unfold _generate_scores; cbn [overall_score form_score tempo_score
      power_score accuracy_score].
    unfold Py.mean, Py.sum; cbn [fold_left length].
    change (Py.float (Z.of_nat 4)) with 4. field.
  - reflexivity.
  - destruct (generate_scores_rule_based self pose_data Aux.placeholder_metrics)
      as (Ef & Et & Ep & Ea).
    assert (Eo : overall_score
                   (_generate_scores self pose_data Aux.placeholder_metrics)
                 = (80 + 90 + 70 + 70) / 4).
    { unfold _generate_scores.
      destruct (form_model self), (tempo_model self), (power_model self),
        (accuracy_model self); reflexivity. }
    rewrite Eo, Ef, Et.
    change (_rule_based_form_score Aux.placeholder_metrics) with 80.
    change (_rule_based_tempo_score Aux.placeholder_metrics) with 90.
    unfold Spec.weighted_blend.
    split; [reflexivity |]. split; [reflexivity |].
    intros H. vm_compute in H. discriminate H.
Qed.

(** C3, as stated, fails: with [tempo_ratio = 4.0] the code adds the +10
    bonus (score 80), while the table with the half-open interval
    [[2.0, 4.0)] gives no bonus (score 70). *)
Lemma tempo_bonus_at_4 :
  tempo_ratio Sample.metrics_tempo_4 = 4 /\
  Spec.half_open 2 4 (tempo_ratio Sample.metrics_tempo_4) = false /\
  Spec.table_score Spec.stated_table Spec.Tempo Sample.metrics_tempo_4 = 70 /\
  tempo_score
    (_generate_scores Sample.no_models Sample.pose10 Sample.metrics_tempo_4)
  = 80.
Proof. repeat split; vm_compute; reflexivity. Qed.

(** C3, amended: for every metric set, with or without loaded models,
    each category score is base 70 plus the bonuses of the rule table,
    capped at 100, where the tempo +10 bonus applies exactly when
    tempo_ratio lies in the closed interval [[2.0, 4.0]] and outside
    [[2.5, 3.5]]; shoulder_alignment 90, hip_rotation 75 and
    weight_transfer 85 give form score 100, and tempo_ratio 4.0 earns the
    +10 bonus (tempo score 80). *)
Theorem scores_follow_rule_table (self : GolfSwingAnalyzer)
    (pose_data : PoseData) (m : SwingMetrics) :
  let s := _generate_scores self pose_data m in
  (forall c : Spec.Category,
     Spec.score_of s c = Spec.table_score Spec.closed_table c m) /\
  (tempo_score s = 80 <->
   (2 <= tempo_ratio m <= 4) /\ ~ (2.5 <= tempo_ratio m <= 3.5)) /\
  form_score (_generate_scores self pose_data Sample.metrics_form_scenario)
    = 100 /\
  tempo_score (_generate_scores self pose_data Sample.metrics_tempo_4) = 80.
Proof.
  cbn zeta.
  destruct (generate_scores_rule_based self pose_data m) as (Ef & Et & Ep & Ea).
  split; [| split; [| split]].
  - intros []; cbn [Spec.score_of].
    + rewrite Ef. apply form_score_table.
    + rewrite Et. apply tempo_score_table.
    + rewrite Ep. apply power_score_table.
    + rewrite Ea. apply accuracy_score_table.
  - rewrite Et. apply tempo_plus10_iff.
  - destruct (generate_scores_rule_based self pose_data
                Sample.metrics_form_scenario) as (-> & _). reflexivity.
  - destruct (generate_scores_rule_based self pose_data
                Sample.metrics_tempo_4) as (_ & -> & _). reflexivity.
Qed.

End ScoringClaims.

(** ** Recommendations *)

Section Recommendations.

Import Analyzer.

Local Open Scope Q_scope.

Lemma min_lt_iff (a b x : Q) : Py.min a b < x <-> a < x \/ b < x.
Proof.
  unfold Py.min. destruct (Py.lt b a) eqn:E.
  - apply lt_spec in E. split; [intros H; right; exact H |].
    intros [H | H]; lra.
  - apply lt_false in E. split; [intros H; left; exact H |].
    intros [H | H]; lra.
Qed.

Lemma min4_lt_iff (a b c d x : Q) :
  Py.min4 a b c d < x <-> a < x \/ b < x \/ c < x \/ d < x.
Proof.
  unfold Py.min4. rewrite !min_lt_iff. tauto.
Qed.

Lemma some_below_iff (s : SwingScores) (x : Q) :
  Spec.some_below s x <->
  form_score s < x \/ tempo_score s < x \/ power_score s < x \/
  accuracy_score s < x.
Proof.
  unfold Spec.some_below. split.
  - intros ([] & _ & H); cbn in H; tauto.
  - intros [H | [H | [H | H]]];
      [exists Spec.Form | exists Spec.Tempo | exists Spec.Power
      | exists Spec.Accuracy];
      (split; [cbn; tauto | exact H]).
Qed.

Lemma priority_level_cases (scores : SwingScores) (metrics : SwingMetrics) :
  priority_level (_generate_recommendations scores metrics) =
  let lowest :=
    Py.min4 (form_score scores) (tempo_score scores) (power_score scores)
            (accuracy_score scores) in
  if Py.lt lowest 70 then "high"%string
  else if Py.lt lowest 80 then "medium"%string else "low"%string.
Proof.
  unfold _generate_recommendations.
  destruct (Py.lt (form_score scores) 80), (Py.lt (tempo_score scores) 80),
    (Py.lt (power_score scores) 80), (Py.lt (accuracy_score scores) 80);
    reflexivity.
Qed.

(** C9: for every set of category scores, the strengths are the strength
    strings of the categories scoring above 85, in the order form, tempo,
    power, accuracy, or the single generic strength when there is none;
    the improvement areas, specific recommendations and practice drills
    are the templates of the categories scoring below 80, one each, in
    the same order; the priority is high when some category scores below
    70, medium when none does but some scores below 80, low otherwise. *)
Theorem recommendations_by_threshold (scores : SwingScores)
    (metrics : SwingMetrics) :
  let r := _generate_recommendations scores metrics in
  strengths r =
    match Spec.strong scores with
    | [] => ["Good overall technique"%string]
    | _ :: _ => map Spec.strength_text (Spec.strong scores)
    end /\
  areas_for_improvement r = map Spec.area_text (Spec.weak scores) /\
  specific_recommendations r = map Spec.tip_text (Spec.weak scores) /\
  practice_drills r = map Spec.drill_text (Spec.weak scores) /\
  (priority_level r = "high"%string <-> Spec.some_below scores 70) /\
  (priority_level r = "medium"%string <->
   ~ Spec.some_below scores 70 /\ Spec.some_below scores 80) /\
  (priority_level r = "low"%string <-> ~ Spec.some_below scores 80).
Proof.
  cbn zeta. split; [| split; [| split; [| split]]].
  - unfold _generate_recommendations, Spec.strong, Spec.selected,
      Spec.categories.
    cbn [List.filter Spec.score_of].
    destruct (Py.gt (form_score scores) 85), (Py.gt (tempo_score scores) 85),
      (Py.gt (power_score scores) 85), (Py.gt (accuracy_score scores) 85),
      (Py.lt (form_score scores) 80), (Py.lt (tempo_score scores) 80),
      (Py.lt (power_score scores) 80), (Py.lt (accuracy_score scores) 80);
      reflexivity.
  - unfold _generate_recommendations, Spec.weak, Spec.selected,
      Spec.categories.
    cbn [List.filter Spec.score_of].
    destruct (Py.lt (form_score scores) 80), (Py.lt (tempo_score scores) 80),
      (Py.lt (power_score scores) 80), (Py.lt (accuracy_score scores) 80);
      reflexivity.
  - unfold _generate_recommendations, Spec.weak, Spec.selected,
      Spec.categories.
    cbn [List.filter Spec.score_of].
    destruct (Py.lt (form_score scores) 80), (Py.lt (tempo_score scores) 80),
      (Py.lt (power_score scores) 80), (Py.lt (accuracy_score scores) 80);
      reflexivity.
  - unfold _generate_recommendations, Spec.weak, Spec.selected,
      Spec.categories.
    cbn [List.filter Spec.score_of].
    destruct (Py.lt (form_score scores) 80), (Py.lt (tempo_score scores) 80),
      (Py.lt (power_score scores) 80), (Py.lt (accuracy_score scores) 80);
      reflexivity.
  - rewrite priority_level_cases, !some_below_iff, <- !min4_lt_iff.
    cbn zeta.
    set (lowest := Py.min4 _ _ _ _).
    destruct (Py.lt lowest 70) eqn:A; destruct (Py.lt lowest 80) eqn:B;
      repeat match goal with
             | H : Py.lt _ _ = true |- _ => apply lt_spec in H
             | H : Py.lt _ _ = false |- _ => apply lt_false in H
             end;
      repeat split; intros; try discriminate; try reflexivity;
      try lra; try (exfalso; lra); try tauto.
    all: try (match goal with H : ~ _ /\ _ |- _ => destruct H end;
              exfalso; lra).
    all: try (match goal with H : ~ _ |- _ => exfalso; apply H; lra end).
Qed.

End Recommendations.

(** ** Confidence *)

Section Confidence.

Import Analyzer Aux.

Local Open Scope Q_scope.





Lemma map_constant {A B} (f : A -> B) (c : B) (l : list A) :
  Forall (fun a => f a = c) l -> map f l = repeat c (length l).
Proof.
  induction 1 as [| a l Ha _ IH]; cbn; [reflexivity |].
  rewrite Ha, IH. reflexivity.
Qed.

(** The pairwise sum does not depend on its fuel once the fuel covers
    the length of the array, and arrays of at most 128 values are summed
    in one block. *)
Lemma pairwise_sum_fuel (fuel fuel' : nat) (a : list PrimFloat.float) :
  (length a <= fuel)%nat -> (length a <= fuel')%nat ->
  F64.pairwise_sum fuel a = F64.pairwise_sum fuel' a.
Proof.
  revert fuel' a. induction fuel as [| fuel IH]; intros fuel' a H H'.
  - destruct a; [| cbn in H; lia]. destruct fuel'; reflexivity.
  - destruct fuel' as [| fuel'].
    + destruct a; [reflexivity | cbn in H'; lia].
    + cbn [F64.pairwise_sum].
      destruct (Nat.ltb_spec 128 (length a)) as [Hn | Hn]; [| reflexivity].
      pose proof (Nat.div_mod_eq (length a) 2) as D.
      pose proof (Nat.mod_upper_bound (length a) 2 (Nat.neq_succ_0 1)) as U.
      pose proof (Nat.mod_upper_bound (length a / 2) 8 (Nat.neq_succ_0 7))
        as U'.
      rewrite (IH fuel'), (IH fuel' (skipn _ a));
        [reflexivity | | | |];
        rewrite ?length_firstn, ?length_skipn;
        revert D U U';
        generalize (length a mod 2)%nat; intros r;
        generalize ((length a / 2) mod 8)%nat; intros r';
        generalize (length a / 2)%nat; intros q D U U'; lia.
Qed.

Lemma pairwise_sum_block (fuel : nat) (a : list PrimFloat.float) :
  (length a <= 128)%nat -> F64.pairwise_sum fuel a = F64.block_sum a.
Proof.
  intros H. destruct fuel; [reflexivity |]. cbn [F64.pairwise_sum].
  destruct (Nat.ltb_spec 128 (length a)); [lia | reflexivity].
Qed.

End Confidence.

Section ConfidenceClaims.

Import Analyzer Aux PrimFloat.

Local Open Scope Q_scope.




End ConfidenceClaims.

(** ** The batch endpoint *)

Section Batch.

Import App.

Variable Pose : Type.
Variable Info : Type.
Variable str : Py.exn -> string.
Variable verify_api_key : string -> bool.
Variable analyzer : GolfSwingAnalyzer Pose Info.
Variable clock : Clock.

Lemma batch_loop_map (requests : list AnalysisRequest)
    (results : list batch_item) :
  batch_loop str analyzer clock requests results =
  results ++ map (Aux.item_of str analyzer clock) requests.
Proof.
  revert results. induction requests as [| request rest IH]; intros results.
  - cbn. rewrite app_nil_r. reflexivity.
  - cbn [batch_loop map]. rewrite IH. unfold Aux.item_of.
    destruct (analyze_swing _ _ _ _ _ _ _); rewrite <- app_assoc; reflexivity.
Qed.

(** One slot per request, in the order of the requests: no item aborts
    the loop. *)
Lemma batch_loop_length (requests : list AnalysisRequest) :
  length (batch_loop str analyzer clock requests []) = length requests.
Proof. rewrite batch_loop_map. cbn. apply length_map. Qed.

(** Counting the successes stops at the first response object. *)
Lemma successful_items_response (results : list batch_item)
    (r : AnalysisResponse) :
  In (ItemResponse r) results ->
  successful_items results = inl (Py.AttributeError "AnalysisResponse" "get").
Proof.
  induction results as [| item rest IH]; intros Hin; [destruct Hin |].
  cbn [successful_items]. destruct item as [r' | d].
  - reflexivity.
  - destruct Hin as [Hin | Hin]; [discriminate Hin |].
    cbn [get_success Py.bind Py.ret]. rewrite (IH Hin). reflexivity.
Qed.

(** Whenever one call of [analyze_swing] returns a response, the batch
    endpoint ends in the 500 raised by its outer handler. *)
Lemma batch_raises_on_response (requests : list AnalysisRequest)
    (credentials : string) (request : AnalysisRequest)
    (r : AnalysisResponse) :
  verify_api_key credentials = true ->
  In request requests ->
  analyze_swing str analyzer clock (videoUrl request) (userId request)
    (analysisType request) (priority request) = inr r ->
  analyze_batch str verify_api_key analyzer clock requests credentials =
  inl (Py.HTTPException 500
         ("Batch analysis failed: "
          ++ str (Py.AttributeError "AnalysisResponse" "get"))%string).
Proof.
  intros Hkey Hin Hr. unfold analyze_batch. rewrite Hkey. cbn [negb].
  rewrite (successful_items_response _ r).
  - reflexivity.
  - rewrite batch_loop_map. cbn [app]. apply in_map_iff.
    exists request. split; [| exact Hin]. unfold Aux.item_of. rewrite Hr.
    reflexivity.
Qed.

End Batch.

Section BatchClaims.

Import App.

(** C6 on the code: in a batch of three where the second video has 5
    frames and the others 40, every call of [analyze_swing] returns in
    its own slot (success for items 1 and 3, a failure response carrying
    the error message for item 2), but counting the successes calls
    [get] on a response object, so [analyze_batch] raises
    [HTTPException(500)] and returns no result list and no count. *)
Theorem batch_of_three_raises :
  (exists r1 r2 r3 : AnalysisResponse,
     batch_loop Sample.str Sample.batch_analyzer Sample.batch_clock
       Sample.batch_of_three []
     = [ItemResponse r1; ItemResponse r2; ItemResponse r3] /\
     success r1 = true /\ success r3 = true /\
     success r2 = false /\
     error r2 = Some "Insufficient frames for swing analysis"%string) /\
  analyze_batch Sample.str Sample.verify_api_key Sample.batch_analyzer
    Sample.batch_clock Sample.batch_of_three "secret"
  = inl (Py.HTTPException 500
           "Batch analysis failed: 'AnalysisResponse' object has no attribute 'get'").
Proof.
  split.
  - do 3 eexists. split; [vm_compute; reflexivity |].
    repeat split; reflexivity.
  - vm_compute. reflexivity.
Qed.

End BatchClaims.

(** ** Pose extraction *)

Section Extraction.

Import Analyzer Aux.

Local Open Scope Q_scope.

Lemma detected_some (lms : list Landmark)
    (rest : list (option (list Landmark))) :
  detected (Some lms :: rest) = lms :: detected rest.
Proof. reflexivity. Qed.

Lemma detected_none (rest : list (option (list Landmark))) :
  detected (None :: rest) = detected rest.
Proof. reflexivity. Qed.

(** What the extraction loop returns when the frame rate is not zero. *)
Lemma extract_loop_closed (fps : Q) (frames : list (option (list Landmark)))
    (k : Z) (acc : PoseData) :
  Qeq_bool fps 0 = false ->
  extract_loop fps frames k acc =
  if forallb has_landmark (detected frames) then
    inr (mk_pose_data
           (landmarks acc ++ detected frames)
           (frame_timestamps acc
            ++ map (fun i => Py.float i / fps) (detected_at frames k))
           (confidence_scores acc ++ map first_visibility (detected frames)))
  else inl Py.IndexError.
Proof.
  intros Hfps. revert k acc.
  induction frames as [| results rest IH]; intros k acc.
  - cbn. rewrite !app_nil_r. destruct acc; reflexivity.
  - cbn [extract_loop]. destruct results as [lms |].
    + rewrite Hfps. cbn [Py.bind Py.ret].
      destruct lms as [| lm0 tl].
      * rewrite detected_some. reflexivity.
      * change (Py.index (lm0 :: tl) 0) with (inr lm0 : Py.result Landmark).
        cbn [Py.bind Py.ret]. rewrite IH, detected_some.
        cbn [forallb has_landmark andb detected_at map landmarks
             frame_timestamps confidence_scores first_visibility].
        rewrite <- !app_assoc. reflexivity.
    + cbn [Py.bind Py.ret]. rewrite detected_none. apply IH.
Qed.

(** With a zero frame rate the first frame with landmarks ends the loop
    in a division by zero. *)
Lemma extract_loop_zero_fps (fps : Q) (frames : list (option (list Landmark)))
    (k : Z) (acc : PoseData) :
  Qeq_bool fps 0 = true ->
  extract_loop fps frames k acc =
  match detected frames with
  | [] => inr acc
  | _ :: _ => inl Py.ZeroDivisionError
  end.
Proof.
  intros Hfps. revert k acc.
  induction frames as [| results rest IH]; intros k acc; [reflexivity |].
  cbn [extract_loop]. destruct results as [lms |].
  - rewrite Hfps, detected_some. reflexivity.
  - cbn [Py.bind Py.ret]. rewrite detected_none. apply IH.
Qed.

Lemma detected_length (frames : list (option (list Landmark))) :
  (length (detected frames) <= length frames)%nat.
Proof.
  induction frames as [| [lms |] rest IH]; cbn [length].
  - apply Nat.le_refl.
  - rewrite detected_some. cbn [length]. lia.
  - rewrite detected_none. lia.
Qed.

Lemma detected_at_length (frames : list (option (list Landmark))) (k : Z) :
  length (detected_at frames k) = length (detected frames).
Proof.
  revert k. induction frames as [| [lms |] rest IH]; intros k.
  - reflexivity.
  - rewrite detected_some. cbn. rewrite IH. reflexivity.
  - rewrite detected_none. cbn. apply IH.
Qed.

(** The positions of the kept frames increase, starting at [k] or later. *)
Lemma detected_at_sorted (frames : list (option (list Landmark))) (k : Z) :
  StronglySorted Z.lt (detected_at frames k) /\
  Forall (fun i => (k <= i)%Z) (detected_at frames k).
Proof.
  revert k. induction frames as [| [lms |] rest IH]; intros k; cbn.
  - split; constructor.
  - destruct (IH (k + 1)%Z) as [Hs Hf]. split.
    + constructor; [exact Hs |].
      eapply Forall_impl; [exact Hf |]. cbn. intros i Hi. lia.
    + constructor; [lia |].
      eapply Forall_impl; [exact Hf |]. cbn. intros i Hi. lia.
  - destruct (IH (k + 1)%Z) as [Hs Hf]. split; [exact Hs |].
    eapply Forall_impl; [exact Hf |]. cbn. intros i Hi. lia.
Qed.

Lemma timestamp_lt (fps : Q) (i j : Z) :
  0 < fps -> (i < j)%Z -> Py.float i / fps < Py.float j / fps.
Proof.
  intros Hfps Hij. unfold Qdiv, Py.float.
  apply Qmult_lt_compat_r.
  - apply Qinv_lt_0_compat. exact Hfps.
  - rewrite <- Zlt_Qlt. exact Hij.
Qed.

Lemma timestamp_nonneg (fps : Q) (i : Z) :
  0 < fps -> (0 <= i)%Z -> 0 <= Py.float i / fps.
Proof.
  intros Hfps Hi. unfold Qdiv, Py.float.
  apply Qmult_le_0_compat.
  - change 0 with (inject_Z 0). rewrite <- Zle_Qle. exact Hi.
  - apply Qlt_le_weak, Qinv_lt_0_compat. exact Hfps.
Qed.

Lemma timestamps_sorted (fps : Q) (l : list Z) :
  0 < fps -> StronglySorted Z.lt l ->
  StronglySorted Qlt (map (fun i => Py.float i / fps) l).
Proof.
  intros Hfps. induction 1 as [| i l Hs IH Hall]; cbn; constructor.
  - exact IH.
  - apply Forall_map. eapply Forall_impl; [exact Hall |].
    cbn. intros j Hj. apply timestamp_lt; assumption.
Qed.

Lemma extracted_fields (v : Video) (pose_data : PoseData) :
  _extract_pose_data v = inr pose_data ->
  landmarks pose_data = detected (stream v) /\
  frame_timestamps pose_data =
    map (fun i => Py.float i / CAP_PROP_FPS v) (detected_at (stream v) 0) /\
  confidence_scores pose_data = map first_visibility (detected (stream v)).
Proof.
  unfold _extract_pose_data. intros H.
  destruct (Qeq_bool (CAP_PROP_FPS v) 0) eqn:Hfps.
  - rewrite extract_loop_zero_fps in H by exact Hfps.
    pose proof (detected_at_length (stream v) 0) as L.
    destruct (detected (stream v)) eqn:D; [| discriminate H].
    injection H as <-. cbn.
    destruct (detected_at (stream v) 0); [| discriminate L].
    repeat split; reflexivity.
  - rewrite extract_loop_closed in H by exact Hfps.
    destruct (forallb has_landmark (detected (stream v)));
      [| discriminate H].
    injection H as <-. cbn. repeat split; reflexivity.
Qed.

(** X1: the pose data [_extract_pose_data] returns hold exactly the
    frames of the stream that carry landmarks, in order, with one
    timestamp and one confidence value (the visibility of landmark 0) per
    kept frame; frames without landmarks leave no trace. *)
Theorem extraction_keeps_detected_frames (v : Video) (pose_data : PoseData) :
  _extract_pose_data v = inr pose_data ->
  landmarks pose_data = detected (stream v) /\
  frame_timestamps pose_data =
    map (fun i => Py.float i / CAP_PROP_FPS v) (detected_at (stream v) 0) /\
  confidence_scores pose_data = map first_visibility (detected (stream v)) /\
  length (frame_timestamps pose_data) = length (landmarks pose_data) /\
  length (confidence_scores pose_data) = length (landmarks pose_data) /\
  (length (landmarks pose_data) <= length (stream v))%nat.
Proof.
  intros H. pose proof (extracted_fields v pose_data H) as E.
  destruct E as (El & Et & Ec). rewrite El, Et, Ec.
  repeat split; try reflexivity.
  - rewrite length_map. apply detected_at_length.
  - apply length_map.
  - apply detected_length.
Qed.

Lemma extraction_keeps_detected_frames_witness :
  landmarks Sample.pose_gaps = [Sample.frame_at 0.5 1; Sample.frame_at 0.7 1]
  /\ length (frame_timestamps Sample.pose_gaps) = 2%nat.
Proof.
  destruct (extraction_keeps_detected_frames Sample.video_gaps
              Sample.pose_gaps) as (El & _ & _ & Et & _).
  - vm_compute. reflexivity.
  - split; [rewrite El; reflexivity | rewrite Et, El; reflexivity].
Defined.

(** X2: with a positive frame rate the timestamps of the returned pose
    data are non-negative and strictly increasing. *)
Theorem extraction_timestamps_increase (v : Video) (pose_data : PoseData) :
  0 < CAP_PROP_FPS v ->
  _extract_pose_data v = inr pose_data ->
  StronglySorted Qlt (frame_timestamps pose_data) /\
  Forall (fun t => 0 <= t) (frame_timestamps pose_data).
Proof.
  intros Hfps H.
  destruct (extracted_fields v pose_data H) as (_ & -> & _).
  destruct (detected_at_sorted (stream v) 0) as [Hs Hf]. split.
  - apply timestamps_sorted; assumption.
  - apply Forall_map. eapply Forall_impl; [exact Hf |].
    cbn. intros i Hi. apply timestamp_nonneg; assumption.
Qed.

Lemma extraction_timestamps_increase_witness :
  StronglySorted Qlt (frame_timestamps Sample.pose_gaps) /\
  Forall (fun t => 0 <= t) (frame_timestamps Sample.pose_gaps).
Proof.
  apply (extraction_timestamps_increase Sample.video_gaps).
  - vm_compute. reflexivity.
  - vm_compute. reflexivity.
Defined.

(** X3: [_extract_pose_data] fails in two ways only.  With a frame rate
    of zero it raises [ZeroDivisionError] as soon as one frame carries
    landmarks (and returns empty pose data when none does); with any
    other frame rate it raises [IndexError] exactly when some kept frame
    has an empty landmark list, and returns otherwise. *)
Theorem extraction_failures (v : Video) :
  (Qeq_bool (CAP_PROP_FPS v) 0 = true ->
   _extract_pose_data v =
   match detected (stream v) with
   | [] => inr (mk_pose_data [] [] [])
   | _ :: _ => inl Py.ZeroDivisionError
   end) /\
  (Qeq_bool (CAP_PROP_FPS v) 0 = false ->
   (forallb has_landmark (detected (stream v)) = true ->
    exists pose_data, _extract_pose_data v = inr pose_data) /\
   (forallb has_landmark (detected (stream v)) = false ->
    _extract_pose_data v = inl Py.IndexError)).
Proof.
  unfold _extract_pose_data. split; intros Hfps.
  - apply extract_loop_zero_fps. exact Hfps.
  - rewrite extract_loop_closed by exact Hfps.
    split; intros ->; [eexists |]; reflexivity.
Qed.

Lemma extraction_failures_witness :
  _extract_pose_data (mk_video 3 0 (Sample.stream_gaps)) =
    inl Py.ZeroDivisionError /\
  _extract_pose_data (mk_video 3 0 [None; None]) =
    inr (mk_pose_data [] [] []) /\
  _extract_pose_data (mk_video 1 30 [Some []]) = inl Py.IndexError /\
  exists pose_data, _extract_pose_data Sample.video_gaps = inr pose_data.
Proof.
  split; [| split; [| split]].
  - apply (extraction_failures (mk_video 3 0 Sample.stream_gaps)).
    reflexivity.
  - apply (extraction_failures (mk_video 3 0 [None; None])). reflexivity.
  - apply (extraction_failures (mk_video 1 30 [Some []])); reflexivity.
  - apply (extraction_failures Sample.video_gaps); reflexivity.
Defined.

End Extraction.


(** ** The pipeline on inputs with enough frames *)

Section ConstantAnalysis.

Import Analyzer Aux.

Local Open Scope Q_scope.

(** From 10 frames on, every range a metric looks at is long enough for
    its guard. *)
Lemma split_long_enough (n : Z) :
  (10 <= n)%Z ->
  (1 <= n / 4 /\ 2 <= n / 2 - n / 4 /\ 2 <= 3 * n / 4 - n / 2 /\
   2 <= n - 4 * n / 5)%Z.
Proof. intros H. Z.to_euclidean_division_equations. lia. Qed.

(** On the split of a sequence of 10 frames or more no guard fires. *)
Lemma swing_metrics_on_split (pose_data : PoseData) :
  (10 <= frame_total pose_data)%Z ->
  aligned pose_data ->
  _calculate_swing_metrics pose_data (fixed_split (frame_total pose_data))
  = inr placeholder_metrics.
Proof.
  intros H [Ht _].
  pose proof (split_long_enough _ H) as (L1 & L2 & L3 & L4).
  pose proof (split_monotone _ H) as (M1 & M2 & M3 & M4 & M5).
  rewrite swing_metrics_value by (cbn; lia).
  assert (Hts : (2 <= Z.of_nat (length (frame_timestamps pose_data)))%Z)
    by (rewrite Ht; unfold frame_total in H; lia).
  unfold Py.len_range.
  cbn [address backswing downswing impact follow_through_phase fixed_split
       Py.start Py.stop].
  repeat match goal with
         | |- context [(?a <? ?b)%Z] => destruct (Z.ltb_spec a b); [lia |]
         end.
  reflexivity.
Qed.

(** X4: for every pose data with at least 10 frames and as many
    timestamps as frames, segmentation followed by metric extraction
    returns the constant metric set (45, 15, 60, 75, 68, 75, 2.8): none of
    the short-range guards of the metric functions fires, whatever the
    landmarks are. *)
Theorem metrics_constant_from_10_frames (pose_data : PoseData) :
  (10 <= frame_total pose_data)%Z ->
  aligned pose_data ->
  extract_metrics pose_data = inr placeholder_metrics.
Proof.
  intros H Hal. unfold extract_metrics.
  rewrite (phases_enough_frames pose_data) by exact H. cbn [Py.bind].
  apply swing_metrics_on_split; assumption.
Qed.

Lemma metrics_constant_from_10_frames_witness :
  extract_metrics Sample.pose10 = inr placeholder_metrics.
Proof.
  apply (metrics_constant_from_10_frames Sample.pose10).
  - vm_compute. discriminate.
  - split; vm_compute; reflexivity.
Defined.

Lemma placeholder_scores_value (self : GolfSwingAnalyzer)
    (pose_data : PoseData) :
  _generate_scores self pose_data placeholder_metrics = placeholder_scores.
Proof.
  unfold _generate_scores.
  destruct (form_model self), (tempo_model self), (power_model self),
    (accuracy_model self); reflexivity.
Qed.

Lemma rejected_from_length (i : Z) (n : nat) :
  length (rejected_from i n) = n.
Proof.
  revert i. induction n as [| n IH]; intros i; cbn; [| rewrite IH];
    reflexivity.
Qed.

Lemma rejected_from_field (i : Z) (n : nat) :
  Forall (fun error => fst error = "pose_landmarks"%string)
    (rejected_from i n).
Proof.
  revert i. induction n as [| n IH]; intros i; cbn; constructor;
    [reflexivity | apply IH].
Qed.

Lemma extract_loop_frames (fps : Q)
    (frames : list (option (list Landmark))) (k : Z)
    (acc pose_data : PoseData) :
  Forall (fun frame => is_dict frame = false) (landmarks acc) ->
  extract_loop fps frames k acc = inr pose_data ->
  Forall (fun frame => is_dict frame = false) (landmarks pose_data).
Proof.
  revert k acc. induction frames as [| results rest IH]; intros k acc Hacc.
  - cbn. intros [= <-]. exact Hacc.
  - cbn [extract_loop]. destruct results as [lms |]; cbn.
    + destruct (Qeq_bool fps 0); cbn; [discriminate |].
      destruct lms as [| lm0 tl]; [discriminate |].
      change (Py.index (lm0 :: tl) 0) with (inr lm0 : Py.result Landmark).
      cbn [Py.bind Py.ret]. apply IH. cbn [landmarks].
      apply Forall_app. split; [exact Hacc |].
      constructor; [reflexivity | constructor].
    + apply IH. exact Hacc.
Qed.

Lemma item_errors_all (frames : list (list Landmark)) (i : Z) :
  Forall (fun frame => is_dict frame = false) frames ->
  item_errors i frames = rejected_from i (length frames).
Proof.
  intros H. revert i. induction H as [| frame rest Hf _ IH]; intros i.
  - reflexivity.
  - cbn [item_errors length rejected_from]. rewrite Hf, IH. reflexivity.
Qed.

(** The value of [analyze_swing]: the exception of extraction, the
    [ValueError] of segmentation, or else the [ValidationError] of the
    result constructor. *)
Lemma analyze_swing_value (self : GolfSwingAnalyzer) (clock : Clock)
    (filename : string) (video : Video) :
  analyze_swing self clock filename video =
  match _extract_pose_data video with
  | inl e => inl e
  | inr pose_data =>
      if (frame_total pose_data <? 10)%Z
      then inl (Py.ValueError "Insufficient frames for swing analysis")
      else inl (Py.ValidationError "SwingAnalysisData"
                  (rejected_from 0 (length (landmarks pose_data))))
  end.
Proof.
  unfold analyze_swing.
  destruct (_extract_pose_data video) as [e | pose_data] eqn:Hx;
    cbn [Py.bind]; [reflexivity |].
  pose proof (extract_pose_data_aligned video pose_data Hx) as Hal.
  assert (Hf : Forall (fun frame => is_dict frame = false)
                 (landmarks pose_data)).
  { apply (extract_loop_frames (CAP_PROP_FPS video) (stream video) 0
             (mk_pose_data [] [] [])); [constructor | exact Hx]. }
  destruct (Z.ltb_spec (frame_total pose_data) 10) as [Hn | Hn].
  - rewrite (phases_too_few_frames pose_data Hn). reflexivity.
  - rewrite (phases_enough_frames pose_data Hn). cbn [Py.bind].
    rewrite (swing_metrics_on_split pose_data Hn Hal).
    cbn [Py.bind Py.ret]. unfold validate_pose_landmarks.
    rewrite (item_errors_all _ 0 Hf).
    unfold frame_total in Hn.
    destruct (landmarks pose_data) as [| frame rest];
      [cbn in Hn; lia | reflexivity].
Qed.

Lemma analyze_swing_raises (self : GolfSwingAnalyzer) (clock : Clock)
    (filename : string) (video : Video) :
  exists e : Py.exn, analyze_swing self clock filename video = inl e.
Proof.
  rewrite analyze_swing_value.
  destruct (_extract_pose_data video) as [e | pose_data];
    [exists e; reflexivity |].
  destruct (frame_total pose_data <? 10)%Z; eexists; reflexivity.
Qed.

(** X5: [analyze_swing] never returns a result.  It raises the exception
    of pose extraction if there is one, the [ValueError] "Insufficient
    frames for swing analysis" when fewer than 10 frames carry
    landmarks, and otherwise, after all the steps have run, the
    [ValidationError] of the [SwingAnalysisData] constructor, with one
    error per frame: [pose_landmarks] is declared a list of
    dictionaries and receives a list of lists. *)
Theorem analyze_swing_always_raises (self : GolfSwingAnalyzer)
    (clock : Clock) (filename : string) (video : Video) :
  analyze_swing self clock filename video =
    match _extract_pose_data video with
    | inl e => inl e
    | inr pose_data =>
        if (frame_total pose_data <? 10)%Z
        then inl (Py.ValueError "Insufficient frames for swing analysis")
        else inl (Py.ValidationError "SwingAnalysisData"
                    (rejected_from 0 (length (landmarks pose_data))))
    end /\
  (forall d : SwingAnalysisData,
     analyze_swing self clock filename video <> inr d) /\
  (forall pose_data : PoseData,
     _extract_pose_data video = inr pose_data ->
     (10 <= frame_total pose_data)%Z ->
     exists errors : list (string * Z),
       analyze_swing self clock filename video =
         inl (Py.ValidationError "SwingAnalysisData" errors) /\
       length errors = length (landmarks pose_data) /\
       Forall (fun error => fst error = "pose_landmarks"%string) errors).
Proof.
  pose proof (analyze_swing_value self clock filename video) as Hv.
  split; [exact Hv |]. split.
  - intros d. rewrite Hv.
    destruct (_extract_pose_data video) as [e | pose_data];
      [discriminate |].
    destruct (frame_total pose_data <? 10)%Z; discriminate.
  - intros pose_data Hx Hn. rewrite Hv, Hx.
    destruct (Z.ltb_spec (frame_total pose_data) 10) as [Hlt | _]; [lia |].
    eexists. split; [reflexivity |]. split.
    + apply rejected_from_length.
    + apply rejected_from_field.
Qed.

Lemma analyze_swing_always_raises_witness :
  analyze_swing Sample.no_models (mk_clock 0 1 1) "swing.mp4"
    (Sample.still_video 10 1)
  = inl (Py.ValidationError "SwingAnalysisData"
           (rejected_from 0 10)).
Proof.
  destruct (analyze_swing_always_raises Sample.no_models (mk_clock 0 1 1)
              "swing.mp4" (Sample.still_video 10 1)) as [H _].
  rewrite H. vm_compute. reflexivity.
Defined.

(** X25: what the steps of [analyze_swing] compute before the result
    constructor is reached does not depend on the video or on the
    loaded models.  For every analyzer and every pose data with at
    least 10 frames and as many timestamps as frames, the metrics are
    the constant set, the scores are 80, 90, 70 and 70 with overall
    77.5, and the recommendations are a tempo strength, power and
    accuracy as improvement areas with their tips and drills, and
    priority medium. *)
Theorem steps_give_constant_scores (self : GolfSwingAnalyzer)
    (pose_data : PoseData) :
  (10 <= frame_total pose_data)%Z ->
  aligned pose_data ->
  exists m : SwingMetrics,
    extract_metrics pose_data = inr m /\
    m = placeholder_metrics /\
    _generate_scores self pose_data m = placeholder_scores /\
    overall_score (_generate_scores self pose_data m) == 77.5 /\
    _generate_recommendations (_generate_scores self pose_data m) m
    = placeholder_recommendations.
Proof.
  intros H Hal. exists placeholder_metrics.
  split.
  - unfold extract_metrics.
    rewrite (phases_enough_frames pose_data) by exact H. cbn [Py.bind].
    apply swing_metrics_on_split; assumption.
  - rewrite placeholder_scores_value.
    split; [reflexivity |]. split; [reflexivity |].
    split; reflexivity.
Qed.

Lemma steps_give_constant_scores_witness :
  exists m : SwingMetrics,
    extract_metrics Sample.pose10 = inr m /\
    m = placeholder_metrics /\
    _generate_scores Sample.no_models Sample.pose10 m = placeholder_scores /\
    overall_score (_generate_scores Sample.no_models Sample.pose10 m)
    == 77.5 /\
    _generate_recommendations
      (_generate_scores Sample.no_models Sample.pose10 m) m
    = placeholder_recommendations.
Proof.
  apply (steps_give_constant_scores Sample.no_models Sample.pose10).
  - vm_compute. discriminate.
  - split; vm_compute; reflexivity.
Defined.

End ConstantAnalysis.

(** ** Further properties of scoring and recommendations *)

Section ScoreProperties.

Import Analyzer.

Local Open Scope Q_scope.

Lemma form_score_bounds (m : SwingMetrics) :
  70 <= _rule_based_form_score m <= 100.
Proof.
  unfold _rule_based_form_score.
  destruct (Py.gt (shoulder_alignment m) 80), (Py.gt (hip_rotation m) 70),
    (Py.gt (weight_transfer m) 80); split; constant_bounds.
Qed.

Lemma tempo_score_bounds (m : SwingMetrics) :
  70 <= _rule_based_tempo_score m <= 90.
Proof.
  unfold _rule_based_tempo_score.
  destruct (Py.le 2.5 (tempo_ratio m)), (Py.le (tempo_ratio m) 3.5),
    (Py.le 2 (tempo_ratio m)), (Py.le (tempo_ratio m) 4);
    split; constant_bounds.
Qed.

Lemma power_score_bounds (m : SwingMetrics) :
  70 <= _rule_based_power_score m <= 100.
Proof.
  unfold _rule_based_power_score.
  destruct (Py.gt (downswing_speed m) 20), (Py.gt (hip_rotation m) 80);
    split; constant_bounds.
Qed.

Lemma accuracy_score_bounds (m : SwingMetrics) :
  70 <= _rule_based_accuracy_score m <= 100.
Proof.
  unfold _rule_based_accuracy_score.
  destruct (Py.gt (shoulder_alignment m) 85), (Py.gt (weight_transfer m) 85);
    split; constant_bounds.
Qed.

Lemma scores_between_70_and_100_aux (self : GolfSwingAnalyzer)
    (pose_data : PoseData) (m : SwingMetrics) :
  let s := _generate_scores self pose_data m in
  70 <= form_score s /\ 70 <= tempo_score s /\
  70 <= power_score s /\ 70 <= accuracy_score s.
Proof.
  cbn zeta.
  destruct (generate_scores_rule_based self pose_data m) as (Ef & Et & Ep & Ea).
  rewrite Ef, Et, Ep, Ea.
  pose proof (form_score_bounds m). pose proof (tempo_score_bounds m).
  pose proof (power_score_bounds m). pose proof (accuracy_score_bounds m).
  tauto.
Qed.

(** X6: for every analyzer and every metric set, whatever values the
    metrics take, the four category scores and the overall score lie
    between 70 and 100 (the tempo score between 70 and 90). *)
Theorem scores_between_70_and_100 (self : GolfSwingAnalyzer)
    (pose_data : PoseData) (m : SwingMetrics) :
  let s := _generate_scores self pose_data m in
  70 <= form_score s <= 100 /\
  70 <= tempo_score s <= 90 /\
  70 <= power_score s <= 100 /\
  70 <= accuracy_score s <= 100 /\
  70 <= overall_score s <= 100.
Proof.
  cbn zeta.
  destruct (generate_scores_rule_based self pose_data m) as (Ef & Et & Ep & Ea).
  pose proof (form_score_bounds m) as Bf.
  pose proof (tempo_score_bounds m) as Bt.
  pose proof (power_score_bounds m) as Bp.
  pose proof (accuracy_score_bounds m) as Ba.
  rewrite Ef, Et, Ep, Ea.
  repeat (split; [tauto |]).
  assert (Eo : overall_score (_generate_scores self pose_data m) ==
               (_rule_based_form_score m + _rule_based_tempo_score m
                + _rule_based_power_score m + _rule_based_accuracy_score m)
               * (1 # 4)).
  { unfold _generate_scores.
    destruct (form_model self), (tempo_model self), (power_model self),
      (accuracy_model self); cbn [overall_score loaded];
      unfold _predict_form_score, _predict_tempo_score, _predict_power_score,
        _predict_accuracy_score; field. }
  rewrite Eo. split; lra.
Qed.

(** X7: the form, power and accuracy scores never drop when the metrics
    they read improve: if shoulder_alignment, hip_rotation,
    weight_transfer and downswing_speed of [m'] are at least those of
    [m], so are the three scores. *)
Theorem scores_monotone (m m' : SwingMetrics) :
  shoulder_alignment m <= shoulder_alignment m' ->
  hip_rotation m <= hip_rotation m' ->
  weight_transfer m <= weight_transfer m' ->
  downswing_speed m <= downswing_speed m' ->
  _rule_based_form_score m <= _rule_based_form_score m' /\
  _rule_based_power_score m <= _rule_based_power_score m' /\
  _rule_based_accuracy_score m <= _rule_based_accuracy_score m'.
Proof.
  intros Hs Hh Hw Hd.
  unfold _rule_based_form_score, _rule_based_power_score,
    _rule_based_accuracy_score.
  split; [| split].
  - destruct (Py.gt (shoulder_alignment m) 80) eqn:A,
      (Py.gt (shoulder_alignment m') 80) eqn:A',
      (Py.gt (hip_rotation m) 70) eqn:B, (Py.gt (hip_rotation m') 70) eqn:B',
      (Py.gt (weight_transfer m) 80) eqn:C,
      (Py.gt (weight_transfer m') 80) eqn:C';
      reflect_tests; first [constant_bounds | exfalso; lra].
  - destruct (Py.gt (downswing_speed m) 20) eqn:A,
      (Py.gt (downswing_speed m') 20) eqn:A',
      (Py.gt (hip_rotation m) 80) eqn:B, (Py.gt (hip_rotation m') 80) eqn:B';
      reflect_tests; first [constant_bounds | exfalso; lra].
  - destruct (Py.gt (shoulder_alignment m) 85) eqn:A,
      (Py.gt (shoulder_alignment m') 85) eqn:A',
      (Py.gt (weight_transfer m) 85) eqn:B,
      (Py.gt (weight_transfer m') 85) eqn:B';
      reflect_tests; first [constant_bounds | exfalso; lra].
Qed.

Lemma scores_monotone_witness :
  _rule_based_form_score Aux.placeholder_metrics
    <= _rule_based_form_score Sample.metrics_form_scenario /\
  _rule_based_power_score Aux.placeholder_metrics
    <= _rule_based_power_score Sample.metrics_form_scenario /\
  _rule_based_accuracy_score Aux.placeholder_metrics
    <= _rule_based_accuracy_score Sample.metrics_form_scenario.
Proof.
  apply (scores_monotone Aux.placeholder_metrics
           Sample.metrics_form_scenario); vm_compute; discriminate.
Defined.

Lemma min4_ge (a b c d x : Q) :
  x <= a -> x <= b -> x <= c -> x <= d -> x <= Py.min4 a b c d.
Proof.
  intros. unfold Py.min4. repeat apply min_glb; assumption.
Qed.

(** X8: the recommendations computed from the scores of
    [_generate_scores] never carry priority high: no score is below 70,
    so the priority is medium when some category scores below 80 and low
    otherwise. *)
Theorem pipeline_priority_never_high (self : GolfSwingAnalyzer)
    (pose_data : PoseData) (m : SwingMetrics) :
  let s := _generate_scores self pose_data m in
  let r := _generate_recommendations s m in
  priority_level r <> "high"%string /\
  (priority_level r = "medium"%string \/ priority_level r = "low"%string) /\
  (priority_level r = "low"%string <->
   80 <= form_score s /\ 80 <= tempo_score s /\
   80 <= power_score s /\ 80 <= accuracy_score s).
Proof.
  cbn zeta.
  destruct (scores_between_70_and_100_aux self pose_data m)
    as (Bf & Bt & Bp & Ba).
  rewrite priority_level_cases. cbn zeta.
  set (s := _generate_scores self pose_data m) in *.
  set (lowest := Py.min4 _ _ _ _).
  assert (Hlow : 70 <= lowest) by (apply min4_ge; assumption).
  assert (H80 : lowest < 80 <->
                form_score s < 80 \/ tempo_score s < 80 \/
                power_score s < 80 \/ accuracy_score s < 80)
    by apply min4_lt_iff.
  destruct (Py.lt lowest 70) eqn:A; reflect_tests; [exfalso; lra |].
  destruct (Py.lt lowest 80) eqn:B; reflect_tests.
  - split; [discriminate |]. split; [left; reflexivity |].
    split; [discriminate |].
    intros (? & ? & ? & ?). apply H80 in B. exfalso.
    destruct B as [B | [B | [B | B]]]; lra.
  - split; [discriminate |]. split; [right; reflexivity |].
    split; [intros _ | reflexivity].
    repeat split;
      match goal with
      | |- 80 <= ?x =>
          destruct (Qlt_le_dec x 80) as [L | L]; [| exact L];
          exfalso; assert (lowest < 80) by (apply H80; tauto); lra
      end.
Qed.

(** X9: for every set of scores the three improvement lists have the
    same length, at most 4; the strengths list is never empty and holds
    at most 4 entries; and the improvement lists are empty exactly when
    the priority is low. *)
Theorem recommendation_lists_agree (scores : SwingScores)
    (metrics : SwingMetrics) :
  let r := _generate_recommendations scores metrics in
  length (specific_recommendations r) = length (areas_for_improvement r) /\
  length (practice_drills r) = length (areas_for_improvement r) /\
  (length (areas_for_improvement r) <= 4)%nat /\
  (1 <= length (strengths r) <= 4)%nat /\
  (areas_for_improvement r = [] <-> priority_level r = "low"%string).
Proof.
  cbn zeta. split; [| split; [| split; [| split]]].
  - unfold _generate_recommendations.
    destruct (Py.lt (form_score scores) 80), (Py.lt (tempo_score scores) 80),
      (Py.lt (power_score scores) 80), (Py.lt (accuracy_score scores) 80);
      reflexivity.
  - unfold _generate_recommendations.
    destruct (Py.lt (form_score scores) 80), (Py.lt (tempo_score scores) 80),
      (Py.lt (power_score scores) 80), (Py.lt (accuracy_score scores) 80);
      reflexivity.
  - unfold _generate_recommendations.
    destruct (Py.lt (form_score scores) 80), (Py.lt (tempo_score scores) 80),
      (Py.lt (power_score scores) 80), (Py.lt (accuracy_score scores) 80);
      cbn; lia.
  - unfold _generate_recommendations.
    destruct (Py.lt (form_score scores) 80), (Py.lt (tempo_score scores) 80),
      (Py.lt (power_score scores) 80), (Py.lt (accuracy_score scores) 80),
      (Py.gt (form_score scores) 85), (Py.gt (tempo_score scores) 85),
      (Py.gt (power_score scores) 85), (Py.gt (accuracy_score scores) 85);
      cbn; lia.
  - rewrite priority_level_cases. cbn zeta.
    set (lowest := Py.min4 _ _ _ _).
    assert (H80 : lowest < 80 <->
                  form_score scores < 80 \/ tempo_score scores < 80 \/
                  power_score scores < 80 \/ accuracy_score scores < 80)
      by apply min4_lt_iff.
    unfold _generate_recommendations.
    destruct (Py.lt (form_score scores) 80) eqn:F,
      (Py.lt (tempo_score scores) 80) eqn:T,
      (Py.lt (power_score scores) 80) eqn:P,
      (Py.lt (accuracy_score scores) 80) eqn:A;
      cbn [areas_for_improvement app];
      reflect_tests;
      destruct (Py.lt lowest 70) eqn:L70; destruct (Py.lt lowest 80) eqn:L80;
      reflect_tests;
      (split;
       [intros E;
        first [discriminate E | reflexivity | exfalso; lra
              | exfalso;
                destruct (proj1 H80 ltac:(lra)) as [? | [? | [? | ?]]]; lra]
       | intros E;
         first [discriminate E | reflexivity | exfalso; lra
               | exfalso; assert (lowest < 80) by (apply H80; tauto); lra]]).
Qed.

End ScoreProperties.

(** ** Model loading and the service endpoints *)

Section Models.

Import Analyzer Aux.

Variable file_exists : string -> bool.
Variable joblib_load : string -> Py.result Model.

(** X10: after construction an attribute holds a model only if its file
    exists and [joblib.load] returned that model; when no load raises,
    each attribute is set exactly when its file exists; and the first
    load that raises ends the loading: the attribute of that file and
    the attributes of all later files stay [None], whether or not the
    later files exist and load.  In particular, if loading the form model
    raises, no model at all is loaded. *)
Theorem loaded_models_come_from_files :
  let self := __init__ file_exists joblib_load in
  Forall (fun '(file, attr) =>
            forall m : Model,
              attr self = Some m ->
              file_exists file = true /\ joblib_load file = inr m)
         model_files /\
  ((forall file e, In file (map fst model_files) ->
                   joblib_load file <> inl e) ->
   Forall (fun '(file, attr) => loaded (attr self) = file_exists file)
          model_files) /\
  (forall before file attr after e,
     model_files = before ++ (file, attr) :: after ->
     Forall (fun '(earlier, _) =>
               file_exists earlier = true ->
               forall e', joblib_load earlier <> inl e') before ->
     file_exists file = true ->
     joblib_load file = inl e ->
     attr self = None /\
     Forall (fun '(_, later) => later self = None) after) /\
  (forall e truthy,
     file_exists "models/form_scorer.pkl" = true ->
     joblib_load "models/form_scorer.pkl" = inl e ->
     is_model_loaded truthy self = false).
Proof.
  cbn zeta. unfold __init__, _load_models, load_step, model_files.
  split; [| split; [| split]].
  - constructor; [| constructor; [| constructor; [| constructor;
                                                      [| constructor]]]];
      destruct (file_exists "models/form_scorer.pkl") eqn:E1,
        (joblib_load "models/form_scorer.pkl") as [e1 | m1] eqn:L1,
        (file_exists "models/tempo_analyzer.pkl") eqn:E2,
        (joblib_load "models/tempo_analyzer.pkl") as [e2 | m2] eqn:L2,
        (file_exists "models/power_assessor.pkl") eqn:E3,
        (joblib_load "models/power_assessor.pkl") as [e3 | m3] eqn:L3,
        (file_exists "models/accuracy_evaluator.pkl") eqn:E4,
        (joblib_load "models/accuracy_evaluator.pkl") as [e4 | m4] eqn:L4;
      cbn; intros m Hm;
      first [discriminate Hm | injection Hm as <-; split; reflexivity].
  - intros Hok.
    assert (H1 : forall e, joblib_load "models/form_scorer.pkl" <> inl e)
      by (intros e; apply Hok; cbn; tauto).
    assert (H2 : forall e, joblib_load "models/tempo_analyzer.pkl" <> inl e)
      by (intros e; apply Hok; cbn; tauto).
    assert (H3 : forall e, joblib_load "models/power_assessor.pkl" <> inl e)
      by (intros e; apply Hok; cbn; tauto).
    assert (H4 : forall e,
              joblib_load "models/accuracy_evaluator.pkl" <> inl e)
      by (intros e; apply Hok; cbn; tauto).
    clear Hok.
    destruct (joblib_load "models/form_scorer.pkl") as [e1 | m1];
      [destruct (H1 e1); reflexivity |].
    destruct (joblib_load "models/tempo_analyzer.pkl") as [e2 | m2];
      [destruct (H2 e2); reflexivity |].
    destruct (joblib_load "models/power_assessor.pkl") as [e3 | m3];
      [destruct (H3 e3); reflexivity |].
    destruct (joblib_load "models/accuracy_evaluator.pkl") as [e4 | m4];
      [destruct (H4 e4); reflexivity |].
    constructor; [| constructor; [| constructor; [| constructor;
                                                    [| constructor]]]];
      destruct (file_exists "models/form_scorer.pkl"),
        (file_exists "models/tempo_analyzer.pkl"),
        (file_exists "models/power_assessor.pkl"),
        (file_exists "models/accuracy_evaluator.pkl"); reflexivity.
  - intros before file attr after e Hsplit Hbefore Hfile Hload.
    destruct before as [| [f1 a1] before];
      [injection Hsplit as <- <- <- |].
    { rewrite Hfile, Hload. cbn. split; [reflexivity |].
      constructor; [reflexivity |].
      constructor; [reflexivity |].
      constructor; [reflexivity | constructor]. }
    injection Hsplit as <- <- Hsplit.
    apply Forall_cons_1 in Hbefore as [Hf1 Hbefore].
    assert (S1 : forall s : GolfSwingAnalyzer,
               (if file_exists "models/form_scorer.pkl"
                then match joblib_load "models/form_scorer.pkl" with
                     | inr m =>
                         (mk_analyzer (Some m) (tempo_model s)
                            (power_model s) (accuracy_model s), false)
                     | inl _ => (s, true)
                     end
                else (s, false))
               = (mk_analyzer
                    (if file_exists "models/form_scorer.pkl"
                     then match joblib_load "models/form_scorer.pkl" with
                          | inr m => Some m
                          | inl _ => form_model s
                          end
                     else form_model s)
                    (tempo_model s) (power_model s) (accuracy_model s),
                  false)).
    { intros [f t p a].
      destruct (file_exists "models/form_scorer.pkl");
        [| reflexivity].
      destruct (joblib_load "models/form_scorer.pkl") as [e1 |];
        [destruct (Hf1 eq_refl e1); reflexivity | reflexivity]. }
    rewrite S1. cbn [form_model tempo_model power_model accuracy_model].
    clear S1 Hf1.
    destruct before as [| [f2 a2] before];
      [injection Hsplit as <- <- <- |].
    { rewrite Hfile, Hload. cbn. split; [reflexivity |].
      constructor; [reflexivity |].
      constructor; [reflexivity | constructor]. }
    injection Hsplit as <- <- Hsplit.
    apply Forall_cons_1 in Hbefore as [Hf2 Hbefore].
    destruct (file_exists "models/tempo_analyzer.pkl") eqn:E2.
    + destruct (joblib_load "models/tempo_analyzer.pkl") as [e2 | m2];
        [destruct (Hf2 eq_refl e2); reflexivity |].
      cbn [form_model tempo_model power_model accuracy_model].
      destruct before as [| [f3 a3] before];
        [injection Hsplit as <- <- <- |].
      { rewrite Hfile, Hload. cbn. split; [reflexivity |].
        constructor; [reflexivity | constructor]. }
      injection Hsplit as <- <- Hsplit.
      apply Forall_cons_1 in Hbefore as [Hf3 Hbefore].
      destruct (file_exists "models/power_assessor.pkl") eqn:E3.
      * destruct (joblib_load "models/power_assessor.pkl") as [e3 | m3];
          [destruct (Hf3 eq_refl e3); reflexivity |].
        cbn [form_model tempo_model power_model accuracy_model].
        destruct before as [| [f4 a4] before];
          [injection Hsplit as <- <- <- |].
        { rewrite Hfile, Hload. cbn. split; [reflexivity | constructor]. }
        injection Hsplit as _ _ Hsplit.
        destruct before; discriminate Hsplit.
      * cbn [form_model tempo_model power_model accuracy_model].
        destruct before as [| [f4 a4] before];
          [injection Hsplit as <- <- <- |].
        { rewrite Hfile, Hload. cbn. split; [reflexivity | constructor]. }
        injection Hsplit as _ _ Hsplit.
        destruct before; discriminate Hsplit.
    + cbn [form_model tempo_model power_model accuracy_model].
      destruct before as [| [f3 a3] before];
        [injection Hsplit as <- <- <- |].
      { rewrite Hfile, Hload. cbn. split; [reflexivity |].
        constructor; [reflexivity | constructor]. }
      injection Hsplit as <- <- Hsplit.
      apply Forall_cons_1 in Hbefore as [Hf3 Hbefore].
      destruct (file_exists "models/power_assessor.pkl") eqn:E3.
      * destruct (joblib_load "models/power_assessor.pkl") as [e3 | m3];
          [destruct (Hf3 eq_refl e3); reflexivity |].
        cbn [form_model tempo_model power_model accuracy_model].
        destruct before as [| [f4 a4] before];
          [injection Hsplit as <- <- <- |].
        { rewrite Hfile, Hload. cbn. split; [reflexivity | constructor]. }
        injection Hsplit as _ _ Hsplit.
        destruct before; discriminate Hsplit.
      * cbn [form_model tempo_model power_model accuracy_model].
        destruct before as [| [f4 a4] before];
          [injection Hsplit as <- <- <- |].
        { rewrite Hfile, Hload. cbn. split; [reflexivity | constructor]. }
        injection Hsplit as _ _ Hsplit.
        destruct before; discriminate Hsplit.
  - intros e truthy E1 L1. rewrite E1, L1. reflexivity.
Qed.

End Models.

Section ModelInfo.

Import Analyzer Aux.

(** X11: what [get_model_info] and [is_model_loaded] report.  MediaPipe
    is always reported as available and each model entry tells whether
    its attribute is set ([is not None]).  [is_model_loaded] is true
    exactly when some attribute holds a model whose truth value is true;
    then the entry of that model is true as well.  The converse holds
    when every loaded model is truthy, and fails for an analyzer whose
    only model is falsy: its entry is true while [is_model_loaded] is
    false. *)
Theorem model_info_agrees (truthy : Model -> bool)
    (self : GolfSwingAnalyzer) :
  get_model_info self !! "mediapipe_pose"%string = Some true /\
  Forall (fun '(key, attr) =>
            get_model_info self !! key = Some (loaded (attr self)))
         model_entries /\
  (is_model_loaded truthy self = true <->
   exists key attr m,
     In (key, attr) model_entries /\ attr self = Some m /\
     truthy m = true) /\
  (is_model_loaded truthy self = true ->
   exists key attr,
     In (key, attr) model_entries /\
     get_model_info self !! key = Some true) /\
  ((forall m, truthy m = true) ->
   (exists key attr,
      In (key, attr) model_entries /\
      get_model_info self !! key = Some true) ->
   is_model_loaded truthy self = true) /\
  (forall m,
     truthy m = false ->
     self = mk_analyzer (Some m) None None None ->
     is_model_loaded truthy self = false /\
     get_model_info self !! "form_model"%string = Some true).
Proof.
  assert (Hinfo : Forall (fun '(key, attr) =>
                            get_model_info self !! key
                            = Some (loaded (attr self)))
                    model_entries).
  { unfold model_entries.
    constructor; [| constructor; [| constructor; [| constructor;
                                                    [| constructor]]]];
      destruct self as [f t p a]; reflexivity. }
  assert (Hiff : is_model_loaded truthy self = true <->
                 exists key attr m,
                   In (key, attr) model_entries /\ attr self = Some m /\
                   truthy m = true).
  { unfold is_model_loaded. rewrite existsb_exists. split.
    - intros (x & Hin & Hx). destruct x as [m |]; [| discriminate Hx].
      cbn in Hin, Hx.
      destruct Hin as [E | [E | [E | [E | []]]]].
      + exists "form_model"%string, form_model, m. cbn. tauto.
      + exists "tempo_model"%string, tempo_model, m. cbn. tauto.
      + exists "power_model"%string, power_model, m. cbn. tauto.
      + exists "accuracy_model"%string, accuracy_model, m. cbn. tauto.
    - intros (key & attr & m & Hin & Hattr & Ht). exists (Some m).
      split; [| exact Ht]. cbn in Hin |- *.
      destruct Hin as [E | [E | [E | [E | []]]]];
        injection E as <- <-; rewrite Hattr; tauto. }
  assert (Hset : forall key attr,
            In (key, attr) model_entries ->
            get_model_info self !! key = Some (loaded (attr self))).
  { intros key attr Hin. cbn in Hin.
    destruct Hin as [E | [E | [E | [E | []]]]];
      injection E as <- <-; destruct self as [f t p a]; reflexivity. }
  split; [destruct self as [f t p a]; reflexivity |].
  split; [exact Hinfo |].
  split; [exact Hiff |].
  split; [| split].
  - intros H. apply Hiff in H as (key & attr & m & Hin & Hattr & _).
    exists key, attr. split; [exact Hin |].
    rewrite (Hset key attr Hin), Hattr. reflexivity.
  - intros Hall (key & attr & Hin & Hkey). apply Hiff.
    rewrite (Hset key attr Hin) in Hkey.
    destruct (attr self) as [m |] eqn:Hattr; [| discriminate Hkey].
    exists key, attr, m. split; [exact Hin |].
    split; [exact Hattr | apply Hall].
  - intros m Hm ->. split; [| reflexivity].
    unfold is_model_loaded. cbn. rewrite Hm. reflexivity.
Qed.

Lemma model_info_agrees_witness :
  is_model_loaded (fun _ => false)
    (mk_analyzer (Some (Pickle "models/form_scorer.pkl")) None None None)
  = false /\
  get_model_info
    (mk_analyzer (Some (Pickle "models/form_scorer.pkl")) None None None)
    !! "form_model"%string = Some true.
Proof.
  destruct (model_info_agrees (fun _ => false)
              (mk_analyzer (Some (Pickle "models/form_scorer.pkl"))
                 None None None)) as (_ & _ & _ & _ & _ & H).
  apply (H (Pickle "models/form_scorer.pkl")); reflexivity.
Defined.

End ModelInfo.


Section ModelWitness.

Import Analyzer Aux.

Lemma loaded_models_come_from_files_witness :
  Forall (fun '(file, attr) =>
            loaded (attr (__init__ Sample.some_files Sample.load_any))
            = Sample.some_files file)
         model_files /\
  (tempo_model (__init__ Sample.some_files Sample.broken_tempo) = None /\
   Forall (fun '(_, later) =>
             later (__init__ Sample.some_files Sample.broken_tempo) = None)
          [("models/power_assessor.pkl"%string, power_model);
           ("models/accuracy_evaluator.pkl"%string, accuracy_model)]) /\
  is_model_loaded (fun _ => true)
    (__init__ (fun _ => true) (fun _ => inl (Py.Raised "bad pickle")))
  = false.
Proof.
  split; [| split].
  - destruct (loaded_models_come_from_files Sample.some_files
                Sample.load_any) as (_ & H & _).
    apply H. intros file e _. discriminate.
  - destruct (loaded_models_come_from_files Sample.some_files
                Sample.broken_tempo) as (_ & _ & H & _).
    apply (H [("models/form_scorer.pkl"%string, form_model)]
             "models/tempo_analyzer.pkl"%string tempo_model
             [("models/power_assessor.pkl"%string, power_model);
              ("models/accuracy_evaluator.pkl"%string, accuracy_model)]
             (Py.Raised "invalid load key")).
    + reflexivity.
    + constructor; [| constructor]. intros Hex. discriminate Hex.
    + reflexivity.
    + reflexivity.
  - destruct (loaded_models_come_from_files (fun _ => true)
                (fun _ => inl (Py.Raised "bad pickle")))
      as (_ & _ & _ & H).
    apply (H (Py.Raised "bad pickle")); reflexivity.
Defined.

End ModelWitness.

Section UploadEndpoint.

Import Analyzer Aux.

Variable str : Py.exn -> string.

(** X12: [POST /analyze-swing] only ever fails with status 500.  The
    400 raised for an upload that is not a video, or is larger than
    100MB, is caught by the handler of the endpoint and re-raised as a
    500 whose detail quotes it; an upload without content type and a
    video with fewer than 10 usable frames end in a 500 as well. *)
Theorem upload_errors_are_500 (analyzer : GolfSwingAnalyzer) (clock : Clock)
    (upload : Main.UploadFile) :
  (forall e : Py.exn,
     Main.analyze_swing str analyzer clock upload = inl e ->
     exists cause : Py.exn,
       e = Py.HTTPException 500
             ("Error processing video: " ++ str cause)%string) /\
  (forall ct : string,
     Main.content_type upload = Some ct ->
     String.prefix "video/" ct = false ->
     Main.analyze_swing str analyzer clock upload =
     inl (Py.HTTPException 500
            ("Error processing video: "
             ++ str (Py.HTTPException 400
                       "File must be a video (MP4, MOV, AVI, etc.)"))%string))
  /\
  (forall ct : string,
     Main.content_type upload = Some ct ->
     String.prefix "video/" ct = true ->
     Main.too_large upload = true ->
     Main.analyze_swing str analyzer clock upload =
     inl (Py.HTTPException 500
            ("Error processing video: "
             ++ str (Py.HTTPException 400
                       "File size must be less than 100MB"))%string)) /\
  (forall (ct : string) (pose_data : PoseData),
     Main.content_type upload = Some ct ->
     String.prefix "video/" ct = true ->
     Main.too_large upload = false ->
     _extract_pose_data (Main.file upload) = inr pose_data ->
     (frame_total pose_data < 10)%Z ->
     Main.analyze_swing str analyzer clock upload =
     inl (Py.HTTPException 500
            ("Error processing video: "
             ++ str (Py.ValueError
                       "Insufficient frames for swing analysis"))%string)).
Proof.
  unfold Main.analyze_swing, Main.is_video. repeat split.
  - intros e.
    match goal with
    | |- Py.try_except ?c _ = _ -> _ => destruct c as [cause | r]
    end; cbn.
    + intros [= <-]. exists cause. reflexivity.
    + discriminate.
  - intros ct -> Hp. cbn. rewrite Hp. reflexivity.
  - intros ct -> Hp Hl. cbn. rewrite Hp, Hl. reflexivity.
  - intros ct pose_data -> Hp Hl Hx Hn. cbn. rewrite Hp, Hl. cbn.
    unfold Analyzer.analyze_swing. rewrite Hx. cbn [Py.bind].
    rewrite (phases_too_few_frames pose_data Hn). reflexivity.
Qed.

(** X24: neither [POST /analyze-swing] nor [POST /analyze-swing-url]
    ever answers with an analysis.  Whatever the upload, the URL, the
    download and the loaded models are, the request ends in an
    [HTTPException] with status 500 whose detail quotes the exception
    that stopped it: the analyzer never returns a result, and the
    handler of the endpoint turns every exception into a 500. *)
Theorem endpoints_never_succeed (analyzer : GolfSwingAnalyzer)
    (clock : Clock) (upload : Main.UploadFile)
    (fetch : string -> Py.result Video) (temp_name video_url : string) :
  (exists cause : Py.exn,
     Main.analyze_swing str analyzer clock upload =
     inl (Py.HTTPException 500
            ("Error processing video: " ++ str cause)%string)) /\
  (exists cause : Py.exn,
     Main.analyze_swing_from_url str fetch analyzer clock temp_name
       video_url =
     inl (Py.HTTPException 500
            ("Error processing video URL: " ++ str cause)%string)).
Proof.
  split.
  - unfold Main.analyze_swing.
    destruct (Main.is_video upload) as [e | video]; cbn;
      [exists e; reflexivity |].
    destruct video; cbn; [| eexists; reflexivity].
    destruct (Main.too_large upload); [eexists; reflexivity |].
    destruct (analyze_swing_raises analyzer clock (Main.filename upload)
                (Main.file upload)) as [e ->].
    exists e. reflexivity.
  - unfold Main.analyze_swing_from_url, Analyzer.analyze_swing_from_url.
    destruct (fetch video_url) as [e | video]; cbn;
      [exists e; reflexivity |].
    destruct (analyze_swing_raises analyzer clock temp_name video)
      as [e ->].
    exists e. reflexivity.
Qed.

End UploadEndpoint.

Section UploadWitness.

Import Analyzer Aux.

Lemma upload_errors_are_500_witness :
  Main.analyze_swing Sample.str Sample.no_models (mk_clock 0 1 1)
    Sample.text_upload =
  inl (Py.HTTPException 500
         ("Error processing video: "
          ++ "400: File must be a video (MP4, MOV, AVI, etc.)")%string)
  /\
  Main.analyze_swing Sample.str Sample.no_models (mk_clock 0 1 1)
    Sample.short_upload =
  inl (Py.HTTPException 500
         "Error processing video: Insufficient frames for swing analysis").
Proof.
  split.
  - destruct (upload_errors_are_500 Sample.str Sample.no_models
                (mk_clock 0 1 1) Sample.text_upload) as (_ & H & _).
    apply (H "text/plain"%string); reflexivity.
  - destruct (upload_errors_are_500 Sample.str Sample.no_models
                (mk_clock 0 1 1) Sample.short_upload) as (_ & _ & _ & H).
    apply (H "video/mp4"%string Sample.pose9); vm_compute; reflexivity.
Defined.

End UploadWitness.

(** ** The second analyzer: scores, insights and recommendations *)

Section AppScores.

Import App Aux.

Local Open Scope Q_scope.

(** X13: when the scores of the analyses present lie in [[0, 100]], the
    overall score of [_calculate_overall_score] lies in [[0, 100]] too, so
    the validator of the response accepts it.  With one analysis only it
    is the score of that analysis, and without any it is 0. *)
Theorem app_overall_in_range (tempo_analysis : option TempoAnalysis)
    (form_analysis : option FormAnalysis) :
  tempo_in_range tempo_analysis ->
  form_in_range form_analysis ->
  let overall := _calculate_overall_score tempo_analysis form_analysis in
  0 <= overall <= 100 /\
  validate_overall_score overall = inr overall /\
  (forall t, tempo_analysis = Some t -> form_analysis = None ->
             overall = ta_score t) /\
  (forall f, tempo_analysis = None -> form_analysis = Some f ->
             overall = fa_score f) /\
  (tempo_analysis = None -> form_analysis = None -> overall = 0).
Proof.
  intros Ht Hf. cbn zeta.
  assert (B : 0 <= _calculate_overall_score tempo_analysis form_analysis
              <= 100).
  { unfold _calculate_overall_score.
    destruct tempo_analysis as [t |], form_analysis as [f |];
      try specialize (Ht _ eq_refl); try specialize (Hf _ eq_refl); lra. }
  split; [exact B |]. split; [| split; [| split]].
  - unfold validate_overall_score.
    destruct (Py.lt _ 0) eqn:L; reflect_tests; [exfalso; lra |].
    destruct (Py.gt _ 100) eqn:G; reflect_tests; [exfalso; lra |].
    reflexivity.
  - intros t -> ->. reflexivity.
  - intros f -> ->. reflexivity.
  - intros -> ->. reflexivity.
Qed.

(** X14: with scores in [[0, 100]], the confidence of
    [_calculate_confidence] lies between 50 and 95; it is 50 when there
    is no analysis at all, and at least 70 as soon as there is one. *)
Theorem app_confidence_in_range (tempo_analysis : option TempoAnalysis)
    (form_analysis : option FormAnalysis) :
  tempo_in_range tempo_analysis ->
  form_in_range form_analysis ->
  let c := _calculate_confidence tempo_analysis form_analysis in
  50 <= c <= 95 /\
  (tempo_analysis = None -> form_analysis = None -> c = 50) /\
  (tempo_analysis <> None \/ form_analysis <> None -> 70 <= c).
Proof.
  intros Ht Hf. cbn zeta.
  assert (M : forall x, 0 <= x <= 100 ->
                        70 <= Py.min 95 (70 + x * 0.25) <= 95).
  { intros x Hx. split; [apply min_glb; lra_consts | apply min_le_l]. }
  unfold _calculate_confidence, Py.sum.
  destruct tempo_analysis as [t |], form_analysis as [f |];
    try specialize (Ht _ eq_refl); try specialize (Hf _ eq_refl);
    try pose proof (M _ Ht) as Mt; try pose proof (M _ Hf) as Mf;
    cbn [app fold_left length];
    change (Py.float (Z.of_nat 2)) with 2;
    change (Py.float (Z.of_nat 1)) with 1.
  - split; [split; lra_consts |].
    split; [intros H; discriminate H | intros _; lra_consts].
  - split; [split; lra_consts |].
    split; [intros H; discriminate H | intros _; lra_consts].
  - split; [split; lra_consts |].
    split; [intros _ H; discriminate H | intros _; lra_consts].
  - split; [split; constant_bounds |].
    split; [reflexivity |]. intros [H | H]; destruct H; reflexivity.
Qed.

Lemma app_overall_in_range_witness :
  0 <= _calculate_overall_score (Some Sample.good_tempo)
         (Some Sample.good_form) <= 100.
Proof.
  apply (app_overall_in_range (Some Sample.good_tempo)
           (Some Sample.good_form)).
  - intros a [= <-]. split; constant_bounds.
  - intros a [= <-]. split; constant_bounds.
Defined.

Lemma app_confidence_in_range_witness :
  50 <= _calculate_confidence (Some Sample.good_tempo)
          (Some Sample.good_form) <= 95.
Proof.
  apply (app_confidence_in_range (Some Sample.good_tempo)
           (Some Sample.good_form)).
  - intros a [= <-]. split; constant_bounds.
  - intros a [= <-]. split; constant_bounds.
Defined.

Lemma key_insights_not_empty (tempo_analysis : option TempoAnalysis)
    (form_analysis : option FormAnalysis) :
  _generate_key_insights tempo_analysis form_analysis <> [].
Proof.
  unfold _generate_key_insights.
  destruct tempo_analysis as [t |], form_analysis as [f |];
    repeat match goal with
           | |- context [if Py.lt ?a ?b then _ else _] =>
               destruct (Py.lt a b)
           end;
    cbn; discriminate.
Qed.

Lemma app_recommendations_not_empty (tempo_analysis : option TempoAnalysis)
    (form_analysis : option FormAnalysis) :
  _generate_recommendations tempo_analysis form_analysis <> [].
Proof.
  unfold _generate_recommendations. intros N.
  apply app_eq_nil in N as [_ N]. discriminate N.
Qed.

(** X15: [_generate_key_insights] returns between one and five insights;
    the single insight is the generic completion message exactly when
    neither analysis is present; and when both analyses trigger all of
    their insights (six in total) the cut to five drops the alignment
    insight. *)
Theorem key_insights_shape (tempo_analysis : option TempoAnalysis)
    (form_analysis : option FormAnalysis) :
  let insights := _generate_key_insights tempo_analysis form_analysis in
  (1 <= length insights <= 5)%nat /\
  (insights = ["Analysis completed successfully"%string] <->
   tempo_analysis = None /\ form_analysis = None) /\
  (forall t f,
     tempo_analysis = Some t -> form_analysis = Some f ->
     tb_backswing (ta_breakdown t) < tb_downswing (ta_breakdown t) ->
     tb_followThrough (ta_breakdown t) < 80 ->
     fb_posture (fa_breakdown f) < 80 ->
     fb_alignment (fa_breakdown f) < 80 ->
     length insights = 5%nat /\
     ~ In "Alignment could be more precise"%string insights).
Proof.
  cbn zeta. split; [| split].
  - unfold _generate_key_insights.
    destruct tempo_analysis as [t |], form_analysis as [f |];
      repeat match goal with
             | |- context [if Py.lt ?a ?b then _ else _] =>
                 destruct (Py.lt a b)
             end;
      cbn; lia.
  - unfold _generate_key_insights.
    destruct tempo_analysis as [t |], form_analysis as [f |];
      repeat match goal with
             | |- context [if Py.lt ?a ?b then _ else _] =>
                 destruct (Py.lt a b)
             | |- context [if ge ?a ?b then _ else _] =>
                 destruct (ge a b)
             end;
      cbn;
      (split; [intros E; first [discriminate E | split; reflexivity]
              | intros [E1 E2]; first [discriminate E1 | discriminate E2
                                      | reflexivity]]).
  - intros t f -> -> H1 H2 H3 H4.
    apply lt_spec in H1, H2, H3, H4.
    unfold _generate_key_insights. rewrite H1, H2, H3, H4.
    cbn [app firstn length]. split; [reflexivity |].
    destruct (ge (ta_score t) 90), (ge (ta_score t) 80),
      (ge (ta_score t) 70), (ge (fa_score f) 90), (ge (fa_score f) 80),
      (ge (fa_score f) 70);
      cbn; intros [E | [E | [E | [E | [E | []]]]]]; discriminate E.
Qed.

Lemma key_insights_shape_witness :
  length (_generate_key_insights (Some Sample.weak_tempo)
            (Some Sample.weak_form)) = 5%nat /\
  ~ In "Alignment could be more precise"%string
      (_generate_key_insights (Some Sample.weak_tempo)
         (Some Sample.weak_form)).
Proof.
  destruct (key_insights_shape (Some Sample.weak_tempo)
              (Some Sample.weak_form)) as (_ & _ & H).
  apply (H Sample.weak_tempo Sample.weak_form);
    first [reflexivity | vm_compute; reflexivity].
Defined.

(** X16: the recommendations of the second analyzer always end with the
    general practice recommendation; before it come at most two
    recommendations, all of priority high, and there is none exactly when
    no analysis present scores below 80. *)
Theorem app_recommendations_shape (tempo_analysis : option TempoAnalysis)
    (form_analysis : option FormAnalysis) :
  exists front : list Recommendation,
    _generate_recommendations tempo_analysis form_analysis =
      front ++ [general_recommendation] /\
    (length front <= 2)%nat /\
    Forall (fun r => rec_priority r = "high"%string) front /\
    (front = [] <->
     (forall t, tempo_analysis = Some t -> 80 <= ta_score t) /\
     (forall f, form_analysis = Some f -> 80 <= fa_score f)).
Proof.
  unfold _generate_recommendations.
  destruct tempo_analysis as [t |], form_analysis as [f |];
    try destruct (Py.lt (ta_score t) 80) eqn:T;
    try destruct (Py.lt (fa_score f) 80) eqn:F;
    reflect_tests;
    eexists; (split; [reflexivity |]);
    cbn [app];
    (split; [cbn; lia |]);
    (split; [repeat constructor |]);
    (split;
     [intros E; first [discriminate E
                      | split; [intros ? [= <-] | intros ? [= <-]];
                        first [assumption | discriminate]
                      | split; intros ? ?; first [discriminate | congruence]]
     | intros [E1 E2];
       first [reflexivity
             | exfalso; specialize (E1 _ eq_refl); lra
             | exfalso; specialize (E2 _ eq_refl); lra]]).
Qed.

End AppScores.

(** ** The second analyzer: [analyze_swing] and the endpoints *)

Section AppService.

Import App Aux.

Variable Pose : Type.
Variable Info : Type.
Variable str : Py.exn -> string.
Variable verify_api_key : string -> bool.
Variable self : GolfSwingAnalyzer Pose Info.
Variable clock : Clock.

(** X17: how [analyze_swing] of the second analyzer ends.  Not
    initialised, it raises [RuntimeError].  Initialised, a failure before
    the thumbnail exists never yields the error response: the handler
    reads locals the [try] block has not bound, so a failing download
    ends in [UnboundLocalError] for [video_path], and an empty download
    result, a failing video probe or a failing thumbnail in
    [UnboundLocalError] for [thumbnail_path].  Once download, probe and
    thumbnail have returned, the call always returns a response. *)
Theorem analyze_swing_outcomes (video_url user_id analysis_type
    priority : string) :
  (initialized self = false ->
   analyze_swing str self clock video_url user_id analysis_type priority =
   inl (Py.RuntimeError "Analyzer not initialized")) /\
  (initialized self = true ->
   (forall e,
      download_video (video_processor self) video_url = inl e ->
      analyze_swing str self clock video_url user_id analysis_type priority =
      inl (Py.UnboundLocalError "video_path")) /\
   (forall path,
      download_video (video_processor self) video_url = inr path ->
      falsy path = true ->
      analyze_swing str self clock video_url user_id analysis_type priority =
      inl (Py.UnboundLocalError "thumbnail_path")) /\
   (forall path e,
      download_video (video_processor self) video_url = inr path ->
      falsy path = false ->
      (get_video_info (video_processor self) (path_of path) = inl e \/
       generate_thumbnail (video_processor self) (path_of path) = inl e) ->
      analyze_swing str self clock video_url user_id analysis_type priority =
      inl (Py.UnboundLocalError "thumbnail_path")) /\
   (forall path info thumbnail,
      download_video (video_processor self) video_url = inr path ->
      falsy path = false ->
      get_video_info (video_processor self) (path_of path) = inr info ->
      generate_thumbnail (video_processor self) (path_of path)
        = inr thumbnail ->
      exists r, analyze_swing str self clock video_url user_id analysis_type priority = inr r)).
Proof.
  unfold analyze_swing. split.
  - intros ->. reflexivity.
  - intros ->. cbn [negb]. repeat split.
    + intros e ->. reflexivity.
    + intros path -> ->. reflexivity.
    + intros path e -> -> [H | H].
      * rewrite H. reflexivity.
      * rewrite H.
        destruct (get_video_info (video_processor self) (path_of path));
          reflexivity.
    + intros path info thumbnail -> -> -> ->.
      destruct (analyze_with_video self clock analysis_type
                  (path_of path) thumbnail) as [e | r] eqn:E.
      * eexists. cbn. unfold on_exception. reflexivity.
      * exists r. reflexivity.
Qed.

(** X18: every response [analyze_swing] returns is consistent: it
    carries an error message exactly when [success] is false; a failed
    response has overall score and confidence 0, no insights, no
    recommendations and no thumbnail; a successful one has at least one
    insight and one recommendation. *)
Theorem response_is_consistent (video_url user_id analysis_type
    priority : string) (r : AnalysisResponse) :
  analyze_swing str self clock video_url user_id analysis_type priority = inr r ->
  (success r = false <-> error r <> None) /\
  (success r = false ->
   overall r = 0%Q /\ confidence r = 0%Q /\ keyInsights r = [] /\
   recommendations r = [] /\ thumbnailUrl r = None /\
   tempo r = _create_default_tempo_analysis /\
   form r = _create_default_form_analysis) /\
  (success r = true ->
   keyInsights r <> [] /\ recommendations r <> []) /\
  modelVersion r = model_version self.
Proof.
  unfold analyze_swing.
  destruct (initialized self); cbn [negb]; [| discriminate].
  destruct (download_video (video_processor self) video_url) as [e | path];
    [discriminate |].
  destruct (falsy path); [discriminate |].
  destruct (get_video_info (video_processor self) (path_of path));
    [discriminate |].
  destruct (generate_thumbnail (video_processor self) (path_of path))
    as [e | thumbnail]; [discriminate |].
  unfold Py.try_except.
  destruct (analyze_with_video self clock analysis_type (path_of path)
              thumbnail) as [e | r'] eqn:E.
  - cbn. intros [= <-]. cbn.
    repeat split; try reflexivity; try discriminate.
  - intros [= ->]. revert E. unfold analyze_with_video.
    destruct (estimate_pose (pose_estimator self) (path_of path))
      as [e | [pose |]]; cbn [Py.bind]; try discriminate.
    destruct (if is_in analysis_type ["full"%string; "tempo"%string]
              then analyze_tempo (tempo_analyzer self) (path_of path) pose
              else Py.ret None) as [e | t]; cbn [Py.bind];
      [discriminate |].
    destruct (if is_in analysis_type ["full"%string; "form"%string]
              then analyze_form (form_analyzer self) (path_of path) pose
              else Py.ret None) as [e | f]; cbn [Py.bind];
      [discriminate |].
    intros [= <-]. cbn [success error keyInsights recommendations overall
                         confidence thumbnailUrl modelVersion tempo form].
    repeat split; try discriminate; try congruence.
    + apply key_insights_not_empty.
    + apply app_recommendations_not_empty.
Qed.

Lemma dict_success (e : Py.exn) (request : AnalysisRequest) :
  (<["success"%string := VBool false]>
     (<["error"%string := VStr (str e)]>
        (<["userId"%string := VStr (userId request)]> ∅))
   : gmap string pyval) !! "success"%string = Some (VBool false).
Proof. apply lookup_insert_eq. Qed.

(** The success count only goes through when every item raised, and
    then nothing is counted. *)
Lemma successful_items_all_raised (requests : list AnalysisRequest)
    (kept : list batch_item) :
  successful_items (map (item_of str self clock) requests) = inr kept ->
  kept = [] /\
  Forall (fun request =>
            exists e,
              analyze_swing str self clock (videoUrl request)
                (userId request) (analysisType request) (priority request)
              = inl e)
         requests.
Proof.
  revert kept. induction requests as [| request rest IH]; intros kept.
  - cbn. intros [= <-]. split; constructor.
  - cbn [map successful_items]. unfold item_of at 1.
    destruct (analyze_swing str self clock (videoUrl request)
                (userId request) (analysisType request) (priority request))
      as [e | r] eqn:E.
    + cbn [get_success Py.bind Py.ret]. rewrite dict_success.
      cbn [default truthy].
      destruct (successful_items (map (item_of str self clock) rest))
        as [e' | kept'] eqn:K; cbn [Py.bind]; [discriminate |].
      intros [= <-]. destruct (IH kept' eq_refl) as [-> Hall].
      split; [reflexivity |]. constructor; [exists e; exact E | exact Hall].
    + cbn. discriminate.
Qed.

(** X19: whenever [analyze_batch] returns at all, every call of
    [analyze_swing] in the batch raised: the reported number of successes
    is 0, and the result list holds one entry per request. *)
Theorem batch_returns_only_failures (requests : list AnalysisRequest)
    (credentials : string) (b : BatchReturn) :
  analyze_batch str verify_api_key self clock requests credentials = inr b ->
  successful b = 0%Z /\
  batch_success b = true /\
  totalProcessed b = Z.of_nat (length requests) /\
  length (results b) = length requests /\
  Forall (fun request =>
            exists e,
              analyze_swing str self clock (videoUrl request)
                (userId request) (analysisType request) (priority request)
              = inl e)
         requests.
Proof.
  unfold analyze_batch.
  destruct (verify_api_key credentials); cbn [negb Py.try_except];
    [| discriminate].
  rewrite batch_loop_map. cbn [app].
  destruct (successful_items (map (item_of str self clock) requests))
    as [e | kept] eqn:K; cbn [Py.bind]; [discriminate |].
  destruct (successful_items_all_raised requests kept K) as [-> Hall].
  intros [= <-]. cbn. rewrite length_map. repeat split. exact Hall.
Qed.

(** X20: an invalid API key never produces a 401.  The 401 raised by the
    three endpoints sits inside their own [try] block, so the handler
    turns it into a 500 whose detail quotes it; and whatever the
    endpoints raise is a 500. *)
Theorem invalid_key_gives_500 (requests : list AnalysisRequest)
    (request : AnalysisRequest)
    (tempo_status form_status pose_status : Py.result (gmap string pyval))
    (credentials : string) :
  (verify_api_key credentials = false ->
   analyze_batch str verify_api_key self clock requests credentials =
     inl (Py.HTTPException 500
            ("Batch analysis failed: "
             ++ str (Py.HTTPException 401 "Invalid API key"))%string) /\
   analyze_endpoint str verify_api_key self clock request credentials =
     inl (Py.HTTPException 500
            ("Analysis failed: "
             ++ str (Py.HTTPException 401 "Invalid API key"))%string) /\
   status_endpoint str verify_api_key self tempo_status form_status
     pose_status credentials =
     inl (Py.HTTPException 500
            ("Failed to get model status: "
             ++ str (Py.HTTPException 401 "Invalid API key"))%string)) /\
  (forall e,
     analyze_batch str verify_api_key self clock requests credentials = inl e
     \/ analyze_endpoint str verify_api_key self clock request credentials
        = inl e
     \/ status_endpoint str verify_api_key self tempo_status form_status
          pose_status credentials = inl e ->
     exists detail, e = Py.HTTPException 500 detail).
Proof.
  split.
  - intros Hkey. unfold analyze_batch, analyze_endpoint, status_endpoint.
    rewrite Hkey. repeat split; reflexivity.
  - intros e. unfold analyze_batch, analyze_endpoint, status_endpoint.
    intros [H | [H | H]]; revert H;
      match goal with
      | |- Py.try_except ?c _ = _ -> _ => destruct c as [cause | r]
      end; cbn; intros [= <-]; eexists; reflexivity.
Qed.

(** X23: the loop of [analyze_batch] fills one slot per request, in the
    order of the requests: slot [i] holds the response of request [i], or,
    when its analysis raised, a dictionary with [success] false, the
    message of the exception and the user id of that request. *)
Theorem batch_slots_in_order (requests : list AnalysisRequest) (i : nat)
    (request : AnalysisRequest) :
  nth_error requests i = Some request ->
  length (batch_loop str self clock requests []) = length requests /\
  nth_error (batch_loop str self clock requests []) i
    = Some (item_of str self clock request) /\
  (forall r,
     analyze_swing str self clock (videoUrl request) (userId request)
       (analysisType request) (priority request) = inr r ->
     nth_error (batch_loop str self clock requests []) i
       = Some (ItemResponse r)) /\
  (forall e,
     analyze_swing str self clock (videoUrl request) (userId request)
       (analysisType request) (priority request) = inl e ->
     exists d : gmap string pyval,
       nth_error (batch_loop str self clock requests []) i
         = Some (ItemDict d) /\
       d !! "success"%string = Some (VBool false) /\
       d !! "error"%string = Some (VStr (str e)) /\
       d !! "userId"%string = Some (VStr (userId request))).
Proof.
  intros Hi. rewrite batch_loop_map. cbn [app].
  assert (N : nth_error (map (item_of str self clock) requests) i
              = Some (item_of str self clock request))
    by (rewrite nth_error_map, Hi; reflexivity).
  split; [apply length_map |]. split; [exact N |]. split.
  - intros r Hr. rewrite N. unfold item_of. rewrite Hr. reflexivity.
  - intros e He. eexists. rewrite N. unfold item_of. rewrite He.
    split; [reflexivity |].
    split; [apply lookup_insert_eq |]. split.
    + rewrite lookup_insert_ne by discriminate. apply lookup_insert_eq.
    + rewrite !lookup_insert_ne by discriminate. apply lookup_insert_eq.
Qed.

End AppService.

Section AppWitnesses.

Import App Aux.

Lemma analyze_swing_outcomes_witness :
  analyze_swing Sample.str Sample.idle_analyzer Sample.batch_clock
    "https://videos/1.mp4" "user-1" "full" "normal"
  = inl (Py.RuntimeError "Analyzer not initialized") /\
  analyze_swing Sample.str Sample.offline_analyzer Sample.batch_clock
    "https://videos/1.mp4" "user-1" "full" "normal"
  = inl (Py.UnboundLocalError "video_path") /\
  exists r,
    analyze_swing Sample.str Sample.batch_analyzer Sample.batch_clock
      "https://videos/2.mp4" "user-2" "full" "normal" = inr r.
Proof.
  split; [| split].
  - apply (analyze_swing_outcomes Z unit Sample.str Sample.idle_analyzer).
    reflexivity.
  - destruct (analyze_swing_outcomes Z unit Sample.str
                Sample.offline_analyzer Sample.batch_clock
                "https://videos/1.mp4" "user-1" "full" "normal")
      as (_ & H).
    destruct (H eq_refl) as (H1 & _).
    apply (H1 (Py.Raised "connection refused")). reflexivity.
  - destruct (analyze_swing_outcomes Z unit Sample.str
                Sample.batch_analyzer Sample.batch_clock
                "https://videos/2.mp4" "user-2" "full" "normal")
      as (_ & H).
    destruct (H eq_refl) as (_ & _ & _ & H4).
    apply (H4 (Some "https://videos/2.mp4"%string) tt
              (Some "thumbnail.jpg"%string)); reflexivity.
Defined.

Lemma response_is_consistent_witness :
  exists r,
    analyze_swing Sample.str Sample.batch_analyzer Sample.batch_clock
      "https://videos/2.mp4" "user-2" "full" "normal" = inr r /\
    success r = false /\ error r <> None /\ overall r = 0%Q.
Proof.
  eexists. split; [vm_compute; reflexivity |].
  destruct (response_is_consistent Z unit Sample.str Sample.batch_analyzer
              Sample.batch_clock "https://videos/2.mp4" "user-2" "full"
              "normal" _ eq_refl) as (H1 & H2 & _).
  split; [reflexivity |]. split; [apply H1; reflexivity |].
  apply H2. reflexivity.
Defined.

Lemma batch_returns_only_failures_witness :
  exists b,
    analyze_batch Sample.str Sample.verify_api_key Sample.idle_analyzer
      Sample.batch_clock Sample.batch_of_three "secret" = inr b /\
    successful b = 0%Z /\ length (results b) = 3%nat.
Proof.
  eexists. split; [vm_compute; reflexivity |].
  destruct (batch_returns_only_failures Z unit Sample.str
              Sample.verify_api_key Sample.idle_analyzer Sample.batch_clock
              Sample.batch_of_three "secret" _ eq_refl)
    as (H1 & _ & _ & H4 & _).
  split; [exact H1 | exact H4].
Defined.

Lemma invalid_key_gives_500_witness :
  analyze_batch Sample.str Sample.verify_api_key Sample.batch_analyzer
    Sample.batch_clock Sample.batch_of_three "guess"
  = inl (Py.HTTPException 500
           "Batch analysis failed: 401: Invalid API key").
Proof.
  destruct (invalid_key_gives_500 Z unit Sample.str Sample.verify_api_key
              Sample.batch_analyzer Sample.batch_clock Sample.batch_of_three
              (Sample.request_of "1") (inr ∅) (inr ∅) (inr ∅) "guess")
    as (H & _).
  destruct (H eq_refl) as (H1 & _). exact H1.
Defined.

Lemma batch_slots_in_order_witness :
  nth_error
    (batch_loop Sample.str Sample.idle_analyzer Sample.batch_clock
       Sample.batch_of_three []) 1
  = Some (item_of Sample.str Sample.idle_analyzer Sample.batch_clock
            (Sample.request_of "2")).
Proof.
  apply (batch_slots_in_order Z unit Sample.str Sample.idle_analyzer
           Sample.batch_clock Sample.batch_of_three 1
           (Sample.request_of "2")).
  reflexivity.
Defined.

End AppWitnesses.

(** ** Grades and model status *)

Section Grades.

Import App Aux.

Local Open Scope Q_scope.

(** Walk down the thresholds of [grade] for the score [x]. *)
Ltac grade_cases x :=
  destruct (ge x 90) eqn:?;
  [| destruct (ge x 85) eqn:?;
     [| destruct (ge x 80) eqn:?;
        [| destruct (ge x 75) eqn:?;
           [| destruct (ge x 70) eqn:?;
              [| destruct (ge x 65) eqn:?;
                 [| destruct (ge x 60) eqn:?;
                    [| destruct (ge x 55) eqn:?;
                       [| destruct (ge x 50) eqn:?]]]]]]]].

Ltac reflect_ge :=
  unfold ge in *; reflect_tests.

(** X21: the letter grade of a response is monotone in its overall
    score: a response with an overall score at least as high never gets a
    worse grade; the grade is F exactly below 50 and A+ exactly from 90
    on. *)
Theorem grade_is_monotone (r r' : AnalysisResponse) :
  (overall r <= overall r' ->
   (grade_rank (grade r) <= grade_rank (grade r'))%nat) /\
  (grade r = "F"%string <-> overall r < 50) /\
  (grade r = "A+"%string <-> 90 <= overall r).
Proof.
  unfold grade. split; [| split].
  - intros H. grade_cases (overall r); grade_cases (overall r');
      reflect_ge; first [exfalso; lra | vm_compute; lia].
  - grade_cases (overall r); reflect_ge;
      (split; [intros E; first [discriminate E | lra]
              | intros E; first [reflexivity | exfalso; lra]]).
  - grade_cases (overall r); reflect_ge;
      (split; [intros E; first [discriminate E | lra]
              | intros E; first [reflexivity | exfalso; lra]]).
Qed.

Lemma grade_is_monotone_witness :
  (grade_rank (grade (Sample.response_with 72))
   <= grade_rank (grade (Sample.response_with 91)))%nat.
Proof.
  apply (grade_is_monotone (Sample.response_with 72)
           (Sample.response_with 91)).
  vm_compute. discriminate.
Defined.

End Grades.

Section ModelStatus.

Import App Aux.

Variable Pose : Type.
Variable Info : Type.
Variable str : Py.exn -> string.
Variable self : GolfSwingAnalyzer Pose Info.

Lemma is_str_iff (h : pyval) (s : string) :
  is_str h s = true <-> h = VStr s.
Proof.
  destruct h as [b | t]; cbn.
  - split; discriminate.
  - rewrite String.eqb_eq. split; [intros -> | intros [= ->]]; reflexivity.
Qed.

(** X22: [get_model_status] never raises.  When the three status calls
    return, the overall health is healthy exactly when all three report
    healthy, unhealthy exactly when one of them reports unhealthy, and
    degraded otherwise (a status without a health entry counts as
    unknown); when a status call raises, the overall health is unhealthy
    and the message of the exception is attached. *)
Theorem model_status_health
    (tempo_status form_status pose_status : Py.result (gmap string pyval)) :
  let status :=
    get_model_status str self tempo_status form_status pose_status in
  (forall t f p,
     tempo_status = inr t -> form_status = inr f -> pose_status = inr p ->
     status_error status = None /\
     (overallHealth status = "healthy"%string <->
      health_of t = VStr "healthy" /\ health_of f = VStr "healthy" /\
      health_of p = VStr "healthy") /\
     (overallHealth status = "unhealthy"%string <->
      health_of t = VStr "unhealthy" \/ health_of f = VStr "unhealthy" \/
      health_of p = VStr "unhealthy") /\
     (overallHealth status = "healthy"%string \/
      overallHealth status = "unhealthy"%string \/
      overallHealth status = "degraded"%string)) /\
  (forall e,
     tempo_status = inl e \/
     (exists t, tempo_status = inr t /\ form_status = inl e) \/
     (exists t f, tempo_status = inr t /\ form_status = inr f /\
                  pose_status = inl e) ->
     overallHealth status = "unhealthy"%string /\
     status_error status = Some (str e) /\
     tempoModel status = None) /\
  version status = model_version self.
Proof.
  cbn zeta. unfold get_model_status. split; [| split].
  - intros t f p -> -> ->. cbn [Py.bind Py.ret forallb existsb].
    split.
    { destruct (is_str (health_of t) "healthy" && _)%bool; [reflexivity |].
      destruct (is_str (health_of t) "unhealthy" || _)%bool; reflexivity. }
    destruct (is_str (health_of t) "healthy") eqn:T1,
      (is_str (health_of f) "healthy") eqn:F1,
      (is_str (health_of p) "healthy") eqn:P1,
      (is_str (health_of t) "unhealthy") eqn:T2,
      (is_str (health_of f) "unhealthy") eqn:F2,
      (is_str (health_of p) "unhealthy") eqn:P2;
      cbn [andb orb overallHealth];
      repeat match goal with
             | H : is_str _ _ = true |- _ => apply is_str_iff in H
             | H : is_str ?h ?s = false |- _ =>
                 assert (h <> VStr s)
                   by (intros N; apply is_str_iff in N; congruence);
                 clear H
             end;
      repeat split; intros;
      repeat match goal with
             | H : _ /\ _ |- _ => destruct H
             end;
      try discriminate; try reflexivity; try congruence; try tauto;
      try (left; reflexivity); try (right; left; reflexivity);
      try (right; right; reflexivity).
  - intros e [-> | [(t & -> & ->) | (t & f & -> & -> & ->)]];
      cbn; repeat split; reflexivity.
  - destruct tempo_status as [e | t]; cbn [Py.bind]; [reflexivity |].
    destruct form_status as [e | f]; cbn [Py.bind]; [reflexivity |].
    destruct pose_status as [e | p]; cbn [Py.bind]; reflexivity.
Qed.

End ModelStatus.

Section ModelStatusWitness.

Import App Aux.

Lemma model_status_health_witness :
  overallHealth
    (get_model_status Sample.str Sample.batch_analyzer
       (inr (Sample.status_of "healthy")) (inr ∅)
       (inr (Sample.status_of "healthy")))
  = "degraded"%string /\
  overallHealth
    (get_model_status Sample.str Sample.batch_analyzer
       (inr (Sample.status_of "healthy"))
       (inl (Py.Raised "model missing"))
       (inr (Sample.status_of "healthy")))
  = "unhealthy"%string.
Proof.
  split.
  - reflexivity.
  - destruct (model_status_health Z unit Sample.str Sample.batch_analyzer
                (inr (Sample.status_of "healthy"))
                (inl (Py.Raised "model missing"))
                (inr (Sample.status_of "healthy"))) as (_ & H & _).
    apply (H (Py.Raised "model missing")). right. left.
    eexists. split; reflexivity.
Defined.

End ModelStatusWitness.

